(** * Urban multi-domain risk service: a shallow embedding of its core.

    The development follows the Python sources:
    - [model/preprocessing.py]       (module [Preprocessing]),
    - [model/cascading_engine.py]    (module [CascadingEngine]),
    - [model/risk_engine.py]         (module [RiskEngine]),
    - [api/realtime.py]              (module [Realtime]),
    - [api/scenario_deltas.py]       (module [ScenarioDeltas]),
    - [api/scenario_interpreter.py]  (module [ScenarioInterpreter]).

    Numbers.  A Python [float] is the rational it stands for, or one of the
    three special values [nan], [+inf] and [-inf].  Where the code computes
    with floats (the resilience score, the trend averages, the policy
    adjustments) every operation rounds its exact result to the nearest
    double, ties to even, as IEEE 754 binary64 does (module [Float64], built
    on the standard library's [SpecFloat]); comparisons, clamps and
    truncation are exact on floats and need no rounding.  Python integers
    are [Z].  Exceptions are values of an error monad. *)

From Stdlib Require Import ZArith QArith Qround Qminmax Qabs List String Ascii Bool Lia Lqa.
From Stdlib Require SpecFloat.
Import ListNotations.

Local Open Scope Q_scope.

(** ** The fragment of Python the sources rely on *)

Module Py.

(** Exception classes that occur in the modelled code. *)
Inductive Exc : Type :=
| TypeError
| ValueError
| OverflowError
| RuntimeError
| AttributeError
| ValidationError
| ClassifierFailure
| ZeroDivisionError.

Inductive Result (A : Type) : Type :=
| Ok (a : A)
| Raise (e : Exc).
Arguments Ok {A} a.
Arguments Raise {A} e.

Definition bind {A B : Type} (c : Result A) (k : A -> Result B) : Result B :=
  match c with
  | Ok a => k a
  | Raise e => Raise e
  end.

(** [try: c  except (TypeError, ValueError): h]; every other exception
    class passes through the handler untouched. *)
Definition except_type_value {A : Type} (c : Result A) (h : Result A) : Result A :=
  match c with
  | Ok a => Ok a
  | Raise TypeError => h
  | Raise ValueError => h
  | Raise e => Raise e
  end.

(** [try: c  except Exception: h] *)
Definition except_any {A : Type} (c : Result A) (h : A) : A :=
  match c with
  | Ok a => a
  | Raise _ => h
  end.

(** Floats. *)
Inductive PyFloat : Type :=
| Fin (q : Q)
| NaN
| PInf
| NInf.

(** Values a loosely typed metric dictionary can hold. *)
Inductive PyVal : Type :=
| VNone
| VBool (b : bool)
| VInt (z : Z)
| VFloat (f : PyFloat)
| VStr (s : string)
| VOther.                     (* list, dict, arbitrary object *)

Definition Qltb (a b : Q) : bool := negb (Qle_bool b a).

(** [a < b] on floats: every comparison with [nan] is false. *)
Definition fltb (a b : PyFloat) : bool :=
  match a, b with
  | NaN, _ | _, NaN => false
  | Fin x, Fin y => Qltb x y
  | NInf, NInf => false
  | NInf, _ => true
  | _, NInf => false
  | PInf, _ => false
  | Fin _, PInf => true
  end.

(** The two-argument builtins: [min(a, b)] keeps [a] unless [b < a],
    [max(a, b)] keeps [a] unless [b > a]. *)
Definition py_min {A : Type} (ltb : A -> A -> bool) (a b : A) : A :=
  if ltb b a then b else a.
Definition py_max {A : Type} (ltb : A -> A -> bool) (a b : A) : A :=
  if ltb a b then b else a.

(** The largest magnitude an [int] may have for [float(int)] to succeed:
    from [2^1024 - 2^970] on, the nearest double is out of range. *)
Definition float_int_limit : Z := (2 ^ 1024 - 2 ^ 970)%Z.

(** [float(v)].  Parsing text is CPython's business: [parse] stands for it
    ([None] is the [ValueError] of a malformed literal). *)
Definition py_float (parse : string -> option PyFloat) (v : PyVal) : Result PyFloat :=
  match v with
  | VNone => Raise TypeError
  | VBool b => Ok (Fin (if b then 1 else 0))
  | VInt z => if (Z.abs z <? float_int_limit)%Z then Ok (Fin (inject_Z z))
              else Raise OverflowError
  | VFloat f => Ok f
  | VStr s => match parse s with
              | Some f => Ok f
              | None => Raise ValueError
              end
  | VOther => Raise TypeError
  end.

(** Truncation toward zero. *)
Definition Qtrunc (q : Q) : Z := Z.quot (Qnum q) (Zpos (Qden q)).

(** [int(f)] for a float [f]. *)
Definition py_int (f : PyFloat) : Result Z :=
  match f with
  | Fin q => Ok (Qtrunc q)
  | NaN => Raise ValueError
  | PInf | NInf => Raise OverflowError
  end.

(** Rounding half to even, as [round] does. *)
Definition Qround_half_even (q : Q) : Z :=
  let f := Qfloor q in
  let r := q - inject_Z f in
  if Qltb r (1 # 2) then f
  else if Qltb (1 # 2) r then (f + 1)%Z
  else if Z.even f then f else (f + 1)%Z.

(** [round(f)] for a float [f]. *)
Definition py_round (f : PyFloat) : Result Z :=
  match f with
  | Fin q => Ok (Qround_half_even q)
  | NaN => Raise ValueError
  | PInf | NInf => Raise OverflowError
  end.

(** [round(q, 3)] on a finite float. *)
Definition py_round3 (q : Q) : Q := inject_Z (Qround_half_even (q * 1000)) / 1000.

(** [f - c] and [f / c] for a finite positive constant [c]. *)
Definition fsub (f : PyFloat) (c : Q) : PyFloat :=
  match f with
  | Fin q => Fin (q - c)
  | other => other
  end.
Definition fdiv (f : PyFloat) (c : Q) : PyFloat :=
  match f with
  | Fin q => Fin (q / c)
  | other => other
  end.

(** [f != v] for a float [f] and an arbitrary value [v]. *)
Definition float_ne_val (f : PyFloat) (v : PyVal) : bool :=
  match f, v with
  | Fin q, VBool b => negb (Qeq_bool q (if b then 1 else 0))
  | Fin q, VInt z => negb (Qeq_bool q (inject_Z z))
  | Fin q, VFloat (Fin q') => negb (Qeq_bool q q')
  | PInf, VFloat PInf => false
  | NInf, VFloat NInf => false
  | _, _ => true
  end.

(** A dictionary with string keys; [d.get(k)] is the first binding of [k]. *)
Definition Dict (V : Type) : Type := list (string * V).

Fixpoint dict_get {V : Type} (d : Dict V) (k : string) : option V :=
  match d with
  | [] => None
  | (k', v) :: rest => if String.eqb k' k then Some v else dict_get rest k
  end.

(** [d.get(k, default)] *)
Definition dict_get_default {V : Type} (d : Dict V) (k : string) (default : V) : V :=
  match dict_get d k with
  | Some v => v
  | None => default
  end.

(** [metrics.get(k)] on a metric bag: an absent key reads as [None]. *)
Definition metrics_get (d : Dict PyVal) (k : string) : PyVal :=
  dict_get_default d k VNone.

(** Values of a result dictionary. *)
#[warnings="-register-all"]
Inductive PyObj : Type :=
| ONone
| OStr (s : string)
| OFloat (q : Q)
| OInt (z : Z)
| ODict (d : list (string * PyObj)).

(** [o.get(k, default)]; only a dictionary has the method. *)
Definition obj_get (o : PyObj) (k : string) (default : PyObj) : Result PyObj :=
  match o with
  | ODict d => Ok (dict_get_default d k default)
  | _ => Raise AttributeError
  end.

(** Field validation of a pydantic model: a [str] field, a [float] field. *)
Definition as_str (o : PyObj) : Result string :=
  match o with
  | OStr s => Ok s
  | _ => Raise ValidationError
  end.

Definition as_float (o : PyObj) : Result Q :=
  match o with
  | OFloat q => Ok q
  | OInt z => Ok (inject_Z z)
  | _ => Raise ValidationError
  end.

(** [x or default] on an optional number: [None] and zero are falsy. *)
Definition py_or (x : option Q) (default : Q) : Q :=
  match x with
  | Some q => if Qeq_bool q 0 then default else q
  | None => default
  end.

End Py.

Import Py.

(** ** Double-precision arithmetic *)

Module Float64.

(** binary64: 53 bits of precision, exponents below 1024. *)
Definition prec : Z := 53.
Definition emax : Z := 1024.

(** The double nearest to a rational, ties to even: the quotient of its
    numerator by its denominator, correctly rounded. *)
Definition nearest (q : Q) : SpecFloat.spec_float :=
  match Qnum q with
  | Z0 => SpecFloat.S754_zero false
  | Zpos n =>
      SpecFloat.SFdiv prec emax (SpecFloat.S754_finite false n 0)
                      (SpecFloat.S754_finite false (Qden q) 0)
  | Zneg n =>
      SpecFloat.SFdiv prec emax (SpecFloat.S754_finite true n 0)
                      (SpecFloat.S754_finite false (Qden q) 0)
  end.

(** The number a double stands for: [m × 2^e] with its sign. *)
Definition of_spec (x : SpecFloat.spec_float) : PyFloat :=
  match x with
  | SpecFloat.S754_zero _ => Fin 0
  | SpecFloat.S754_infinity s => if s then NInf else PInf
  | SpecFloat.S754_nan => NaN
  | SpecFloat.S754_finite s m e =>
      let signed := if s then Zneg m else Zpos m in
      Fin (match e with
           | Z0 => inject_Z signed
           | Zpos p => inject_Z (signed * Z.pow_pos 2 p)
           | Zneg p => signed # (Pos.pow 2 p)
           end)
  end.

Definition to_spec (f : PyFloat) : SpecFloat.spec_float :=
  match f with
  | Fin q => nearest q
  | NaN => SpecFloat.S754_nan
  | PInf => SpecFloat.S754_infinity false
  | NInf => SpecFloat.S754_infinity true
  end.

(** Rounding to nearest, ties to even; too large a number gives an
    infinity. *)
Definition round64 (q : Q) : PyFloat := of_spec (nearest q).

(** A decimal literal of the source, read as the nearest double. *)
Definition literal (q : Q) : PyFloat := round64 q.

(** A float operand: a double.  A rational that is not one (0.78, say,
    written 78 # 100) is read as the double nearest to it, which is how the
    source holds it; a double is left as it is. *)
Definition double (f : PyFloat) : PyFloat :=
  match f with
  | Fin q => round64 q
  | other => other
  end.

(** [a + b], [a - b], [a * b]: the exact result of the two doubles, rounded
    once; the special values follow IEEE 754. *)
Definition fadd64 (a b : PyFloat) : PyFloat :=
  match double a, double b with
  | Fin x, Fin y => round64 (x + y)
  | a', b' => of_spec (SpecFloat.SFadd prec emax (to_spec a') (to_spec b'))
  end.

Definition fsub64 (a b : PyFloat) : PyFloat :=
  match double a, double b with
  | Fin x, Fin y => round64 (x - y)
  | a', b' => of_spec (SpecFloat.SFsub prec emax (to_spec a') (to_spec b'))
  end.

Definition fmul64 (a b : PyFloat) : PyFloat :=
  match double a, double b with
  | Fin x, Fin y => round64 (x * y)
  | a', b' => of_spec (SpecFloat.SFmul prec emax (to_spec a') (to_spec b'))
  end.

(** [a == 0] *)
Definition feq0 (a : PyFloat) : bool :=
  match double a with
  | Fin q => Qeq_bool q 0
  | _ => false
  end.

(** [a / b] for a divisor that is not zero (on a zero divisor, what
    IEEE 754 gives; Python raises, see [py_truediv]). *)
Definition fdiv64 (a b : PyFloat) : PyFloat :=
  match double a, double b with
  | Fin x, Fin y =>
      if Qeq_bool y 0
      then of_spec (SpecFloat.SFdiv prec emax (to_spec (Fin x)) (SpecFloat.S754_zero false))
      else round64 (x / y)
  | a', b' => of_spec (SpecFloat.SFdiv prec emax (to_spec a') (to_spec b'))
  end.

(** [a / b] as Python has it: a zero divisor raises. *)
Definition py_truediv (a b : PyFloat) : Result PyFloat :=
  if feq0 b then Raise ZeroDivisionError else Ok (fdiv64 a b).

(** [a <= b]: false when either is [nan]. *)
Definition fleb (a b : PyFloat) : bool :=
  match a, b with
  | NaN, _ | _, NaN => false
  | _, _ => negb (fltb b a)
  end.

End Float64.

Arguments Float64.round64 : simpl never.
Arguments Float64.literal : simpl never.
Arguments Float64.fadd64 : simpl never.
Arguments Float64.fsub64 : simpl never.
Arguments Float64.fmul64 : simpl never.
Arguments Float64.fdiv64 : simpl never.

Declare Scope py_scope.
Notation "x <- c ;; k" := (Py.bind c (fun x => k))
  (at level 61, c at next level, right associativity) : py_scope.
Notation "' pat <- c ;; k" := (Py.bind c (fun pat => k))
  (at level 61, pat pattern, c at next level, right associativity) : py_scope.
Local Open Scope py_scope.
Local Open Scope string_scope.

(** ** model/preprocessing.py *)

Module Preprocessing.

Record Range : Type := { lo : Q; hi : Q }.

(** ENVIRONMENTAL_DEFAULTS, ENVIRONMENTAL_RANGES *)
Definition ENV_DEFAULT_aqi : Q := 100.
Definition ENV_DEFAULT_traffic_density : Z := 1.
Definition ENV_DEFAULT_temperature : Q := 30.
Definition ENV_DEFAULT_rainfall : Q := 20.
Definition ENV_RANGE_aqi : Range := {| lo := 0; hi := 500 |}.
Definition ENV_RANGE_traffic_density : Z * Z := (0, 2)%Z.
Definition ENV_RANGE_temperature : Range := {| lo := 0; hi := 50 |}.
Definition ENV_RANGE_rainfall : Range := {| lo := 0; hi := 200 |}.

(** HEALTH_DEFAULTS, HEALTH_RANGES *)
Definition HEALTH_DEFAULT_aqi : Q := 100.
Definition HEALTH_DEFAULT_hospital_load : Q := 65 # 100.
Definition HEALTH_DEFAULT_respiratory_cases : Z := 200.
Definition HEALTH_DEFAULT_temperature : Q := 30.
Definition HEALTH_DEFAULT_environmental_risk_prob : Q := 1 # 2.
Definition HEALTH_RANGE_aqi : Range := {| lo := 0; hi := 500 |}.
Definition HEALTH_RANGE_hospital_load : Range := {| lo := 0; hi := 1 |}.
Definition HEALTH_RANGE_respiratory_cases : Z * Z := (0, 10000)%Z.
Definition HEALTH_RANGE_temperature : Range := {| lo := 0; hi := 50 |}.
Definition HEALTH_RANGE_environmental_risk_prob : Range := {| lo := 0; hi := 1 |}.

(** FOOD_DEFAULTS, FOOD_RANGES *)
Definition FOOD_DEFAULT_crop_supply_index : Q := 75.
Definition FOOD_DEFAULT_food_price_index : Q := 100.
Definition FOOD_DEFAULT_rainfall : Q := 40.
Definition FOOD_DEFAULT_temperature : Q := 30.
Definition FOOD_DEFAULT_supply_disruption_events : Z := 1.
Definition FOOD_RANGE_crop_supply_index : Range := {| lo := 0; hi := 100 |}.
Definition FOOD_RANGE_food_price_index : Range := {| lo := 50; hi := 200 |}.
Definition FOOD_RANGE_rainfall : Range := {| lo := 0; hi := 200 |}.
Definition FOOD_RANGE_temperature : Range := {| lo := 0; hi := 50 |}.
Definition FOOD_RANGE_supply_disruption_events : Z * Z := (0, 10)%Z.

(** [clip_to_range(value, min_val, max_val)
      = max(min_val, min(max_val, value))] *)
Definition clip_to_range (value : PyFloat) (r : Range) : PyFloat :=
  py_max fltb (Fin (lo r)) (py_min fltb (Fin (hi r)) value).

Definition clip_to_range_int (value : Z) (r : Z * Z) : Z :=
  py_max Z.ltb (fst r) (py_min Z.ltb (snd r) value).

(** [handle_missing(value, default, ...)]: [None] and a float [nan] are
    missing. *)
Definition handle_missing (value : PyVal) (default : PyVal) : PyVal :=
  match value with
  | VNone => default
  | VFloat NaN => default
  | _ => value
  end.

(** Entries of the assumptions log; the source formats them as text. *)
Inductive Assumption : Type :=
| Adjusted (field : string) (given : PyVal) (used : PyFloat)
| Invalid (field : string)
| KelvinConverted (celsius : PyFloat)
| PercentConverted (ratio : PyFloat).

Record EnvMetrics : Type := {
  env_aqi : PyFloat;
  env_traffic_density : Z;
  env_temperature : PyFloat;
  env_rainfall : PyFloat
}.

Record HealthMetrics : Type := {
  health_aqi : PyFloat;
  health_hospital_load : PyFloat;
  health_respiratory_cases : Z;
  health_temperature : PyFloat;
  health_environmental_risk_prob : PyFloat
}.

Record FoodMetrics : Type := {
  food_crop_supply_index : PyFloat;
  food_food_price_index : PyFloat;
  food_rainfall : PyFloat;
  food_temperature : PyFloat;
  food_supply_disruption_events : Z
}.

Section WithParser.

Variable parse : string -> option PyFloat.

(** The recurring block
<<
    try:
        x = handle_missing(metrics.get(k), DEFAULT, k, False)
        x = float(x)
        x = clip_to_range(x, *RANGE)
    except (TypeError, ValueError):
        x = DEFAULT; assumptions.append(...)
>>
    It yields the value and the entries it appends to the log. *)
Definition float_field (metrics : Dict PyVal) (k : string) (default : Q) (r : Range)
  : Result (PyFloat * list Assumption) :=
  except_type_value
    (x <- py_float parse (handle_missing (metrics_get metrics k) (VFloat (Fin default))) ;;
     Ok (clip_to_range x r, []))
    (Ok (Fin default, [Invalid k])).

(** The temperature block: Kelvin is detected above 200. *)
Definition temperature_field (metrics : Dict PyVal) (default : Q) (r : Range)
           (log_conversion : bool)
  : Result (PyFloat * list Assumption) :=
  except_type_value
    (t <- py_float parse
            (handle_missing (metrics_get metrics "temperature") (VFloat (Fin default))) ;;
     let '(t, notes) :=
       if fltb (Fin 200) t
       then let t' := fsub t (27315 # 100) in
            (t', if log_conversion then [KelvinConverted t'] else [])
       else (t, []) in
     Ok (clip_to_range t r, notes))
    (Ok (Fin default, [Invalid "temperature"])).

(** The count block: [int(float(x))], then clipped. *)
Definition count_field (metrics : Dict PyVal) (k : string) (default : Z) (r : Z * Z)
  : Result (Z * list Assumption) :=
  except_type_value
    (x <- py_float parse (handle_missing (metrics_get metrics k) (VInt default)) ;;
     n <- py_int x ;;
     Ok (clip_to_range_int n r, []))
    (Ok (default, [Invalid k])).

Definition preprocess_environmental_metrics (metrics : Dict PyVal)
  : Result (EnvMetrics * list Assumption) :=
  (* AQI *)
  '(aqi, a1) <-
    except_type_value
      (x <- py_float parse
              (handle_missing (metrics_get metrics "aqi") (VFloat (Fin ENV_DEFAULT_aqi))) ;;
       let x := clip_to_range x ENV_RANGE_aqi in
       Ok (x, if float_ne_val x (metrics_get metrics "aqi")
              then [Adjusted "aqi" (metrics_get metrics "aqi") x] else []))
      (Ok (Fin ENV_DEFAULT_aqi, [Invalid "aqi"])) ;;
  (* Traffic density *)
  '(traffic, a2) <-
    except_type_value
      (x <- py_float parse
              (handle_missing (metrics_get metrics "traffic_density")
                              (VInt ENV_DEFAULT_traffic_density)) ;;
       n <- py_round x ;;
       Ok (clip_to_range_int n ENV_RANGE_traffic_density, []))
      (Ok (ENV_DEFAULT_traffic_density, [Invalid "traffic_density"])) ;;
  (* Temperature *)
  '(temp, a3) <- temperature_field metrics ENV_DEFAULT_temperature ENV_RANGE_temperature true ;;
  (* Rainfall *)
  '(rain, a4) <- float_field metrics "rainfall" ENV_DEFAULT_rainfall ENV_RANGE_rainfall ;;
  Ok ({| env_aqi := aqi; env_traffic_density := traffic;
         env_temperature := temp; env_rainfall := rain |},
      (a1 ++ a2 ++ a3 ++ a4)%list).

(** [preprocess_all_metrics] calls this one with [env_risk_prob=None]. *)
Definition preprocess_health_metrics (metrics : Dict PyVal) (env_risk_prob : option PyFloat)
  : Result (HealthMetrics * list Assumption) :=
  '(aqi, a1) <- float_field metrics "aqi" HEALTH_DEFAULT_aqi HEALTH_RANGE_aqi ;;
  (* Hospital load: a value above 1 is read as a percentage. *)
  '(load, a2) <-
    except_type_value
      (l <- py_float parse
              (handle_missing (metrics_get metrics "hospital_load")
                              (VFloat (Fin HEALTH_DEFAULT_hospital_load))) ;;
       let '(l, notes) :=
         if fltb (Fin 1) l
         then let l' := fdiv l 100 in (l', [PercentConverted l'])
         else (l, []) in
       Ok (clip_to_range l HEALTH_RANGE_hospital_load, notes))
      (Ok (Fin HEALTH_DEFAULT_hospital_load, [Invalid "hospital_load"])) ;;
  '(cases, a3) <- count_field metrics "respiratory_cases"
                    HEALTH_DEFAULT_respiratory_cases HEALTH_RANGE_respiratory_cases ;;
  '(temp, a4) <- temperature_field metrics HEALTH_DEFAULT_temperature
                   HEALTH_RANGE_temperature false ;;
  '(erp, a5) <-
    match env_risk_prob with
    | Some p => Ok (clip_to_range p HEALTH_RANGE_environmental_risk_prob, [])
    | None => float_field metrics "environmental_risk_prob"
                HEALTH_DEFAULT_environmental_risk_prob
                HEALTH_RANGE_environmental_risk_prob
    end ;;
  Ok ({| health_aqi := aqi; health_hospital_load := load;
         health_respiratory_cases := cases; health_temperature := temp;
         health_environmental_risk_prob := erp |},
      (a1 ++ a2 ++ a3 ++ a4 ++ a5)%list).

Definition preprocess_food_metrics (metrics : Dict PyVal)
  : Result (FoodMetrics * list Assumption) :=
  '(supply, a1) <- float_field metrics "crop_supply_index"
                     FOOD_DEFAULT_crop_supply_index FOOD_RANGE_crop_supply_index ;;
  '(price, a2) <- float_field metrics "food_price_index"
                    FOOD_DEFAULT_food_price_index FOOD_RANGE_food_price_index ;;
  '(rain, a3) <- float_field metrics "rainfall" FOOD_DEFAULT_rainfall FOOD_RANGE_rainfall ;;
  '(temp, a4) <- temperature_field metrics FOOD_DEFAULT_temperature
                   FOOD_RANGE_temperature false ;;
  '(disruptions, a5) <- count_field metrics "supply_disruption_events"
                          FOOD_DEFAULT_supply_disruption_events
                          FOOD_RANGE_supply_disruption_events ;;
  Ok ({| food_crop_supply_index := supply; food_food_price_index := price;
         food_rainfall := rain; food_temperature := temp;
         food_supply_disruption_events := disruptions |},
      (a1 ++ a2 ++ a3 ++ a4 ++ a5)%list).

(** The three slices and the concatenated log (the source carries each
    log under the key ['_assumptions'] and pops it here). *)
Definition preprocess_all_metrics (metrics : Dict PyVal)
  : Result (EnvMetrics * HealthMetrics * FoodMetrics * list Assumption) :=
  '(env_metrics, ea) <- preprocess_environmental_metrics metrics ;;
  '(health_metrics, ha) <- preprocess_health_metrics metrics None ;;
  '(food_metrics, fa) <- preprocess_food_metrics metrics ;;
  Ok (env_metrics, health_metrics, food_metrics, (ea ++ ha ++ fa)%list).

End WithParser.

End Preprocessing.

(** ** The classifier abstraction (model/models/base_model.py)

    A trained model is opaque: [predict_with_proba] on a one-row feature
    array gives the label, the three class probabilities and the
    probability of the predicted class, or fails. *)

Module Classifier.

Record Distribution : Type := { low : Q; medium : Q; high : Q }.

Record Output : Type := {
  class : string;
  probabilities : Distribution;
  confidence : Q
}.

Definition Model : Type := list PyFloat -> Result Output.

(** [list(probs.values())] of a [{'low':…, 'medium':…, 'high':…}] dict. *)
Definition values (d : Distribution) : list Q := [low d; medium d; high d].

End Classifier.

(** ** model/cascading_engine.py *)

Module CascadingEngine.

Import Preprocessing.

(** RESILIENCE_WEIGHTS *)
Definition RESILIENCE_WEIGHT_environmental : Q := 35 # 100.
Definition RESILIENCE_WEIGHT_health : Q := 40 # 100.
Definition RESILIENCE_WEIGHT_food : Q := 25 # 100.

(** The engine object: its three models and the training flag. *)
Record CascadingRiskEngine : Type := {
  env_model : Classifier.Model;
  health_model : Classifier.Model;
  food_model : Classifier.Model;
  _is_trained : bool
}.

Record DomainPrediction : Type := {
  risk : string;
  prob : Q;
  probabilities : Classifier.Distribution
}.

Record Confidences : Type := {
  conf_environmental : Q;
  conf_health : Q;
  conf_food_security : Q
}.

(** The [description] text of [cascading_effect] is a rendering of the
    same number and is left out. *)
Record CascadingEffect : Type := {
  env_risk_injected_to_health : Q
}.

(** The dictionary [predict_cascading_risks] returns, key by key. *)
Record Prediction : Type := {
  environmental : DomainPrediction;
  health : DomainPrediction;
  food_security : DomainPrediction;
  resilience_score : Z;
  confidence : Confidences;
  cascading_effect : CascadingEffect;
  assumptions : option (list Assumption)
}.

(** [max(0, min(100, resilience))] *)
Definition clamp_resilience (resilience : PyFloat) : PyFloat :=
  py_max fltb (Fin 0) (py_min fltb (Fin 100) resilience).

(** [_calculate_resilience_score]: float arithmetic in the order of the
    source.  The clamp leaves 0, 100 or a float strictly between them, so
    [int] does not raise ([clamp_resilience_is_finite]). *)
Definition _calculate_resilience_score (env_high_prob health_high_prob food_high_prob : Q) : Z :=
  let weighted_risk :=
    Float64.fadd64
      (Float64.fadd64
         (Float64.fmul64 (Float64.literal RESILIENCE_WEIGHT_environmental) (Fin env_high_prob))
         (Float64.fmul64 (Float64.literal RESILIENCE_WEIGHT_health) (Fin health_high_prob)))
      (Float64.fmul64 (Float64.literal RESILIENCE_WEIGHT_food) (Fin food_high_prob)) in
  let resilience := Float64.fmul64 (Fin 100) (Float64.fsub64 (Fin 1) weighted_risk) in
  (* int(max(0, min(100, resilience))) *)
  match py_int (clamp_resilience resilience) with
  | Ok score => score
  | Raise _ => 0%Z
  end.

(** Ascending insertion sort, for [np.sort]. *)
Fixpoint insert_sorted (x : Q) (l : list Q) : list Q :=
  match l with
  | [] => [x]
  | y :: rest => if Qle_bool x y then x :: l else y :: insert_sorted x rest
  end.

Definition np_sort (l : list Q) : list Q := fold_right insert_sorted [] l.

Definition Qsum (l : list Q) : Q := fold_left Qplus l 0.

Section WithRuntime.

(** [float(str)] of CPython and [np.log] of NumPy. *)
Variable parse : string -> option PyFloat.
Variable np_log : Q -> Q.

(** [_calculate_confidence] *)
Definition _calculate_confidence (probabilities : list Q) : Q :=
  (* probs = np.clip(probs, 1e-10, 1.0) *)
  let probs := map (fun p => Qmin (Qmax p (1 # 10000000000)) 1) probabilities in
  (* probs = probs / probs.sum() *)
  let total := Qsum probs in
  let probs := map (fun p => p / total) probs in
  let entropy := - Qsum (map (fun p => p * np_log p) probs) in
  let max_entropy := np_log (inject_Z (Z.of_nat (List.length probs))) in
  let entropy_confidence := 1 - entropy / max_entropy in
  (* sorted_probs = np.sort(probs)[::-1] *)
  let sorted_probs := rev (np_sort probs) in
  let margin :=
    match sorted_probs with
    | p0 :: p1 :: _ => p0 - p1
    | [p0] => p0
    | [] => 0
    end in
  let confidence := (6 # 10) * entropy_confidence + (4 # 10) * margin in
  py_round3 confidence.

(** The feature rows handed to the three models. *)
Definition X_env (m : EnvMetrics) : list PyFloat :=
  [env_aqi m; Fin (inject_Z (env_traffic_density m)); env_temperature m; env_rainfall m].

Definition X_health (m : HealthMetrics) : list PyFloat :=
  [health_aqi m; health_hospital_load m; Fin (inject_Z (health_respiratory_cases m));
   health_temperature m; health_environmental_risk_prob m].

Definition X_food (m : FoodMetrics) : list PyFloat :=
  [food_crop_supply_index m; food_food_price_index m; food_rainfall m;
   food_temperature m; Fin (inject_Z (food_supply_disruption_events m))].

(** [health_metrics['environmental_risk_prob'] = env_high_prob] *)
Definition inject_env_risk (m : HealthMetrics) (env_high_prob : Q) : HealthMetrics :=
  {| health_aqi := health_aqi m;
     health_hospital_load := health_hospital_load m;
     health_respiratory_cases := health_respiratory_cases m;
     health_temperature := health_temperature m;
     health_environmental_risk_prob := Fin env_high_prob |}.

Definition domain_prediction (out : Classifier.Output) : DomainPrediction :=
  {| risk := Classifier.class out;
     prob := Classifier.high (Classifier.probabilities out);
     probabilities := Classifier.probabilities out |}.

(** [predict_cascading_risks] *)
Definition predict_cascading_risks (self : CascadingRiskEngine) (metrics : Dict PyVal)
  : Result Prediction :=
  if negb (_is_trained self) then Raise RuntimeError else
  '(env_metrics, health_metrics, food_metrics, assumptions) <-
    preprocess_all_metrics parse metrics ;;
  (* STEP 1: environmental risk *)
  env_result <- env_model self (X_env env_metrics) ;;
  let env_probs := Classifier.probabilities env_result in
  let env_risk_class := Classifier.class env_result in
  let env_high_prob := Classifier.high env_probs in
  (* STEP 2: health risk, with P_env injected *)
  let health_metrics := inject_env_risk health_metrics env_high_prob in
  health_result <- health_model self (X_health health_metrics) ;;
  let health_probs := Classifier.probabilities health_result in
  let health_risk_class := Classifier.class health_result in
  let health_high_prob := Classifier.high health_probs in
  (* STEP 3: food security risk *)
  food_result <- food_model self (X_food food_metrics) ;;
  let food_probs := Classifier.probabilities food_result in
  let food_risk_class := Classifier.class food_result in
  let food_high_prob := Classifier.high food_probs in
  (* STEP 4: resilience score *)
  let resilience_score :=
    _calculate_resilience_score env_high_prob health_high_prob food_high_prob in
  (* STEP 5: confidence scores *)
  let env_confidence := _calculate_confidence (Classifier.values env_probs) in
  let health_confidence := _calculate_confidence (Classifier.values health_probs) in
  let food_confidence := _calculate_confidence (Classifier.values food_probs) in
  Ok {| environmental :=
          {| risk := env_risk_class; prob := env_high_prob; probabilities := env_probs |};
        health :=
          {| risk := health_risk_class; prob := health_high_prob;
             probabilities := health_probs |};
        food_security :=
          {| risk := food_risk_class; prob := food_high_prob;
             probabilities := food_probs |};
        resilience_score := resilience_score;
        confidence :=
          {| conf_environmental := env_confidence;
             conf_health := health_confidence;
             conf_food_security := food_confidence |};
        cascading_effect := {| env_risk_injected_to_health := env_high_prob |};
        assumptions := match assumptions with [] => None | _ => Some assumptions end |}.

End WithRuntime.

End CascadingEngine.

(** ** model/risk_engine.py *)

Module RiskEngine.

Record RiskEngine : Type := {
  env_model : Classifier.Model;
  health_model : Classifier.Model;
  food_model : Classifier.Model
}.

(** The single-sample dictionary the three [predict_*] methods return. *)
Record Prediction : Type := {
  risk_class : string;
  probabilities : Classifier.Distribution;
  confidence : Q
}.

Definition single_sample (out : Classifier.Output) : Prediction :=
  {| risk_class := Classifier.class out;
     probabilities := Classifier.probabilities out;
     confidence := Classifier.confidence out |}.

(** [predict_environmental]: the threshold override comes first. *)
Definition predict_environmental (self : RiskEngine)
           (aqi traffic_density temperature rainfall : PyFloat) : Result Prediction :=
  let X := [aqi; traffic_density; temperature; rainfall] in
  if fltb (Fin 300) aqi then
    Ok {| risk_class := "high";
          probabilities := {| Classifier.low := 2 # 100; Classifier.medium := 8 # 100;
                              Classifier.high := 90 # 100 |};
          confidence := 99 # 100 |}
  else
    result <- env_model self X ;;
    Ok (single_sample result).

(** [predict_health] *)
Definition predict_health (self : RiskEngine)
           (aqi hospital_load respiratory_cases temperature environmental_risk_prob : PyFloat)
  : Result Prediction :=
  let X := [aqi; hospital_load; respiratory_cases; temperature; environmental_risk_prob] in
  result <- health_model self X ;;
  Ok (single_sample result).

(** [predict_food_security]: the threshold override comes first. *)
Definition predict_food_security (self : RiskEngine)
           (crop_supply_index food_price_index rainfall temperature
            supply_disruption_events : PyFloat) : Result Prediction :=
  let X := [crop_supply_index; food_price_index; rainfall; temperature;
            supply_disruption_events] in
  if fltb crop_supply_index (Fin 30) then
    Ok {| risk_class := "high";
          probabilities := {| Classifier.low := 1 # 100; Classifier.medium := 4 # 100;
                              Classifier.high := 95 # 100 |};
          confidence := 99 # 100 |}
  else
    result <- food_model self X ;;
    Ok (single_sample result).

End RiskEngine.

(** ** api/realtime.py *)

Module Realtime.

Import CascadingEngine.

Definition WINDOW_SIZE : nat := 60.
Definition STALE_THRESHOLD : Q := 60.
Definition MAX_INFERENCE_RATE : Q := 2.

(** The three slots.  Timestamps and clock readings are seconds. *)
Record EnvironmentalState : Type := {
  aqi : option Q;
  temperature : option Q;
  humidity : option Q;
  env_timestamp : option Q
}.

Record HealthState : Type := {
  hospital_load : option Q;
  respiratory_cases : option Q;
  health_timestamp : option Q
}.

Record FoodState : Type := {
  price_volatility : option Q;
  supply_index : option Q;
  food_timestamp : option Q
}.

Record PredictionRecord : Type := {
  timestamp : Q;
  environmental_risk : string;
  environmental_prob : Q;
  health_risk : string;
  health_prob : Q;
  food_security_risk : string;
  food_security_prob : Q;
  confidence : Q;
  inference_time_ms : Q
}.

Record RealtimeStateManager : Type := {
  environmental_state : EnvironmentalState;
  health_state : HealthState;
  food_state : FoodState;
  prediction_history : list PredictionRecord;
  latest_prediction : option PredictionRecord;
  _last_inference_time : Q
}.

(** [RealtimeStateManager()] *)
Definition init : RealtimeStateManager :=
  {| environmental_state :=
       {| aqi := None; temperature := None; humidity := None; env_timestamp := None |};
     health_state :=
       {| hospital_load := None; respiratory_cases := None; health_timestamp := None |};
     food_state :=
       {| price_volatility := None; supply_index := None; food_timestamp := None |};
     prediction_history := [];
     latest_prediction := None;
     _last_inference_time := 0 |}.

(** [deque(maxlen=n).append(x)]: a full deque drops its oldest entry. *)
Definition deque_append {A : Type} (maxlen : nat) (d : list A) (x : A) : list A :=
  if (maxlen <=? List.length d)%nat then (tl d ++ [x])%list else (d ++ [x])%list.

(** The body of the loop of [get_confidence] for one slot. *)
Definition append_confidence (now : Q) (confidences : list Q) (ts : option Q) : list Q :=
  match ts with
  | None => (confidences ++ [5 # 10])%list
  | Some ts =>
      let age_seconds := now - ts in
      if Qltb age_seconds STALE_THRESHOLD then (confidences ++ [1])%list
      else if Qltb age_seconds (STALE_THRESHOLD * 2) then (confidences ++ [8 # 10])%list
      else if Qltb age_seconds (STALE_THRESHOLD * 5) then (confidences ++ [5 # 10])%list
      else (confidences ++ [3 # 10])%list
  end.

(** [get_confidence]; [now] is the reading of [datetime.now()]. *)
Definition get_confidence (now : Q) (self : RealtimeStateManager) : Q :=
  let confidences :=
    fold_left (append_confidence now)
              [env_timestamp (environmental_state self);
               health_timestamp (health_state self);
               food_timestamp (food_state self)]
              [] in
  Qsum confidences / inject_Z (Z.of_nat (List.length confidences)).

Record MergedState : Type := {
  m_aqi : Q;
  m_temperature : Q;
  m_humidity : Q;
  m_hospital_load : Q;
  m_respiratory_cases : Q;
  m_bed_occupancy_percent : Q;
  m_price_volatility : Q;
  m_crop_supply_index : Q;
  m_confidence : Q
}.

(** [get_merged_state] *)
Definition get_merged_state (now : Q) (self : RealtimeStateManager) : MergedState :=
  {| m_aqi := py_or (aqi (environmental_state self)) 100;
     m_temperature := py_or (temperature (environmental_state self)) 25;
     m_humidity := py_or (humidity (environmental_state self)) 60;
     m_hospital_load := py_or (hospital_load (health_state self)) (5 # 10);
     m_respiratory_cases := py_or (respiratory_cases (health_state self)) 100;
     m_bed_occupancy_percent := py_or (hospital_load (health_state self)) (5 # 10) * 100;
     m_price_volatility := py_or (price_volatility (food_state self)) (1 # 10);
     m_crop_supply_index := py_or (supply_index (food_state self)) 80;
     m_confidence := get_confidence now self |}.

(** The [metrics] dictionary [run_inference] prepares from the merged state. *)
Definition inference_metrics (state : MergedState) : Dict PyVal :=
  [("temperature", VFloat (Fin (m_temperature state)));
   ("aqi", VFloat (Fin (m_aqi state)));
   ("humidity", VFloat (Fin (m_humidity state)));
   ("respiratory_cases", VFloat (Fin (m_respiratory_cases state)));
   ("price_volatility", VFloat (Fin (m_price_volatility state)));
   ("bed_occupancy_percent", VFloat (Fin (m_bed_occupancy_percent state)));
   ("crop_supply_index", VFloat (Fin (m_crop_supply_index state)))].

(** The dictionary literal [predict_cascading_risks] returns, as the
    caller sees it. *)
Definition distribution_dict (d : Classifier.Distribution) : PyObj :=
  ODict [("low", OFloat (Classifier.low d)); ("medium", OFloat (Classifier.medium d));
         ("high", OFloat (Classifier.high d))].

Definition domain_dict (d : DomainPrediction) : PyObj :=
  ODict [("risk", OStr (risk d)); ("prob", OFloat (prob d));
         ("probabilities", distribution_dict (probabilities d))].

Definition prediction_dict (p : Prediction) : PyObj :=
  ODict [("environmental", domain_dict (environmental p));
         ("health", domain_dict (health p));
         ("food_security", domain_dict (food_security p));
         ("resilience_score", OInt (resilience_score p));
         ("confidence",
          ODict [("environmental", OFloat (conf_environmental (CascadingEngine.confidence p)));
                 ("health", OFloat (conf_health (CascadingEngine.confidence p)));
                 ("food_security",
                  OFloat (conf_food_security (CascadingEngine.confidence p)))]);
         ("cascading_effect",
          ODict [("env_risk_injected_to_health",
                  OFloat (env_risk_injected_to_health (cascading_effect p)))])].

(** The clock readings one call of [run_inference] takes, in order. *)
Record Clock : Type := {
  current_time : Q;      (* time.time() at the rate gate *)
  start_time : Q;        (* time.time() before the work *)
  confidence_now : Q;    (* datetime.now() inside get_confidence *)
  end_time : Q;          (* time.time() after the prediction *)
  record_now : Q         (* datetime.now() stamped on the record *)
}.

Section WithRuntime.

Variable parse : string -> option PyFloat.
Variable np_log : Q -> Q.
(** [MLEngine.get_instance()] *)
Variable engine : CascadingRiskEngine.

(** The rate gate of [run_inference]. *)
Definition rate_limited (clk : Clock) (self : RealtimeStateManager) : bool :=
  Qltb (current_time clk - _last_inference_time self) (1 / MAX_INFERENCE_RATE).

(** The [try] block of [run_inference]. *)
Definition build_record (clk : Clock) (self : RealtimeStateManager)
  : Result PredictionRecord :=
  let state := get_merged_state (confidence_now clk) self in
  let confidence := m_confidence state in
  let metrics := inference_metrics state in
  result <- predict_cascading_risks parse np_log engine metrics ;;
  let result := prediction_dict result in
  let inference_time_ms := (end_time clk - start_time clk) * 1000 in
  env_pred <- obj_get result "environmental" (ODict []) ;;
  health_pred <- obj_get result "health" (ODict []) ;;
  food_pred <- obj_get result "food_security" (ODict []) ;;
  e_risk <- obj_get env_pred "risk_level" (OStr "medium") ;;
  e_prob <- obj_get env_pred "high_prob" (OFloat (5 # 10)) ;;
  h_risk <- obj_get health_pred "risk_level" (OStr "low") ;;
  h_prob <- obj_get health_pred "high_prob" (OFloat (2 # 10)) ;;
  f_risk <- obj_get food_pred "risk_level" (OStr "low") ;;
  f_prob <- obj_get food_pred "high_prob" (OFloat (1 # 10)) ;;
  (* PredictionRecord(...) validates its fields *)
  e_risk <- as_str e_risk ;;
  e_prob <- as_float e_prob ;;
  h_risk <- as_str h_risk ;;
  h_prob <- as_float h_prob ;;
  f_risk <- as_str f_risk ;;
  f_prob <- as_float f_prob ;;
  Ok {| timestamp := record_now clk;
        environmental_risk := e_risk;
        environmental_prob := e_prob;
        health_risk := h_risk;
        health_prob := h_prob;
        food_security_risk := f_risk;
        food_security_prob := f_prob;
        confidence := confidence;
        inference_time_ms := inference_time_ms |}.

Definition set_last_inference_time (self : RealtimeStateManager) (t : Q)
  : RealtimeStateManager :=
  {| environmental_state := environmental_state self;
     health_state := health_state self;
     food_state := food_state self;
     prediction_history := prediction_history self;
     latest_prediction := latest_prediction self;
     _last_inference_time := t |}.

Definition store (self : RealtimeStateManager) (record : PredictionRecord)
  : RealtimeStateManager :=
  {| environmental_state := environmental_state self;
     health_state := health_state self;
     food_state := food_state self;
     prediction_history := deque_append WINDOW_SIZE (prediction_history self) record;
     latest_prediction := Some record;
     _last_inference_time := _last_inference_time self |}.

(** [run_inference]: the manager after the call and what the call returns. *)
Definition run_inference (clk : Clock) (self : RealtimeStateManager)
  : RealtimeStateManager * option PredictionRecord :=
  if rate_limited clk self then (self, None)
  else
    let self := set_last_inference_time self (current_time clk) in
    match build_record clk self with
    | Ok record => (store self record, Some record)
    | Raise _ => (self, None)
    end.

(** A sequence of calls, one clock per call. *)
Fixpoint run_inferences (clks : list Clock) (self : RealtimeStateManager)
  : RealtimeStateManager * list (option PredictionRecord) :=
  match clks with
  | [] => (self, [])
  | clk :: rest =>
      let '(self1, r) := run_inference clk self in
      let '(self2, rs) := run_inferences rest self1 in
      (self2, r :: rs)
  end.

(** The gate readings of the calls of a sequence that passed the gate,
    that is, of the inferences that were executed. *)
Fixpoint executed_times (clks : list Clock) (self : RealtimeStateManager) : list Q :=
  match clks with
  | [] => []
  | clk :: rest =>
      let self1 := fst (run_inference clk self) in
      if rate_limited clk self then executed_times rest self1
      else current_time clk :: executed_times rest self1
  end.

End WithRuntime.

End Realtime.

(** ** api/schemas.py: ScenarioSignals *)

Module Schemas.

Inductive Event : Type :=
| flood | heatwave | drought | pollution | cyclone | no_event.

Inductive Severity : Type :=
| severity_low | severity_moderate | severity_high.

Inductive Duration : Type :=
| duration_short | duration_moderate | duration_prolonged.

Inductive Impact : Type :=
| transport_disruption
| hospital_access_reduction
| power_outage
| water_shortage
| food_supply_disruption
| no_impact.

Inductive Confidence : Type :=
| confidence_high | confidence_medium | confidence_low.

Record ScenarioSignals : Type := {
  primary_events : list Event;
  duration : Duration;
  severity : Severity;
  secondary_impacts : list Impact;
  confidence : Confidence
}.

(** The four deltas of a delta dictionary (its [description] is a rendering
    of the signals as text and its [signals] entry echoes the input). *)
Record Deltas : Type := {
  aqi_delta : Q;
  temperature_delta : Q;
  hospital_load_delta : Q;
  crop_supply_delta : Q
}.

End Schemas.

(** ** Text matching shared by the two signal extractors *)

Module Text.

(** [str.lower()] on ASCII text. *)
Definition lower_ascii (c : ascii) : ascii :=
  let n := nat_of_ascii c in
  if ((65 <=? n) && (n <=? 90))%nat then ascii_of_nat (n + 32) else c.

Fixpoint lower (s : string) : string :=
  match s with
  | EmptyString => EmptyString
  | String c rest => String (lower_ascii c) (lower rest)
  end.

(** [kw in s] *)
Fixpoint contains (kw s : string) : bool :=
  if String.prefix kw s then true
  else match s with
       | EmptyString => false
       | String _ rest => contains kw rest
       end.

(** [any(kw in p for kw in keywords)] *)
Definition any_keyword (keywords : list string) (p : string) : bool :=
  existsb (fun kw => contains kw p) keywords.

(** [for key, keywords in table.items(): if any(...): out.append(key)] *)
Definition matching_keys {K : Type} (table : list (K * list string)) (p : string) : list K :=
  fold_left (fun out entry => if any_keyword (snd entry) p then (out ++ [fst entry])%list else out)
            table [].

(** [for key, keywords in table.items(): if any(...): value = key; break] *)
Fixpoint first_match {K : Type} (table : list (K * list string)) (p : string) (default : K) : K :=
  match table with
  | [] => default
  | (key, keywords) :: rest =>
      if any_keyword keywords p then key else first_match rest p default
  end.

End Text.

(** ** api/scenario_deltas.py *)

Module ScenarioDeltas.

Import Schemas Text.

(** KEYWORDS *)
Definition KEYWORDS_primary_events : list (Event * list string) :=
  [(flood, ["flood"; "flooding"; "heavy rain"; "monsoon"; "waterlogging"; "deluge"]);
   (heatwave, ["heatwave"; "heat"; "hot"; "temperature spike"; "scorching"; "sun"]);
   (drought, ["drought"; "dry"; "arid"; "water shortage"; "no rain"]);
   (pollution, ["pollution"; "smog"; "aqi"; "air quality"; "haze"; "toxic"]);
   (cyclone, ["cyclone"; "storm"; "hurricane"; "wind"; "gale"])].

Definition KEYWORDS_severity : list (Severity * list string) :=
  [(severity_high, ["severe"; "extreme"; "catastrophic"; "massive"; "deadly"; "critical"; "major"]);
   (severity_low, ["mild"; "minor"; "slight"; "small"; "low"]);
   (severity_moderate, ["moderate"; "medium"; "average"])].

Definition KEYWORDS_duration : list (Duration * list string) :=
  [(duration_prolonged,
    ["prolonged"; "long"; "weeks"; "month"; "extended"; "chronic"; "persistent"]);
   (duration_short, ["short"; "brief"; "flash"; "sudden"; "day"; "hour"]);
   (duration_moderate, ["moderate"; "medium"])].

Definition KEYWORDS_secondary_impacts : list (Impact * list string) :=
  [(transport_disruption, ["traffic"; "transport"; "road"; "commute"; "stuck"; "jam"]);
   (hospital_access_reduction, ["hospital"; "medical"; "ambulance"; "health"; "access"]);
   (power_outage, ["power"; "electricity"; "blackout"; "outage"; "light"]);
   (water_shortage, ["water supply"; "dry tap"; "drinking water"]);
   (food_supply_disruption, ["food"; "crop"; "supply"; "market"; "shortage"])].

(** The confidence rule of [extract_scenario_signals]. *)
Definition confidence_of (match_count : nat) : Confidence :=
  if (2 <=? match_count)%nat then confidence_high
  else if (match_count =? 1)%nat then confidence_medium
  else confidence_low.

(** [extract_scenario_signals] *)
Definition extract_scenario_signals (prompt : string) : ScenarioSignals :=
  let prompt_lower := lower prompt in
  let primary_events := matching_keys KEYWORDS_primary_events prompt_lower in
  let severity := first_match KEYWORDS_severity prompt_lower severity_moderate in
  let duration := first_match KEYWORDS_duration prompt_lower duration_moderate in
  let secondary_impacts := matching_keys KEYWORDS_secondary_impacts prompt_lower in
  let match_count :=
    (List.length primary_events + List.length secondary_impacts +
     match severity with severity_moderate => 0 | _ => 1 end)%nat in
  let confidence := confidence_of match_count in
  {| primary_events := match primary_events with [] => [no_event] | _ => primary_events end;
     duration := duration;
     severity := severity;
     secondary_impacts := secondary_impacts;
     confidence := confidence |}.

Definition sev_mult (s : Severity) : Q :=
  match s with
  | severity_low => 5 # 10
  | severity_moderate => 1
  | severity_high => 15 # 10
  end.

Definition dur_mult (d : Duration) : Q :=
  match d with
  | duration_short => 8 # 10
  | duration_moderate => 1
  | duration_prolonged => 15 # 10
  end.

(** [signals.primary_events if signals.primary_events and
     signals.primary_events != ["none"] else []] *)
Definition active_events (events : list Event) : list Event :=
  match events with
  | [no_event] => []
  | _ => events
  end.

Definition add_deltas (d : Deltas) (a t h c : Q) : Deltas :=
  {| aqi_delta := aqi_delta d + a;
     temperature_delta := temperature_delta d + t;
     hospital_load_delta := hospital_load_delta d + h;
     crop_supply_delta := crop_supply_delta d + c |}.

(** One turn of the loop over the primary events: the [if]/[elif] chain. *)
Definition event_step (signals : ScenarioSignals) (deltas : Deltas) (primary : Event) : Deltas :=
  let s := sev_mult (severity signals) in
  let d := dur_mult (duration signals) in
  match primary with
  | flood => add_deltas deltas (-10 * s) (-4 * s) (12 * s * d) (-8 * s * d)
  | heatwave =>
      add_deltas deltas (25 * s)
                 (5 * match severity signals with severity_high => 12 # 10 | _ => 1 end)
                 (15 * s * d) (-10 * d)
  | pollution => add_deltas deltas (100 * s) 1 (10 * s) (-2)
  | drought => add_deltas deltas (15 * s) 3 (8 * d) (-25 * d)
  | cyclone => add_deltas deltas (-15 * s) (-3) (20 * s) (-15 * s)
  | no_event => deltas
  end.

Definition Impact_eqb (a b : Impact) : bool :=
  match a, b with
  | transport_disruption, transport_disruption
  | hospital_access_reduction, hospital_access_reduction
  | power_outage, power_outage
  | water_shortage, water_shortage
  | food_supply_disruption, food_supply_disruption
  | no_impact, no_impact => true
  | _, _ => false
  end.

(** [impact in signals.secondary_impacts] *)
Definition has_impact (impact : Impact) (impacts : list Impact) : bool :=
  existsb (Impact_eqb impact) impacts.

(** [get_deltas_from_signals] (the second, effective definition of the class) *)
Definition get_deltas_from_signals (signals : ScenarioSignals) : Deltas :=
  let deltas := {| aqi_delta := 0; temperature_delta := 0;
                   hospital_load_delta := 0; crop_supply_delta := 0 |} in
  let deltas := fold_left (event_step signals) (active_events (primary_events signals)) deltas in
  let deltas :=
    if has_impact transport_disruption (secondary_impacts signals)
    then add_deltas deltas 0 0 15 (-5) else deltas in
  let deltas :=
    if has_impact hospital_access_reduction (secondary_impacts signals)
    then add_deltas deltas 0 0 25 0 else deltas in
  let deltas :=
    if has_impact food_supply_disruption (secondary_impacts signals)
    then add_deltas deltas 0 0 0 (-10) else deltas in
  deltas.

End ScenarioDeltas.

(** ** api/scenario_interpreter.py *)

Module ScenarioInterpreter.

Import Schemas Text.

(** SCENARIO_CONFIG["base_impacts"] *)
Record BaseImpact : Type := { base_aqi : Q; base_temp : Q; base_hospital : Q; base_food : Q }.

Definition base_impacts (event : Event) : option BaseImpact :=
  match event with
  | flood => Some {| base_aqi := -10; base_temp := -4; base_hospital := 12; base_food := -8 |}
  | heatwave => Some {| base_aqi := 25; base_temp := 5; base_hospital := 15; base_food := -10 |}
  | pollution => Some {| base_aqi := 100; base_temp := 1; base_hospital := 10; base_food := -2 |}
  | drought => Some {| base_aqi := 15; base_temp := 3; base_hospital := 8; base_food := -25 |}
  | cyclone => Some {| base_aqi := -15; base_temp := -3; base_hospital := 20; base_food := -15 |}
  | no_event => None
  end.

(** SCENARIO_CONFIG["secondary_impacts"]: the [hospital] and [food] entries. *)
Definition secondary_impacts_config (impact : Impact) : option (Q * Q) :=
  match impact with
  | transport_disruption => Some (15, -5)
  | hospital_access_reduction => Some (25, 0)
  | food_supply_disruption => Some (0, -10)
  | _ => None
  end.

(** SCENARIO_CONFIG["multipliers"] *)
Definition severity_multiplier (s : Severity) : Q :=
  match s with
  | severity_low => 5 # 10
  | severity_moderate => 1
  | severity_high => 15 # 10
  end.

Definition duration_multiplier (d : Duration) : Q :=
  match d with
  | duration_short => 8 # 10
  | duration_moderate => 1
  | duration_prolonged => 15 # 10
  end.

(** ScenarioInterpreter.KEYWORDS: the class repeats the tables of
    [ScenarioDeltas] but for the secondary impacts, where it knows three. *)
Definition KEYWORDS_primary_events : list (Event * list string) :=
  [(flood, ["flood"; "flooding"; "heavy rain"; "monsoon"; "waterlogging"; "deluge"]);
   (heatwave, ["heatwave"; "heat"; "hot"; "temperature spike"; "scorching"; "sun"]);
   (drought, ["drought"; "dry"; "arid"; "water shortage"; "no rain"]);
   (pollution, ["pollution"; "smog"; "aqi"; "air quality"; "haze"; "toxic"]);
   (cyclone, ["cyclone"; "storm"; "hurricane"; "wind"; "gale"])].

Definition KEYWORDS_severity : list (Severity * list string) :=
  [(severity_high, ["severe"; "extreme"; "catastrophic"; "massive"; "deadly"; "critical"; "major"]);
   (severity_low, ["mild"; "minor"; "slight"; "small"; "low"]);
   (severity_moderate, ["moderate"; "medium"; "average"])].

Definition KEYWORDS_duration : list (Duration * list string) :=
  [(duration_prolonged,
    ["prolonged"; "long"; "weeks"; "month"; "extended"; "chronic"; "persistent"]);
   (duration_short, ["short"; "brief"; "flash"; "sudden"; "day"; "hour"]);
   (duration_moderate, ["moderate"; "medium"])].

Definition KEYWORDS_secondary_impacts : list (Impact * list string) :=
  [(transport_disruption, ["traffic"; "transport"; "road"; "commute"; "stuck"; "jam"]);
   (hospital_access_reduction, ["hospital"; "medical"; "ambulance"; "health"; "access"]);
   (food_supply_disruption, ["food"; "crop"; "supply"; "market"; "shortage"])].

(** [ScenarioInterpreter.extract_signals] *)
Definition extract_signals (prompt : string) : ScenarioSignals :=
  let p := lower prompt in
  let events := matching_keys KEYWORDS_primary_events p in
  let severity := first_match KEYWORDS_severity p severity_moderate in
  let duration := first_match KEYWORDS_duration p duration_moderate in
  let impacts := matching_keys KEYWORDS_secondary_impacts p in
  let match_count := (List.length events + List.length impacts)%nat in
  let conf :=
    if (2 <=? match_count)%nat then confidence_high
    else if (match_count =? 1)%nat then confidence_medium
    else confidence_low in
  {| primary_events := match events with [] => [no_event] | _ => events end;
     duration := duration;
     severity := severity;
     secondary_impacts := impacts;
     confidence := conf |}.

(** [signals.primary_events if signals.primary_events != ["none"] else []] *)
Definition active_events (events : list Event) : list Event :=
  match events with
  | [no_event] => []
  | _ => events
  end.

(** [base.get(key, 0)] on the row [SCENARIO_CONFIG[...].get(event, {})] *)
Definition row_get {R : Type} (row : option R) (field : R -> Q) : Q :=
  match row with
  | Some r => field r
  | None => 0
  end.

(** One turn of the loop of [get_deltas] over the primary events. *)
Definition event_step (signals : ScenarioSignals) (deltas : Deltas) (event : Event) : Deltas :=
  let s_mult := severity_multiplier (severity signals) in
  let d_mult := duration_multiplier (duration signals) in
  let base := base_impacts event in
  {| aqi_delta := aqi_delta deltas + row_get base base_aqi * s_mult;
     temperature_delta :=
       temperature_delta deltas +
       row_get base base_temp *
       match severity signals, event with
       | severity_high, heatwave => 12 # 10
       | _, _ => 1
       end;
     hospital_load_delta := hospital_load_delta deltas + row_get base base_hospital * s_mult * d_mult;
     crop_supply_delta := crop_supply_delta deltas + row_get base base_food * s_mult * d_mult |}.

(** One turn of the loop over the secondary impacts. *)
Definition impact_step (deltas : Deltas) (impact : Impact) : Deltas :=
  let base := secondary_impacts_config impact in
  {| aqi_delta := aqi_delta deltas;
     temperature_delta := temperature_delta deltas;
     hospital_load_delta := hospital_load_delta deltas + row_get base fst;
     crop_supply_delta := crop_supply_delta deltas + row_get base snd |}.

(** [ScenarioSimulator.get_deltas] *)
Definition get_deltas (signals : ScenarioSignals) : Deltas :=
  let deltas := {| aqi_delta := 0; temperature_delta := 0;
                   hospital_load_delta := 0; crop_supply_delta := 0 |} in
  let deltas := fold_left (event_step signals) (active_events (primary_events signals)) deltas in
  fold_left impact_step (secondary_impacts signals) deltas.

End ScenarioInterpreter.

(** * The specification's statements, in its own words *)

Module Claims.

Import Schemas Text.

(** *** Resilience *)

(** [100 × (1 − 0.35·P_env_high − 0.40·P_health_high − 0.25·P_food_high)] *)
Definition resilience_formula (p_env_high p_health_high p_food_high : Q) : Q :=
  100 * (1 - (35 # 100) * p_env_high - (40 # 100) * p_health_high - (25 # 100) * p_food_high).

(** "clamped to [0,100]" *)
Definition clamp_0_100 (x : Q) : Q := Qmax 0 (Qmin 100 x).

(** The formula evaluated as the code evaluates it, in double precision:
    [100 * (1 - (0.35 * P_env_high + 0.40 * P_health_high + 0.25 * P_food_high))]. *)
Definition float_resilience (p_env_high p_health_high p_food_high : Q) : PyFloat :=
  Float64.fmul64 (Fin 100)
    (Float64.fsub64 (Fin 1)
       (Float64.fadd64
          (Float64.fadd64 (Float64.fmul64 (Float64.literal (35 # 100)) (Fin p_env_high))
                          (Float64.fmul64 (Float64.literal (40 # 100)) (Fin p_health_high)))
          (Float64.fmul64 (Float64.literal (25 # 100)) (Fin p_food_high)))).

(** [max(0, min(100, x))] on floats. *)
Definition float_clamp_0_100 (x : PyFloat) : PyFloat :=
  py_max fltb (Fin 0) (py_min fltb (Fin 100) x).

(** The score as the specification has it: the formula, rounded, clamped. *)
Definition rounded_resilience (p_env_high p_health_high p_food_high : Q) : Z :=
  Z.max 0 (Z.min 100 (Qround_half_even
                        (resilience_formula p_env_high p_health_high p_food_high))).

(** *** Threshold override *)

Definition pinned_environmental : RiskEngine.Prediction :=
  {| RiskEngine.risk_class := "high";
     RiskEngine.probabilities :=
       {| Classifier.low := 2 # 100; Classifier.medium := 8 # 100; Classifier.high := 90 # 100 |};
     RiskEngine.confidence := 99 # 100 |}.

Definition pinned_food_security : RiskEngine.Prediction :=
  {| RiskEngine.risk_class := "high";
     RiskEngine.probabilities :=
       {| Classifier.low := 1 # 100; Classifier.medium := 4 # 100; Classifier.high := 95 # 100 |};
     RiskEngine.confidence := 99 # 100 |}.

(** *** Preprocessor bounds *)

(** A preprocessed value is a finite number within the field's range. *)
Definition in_range (r : Preprocessing.Range) (f : PyFloat) : Prop :=
  exists q, f = Fin q /\ Preprocessing.lo r <= q <= Preprocessing.hi r.

Definition in_range_int (r : Z * Z) (z : Z) : Prop := (fst r <= z <= snd r)%Z.

(** *** Data freshness *)

(** "1.0 if age<60s; 0.8 if <120s; 0.5 if <300s; 0.3 otherwise" *)
Definition freshness_of_age (age : Q) : Q :=
  if Qltb age 60 then 1
  else if Qltb age 120 then 8 # 10
  else if Qltb age 300 then 5 # 10
  else 3 # 10.

(** "... 0.5 if no timestamp" *)
Definition slot_freshness (now : Q) (ts : option Q) : Q :=
  match ts with
  | Some t => freshness_of_age (now - t)
  | None => 5 # 10
  end.

(** *** Rate gate *)

(** Consecutive entries of [ts] lie at least [gap] apart. *)
Fixpoint spaced (gap : Q) (ts : list Q) : Prop :=
  match ts with
  | [] => True
  | t :: rest =>
      match rest with
      | [] => True
      | t' :: _ => t + gap <= t'
      end /\ spaced gap rest
  end.

(** The one-second window that opens at [w]: [w <= t < w + 1]. *)
Definition in_window (w t : Q) : bool := Qle_bool w t && Qltb t (w + 1).

Definition executed_in_window (w : Q) (ts : list Q) : nat :=
  List.length (filter (in_window w) ts).

(** *** Extraction confidence *)

(** The number of keys of a keyword table with a keyword that occurs in
    the case-folded prompt. *)
Definition matches {K : Type} (table : list (K * list string)) (prompt : string) : nat :=
  List.length (filter (fun entry => any_keyword (snd entry) (lower prompt)) table).

(** "high if ≥2 matches, medium if exactly one, low otherwise" *)
Definition confidence_for (match_count : nat) : Confidence :=
  match match_count with
  | O => confidence_low
  | S O => confidence_medium
  | _ => confidence_high
  end.

(** The extra match [ScenarioDeltas] counts for a severity other than
    moderate. *)
Definition severity_bonus (s : Severity) : nat :=
  match s with
  | severity_moderate => 0
  | _ => 1
  end.

(** [kw] occurs in [s]. *)
Definition occurs_in (kw s : string) : Prop :=
  exists before after, s = (before ++ kw ++ after)%string.

(** *** Signals to deltas *)

Definition zero_deltas : Deltas :=
  {| aqi_delta := 0; temperature_delta := 0; hospital_load_delta := 0; crop_supply_delta := 0 |}.

Definition plus_deltas (a b : Deltas) : Deltas :=
  {| aqi_delta := aqi_delta a + aqi_delta b;
     temperature_delta := temperature_delta a + temperature_delta b;
     hospital_load_delta := hospital_load_delta a + hospital_load_delta b;
     crop_supply_delta := crop_supply_delta a + crop_supply_delta b |}.

Definition sum_deltas (rows : list Deltas) : Deltas := fold_right plus_deltas zero_deltas rows.

(** Deltas are compared as numbers, field by field. *)
Definition deltas_eq (a b : Deltas) : Prop :=
  aqi_delta a == aqi_delta b /\
  temperature_delta a == temperature_delta b /\
  hospital_load_delta a == hospital_load_delta b /\
  crop_supply_delta a == crop_supply_delta b.

(** The base-impact table: Δaqi, Δtemp, Δhospital, Δfood. *)
Definition base_impact (event : Event) : Deltas :=
  match event with
  | flood => {| aqi_delta := -10; temperature_delta := -4;
                hospital_load_delta := 12; crop_supply_delta := -8 |}
  | heatwave => {| aqi_delta := 25; temperature_delta := 5;
                   hospital_load_delta := 15; crop_supply_delta := -10 |}
  | pollution => {| aqi_delta := 100; temperature_delta := 1;
                    hospital_load_delta := 10; crop_supply_delta := -2 |}
  | drought => {| aqi_delta := 15; temperature_delta := 3;
                  hospital_load_delta := 8; crop_supply_delta := -25 |}
  | cyclone => {| aqi_delta := -15; temperature_delta := -3;
                  hospital_load_delta := 20; crop_supply_delta := -15 |}
  | no_event => zero_deltas
  end.

Definition severity_multiplier (s : Severity) : Q :=
  match s with
  | severity_low => 5 # 10
  | severity_moderate => 1
  | severity_high => 15 # 10
  end.

Definition duration_multiplier (d : Duration) : Q :=
  match d with
  | duration_short => 8 # 10
  | duration_moderate => 1
  | duration_prolonged => 15 # 10
  end.

(** The temperature rule: the base value, with a 1.2× bonus for a heatwave
    at high severity. *)
Definition temperature_bonus (s : Severity) (event : Event) : Q :=
  match s, event with
  | severity_high, heatwave => 12 # 10
  | _, _ => 1
  end.

(** What one primary event contributes under the uniform rule. *)
Definition event_contribution (s : Severity) (d : Duration) (event : Event) : Deltas :=
  let base := base_impact event in
  {| aqi_delta := aqi_delta base * severity_multiplier s;
     temperature_delta := temperature_delta base * temperature_bonus s event;
     hospital_load_delta :=
       hospital_load_delta base * severity_multiplier s * duration_multiplier d;
     crop_supply_delta :=
       crop_supply_delta base * severity_multiplier s * duration_multiplier d |}.

(** The fixed row of a secondary impact. *)
Definition impact_row (impact : Impact) : Deltas :=
  match impact with
  | transport_disruption =>
      {| aqi_delta := 0; temperature_delta := 0;
         hospital_load_delta := 15; crop_supply_delta := -5 |}
  | hospital_access_reduction =>
      {| aqi_delta := 0; temperature_delta := 0;
         hospital_load_delta := 25; crop_supply_delta := 0 |}
  | food_supply_disruption =>
      {| aqi_delta := 0; temperature_delta := 0;
         hospital_load_delta := 0; crop_supply_delta := -10 |}
  | _ => zero_deltas
  end.

(** Signals to deltas under the uniform rule: the contributions of all
    primary events and the rows of all secondary impacts, summed. *)
Definition uniform_deltas (signals : ScenarioSignals) : Deltas :=
  plus_deltas
    (sum_deltas (map (event_contribution (severity signals) (duration signals))
                     (primary_events signals)))
    (sum_deltas (map impact_row (secondary_impacts signals))).

(** What one primary event contributes in [ScenarioDeltas]: the aqi
    component is the base value times the severity multiplier, the other
    three follow a rule of their own per event. *)
Definition per_event_contribution (s : Severity) (d : Duration) (event : Event) : Deltas :=
  let sm := severity_multiplier s in
  let dm := duration_multiplier d in
  let base := base_impact event in
  {| aqi_delta := aqi_delta base * sm;
     temperature_delta :=
       match event with
       | flood => temperature_delta base * sm
       | _ => temperature_delta base * temperature_bonus s event
       end;
     hospital_load_delta :=
       match event with
       | flood | heatwave => hospital_load_delta base * sm * dm
       | pollution | cyclone => hospital_load_delta base * sm
       | drought => hospital_load_delta base * dm
       | no_event => 0
       end;
     crop_supply_delta :=
       match event with
       | flood => crop_supply_delta base * sm * dm
       | heatwave | drought => crop_supply_delta base * dm
       | pollution => crop_supply_delta base
       | cyclone => crop_supply_delta base * sm
       | no_event => 0
       end |}.

(** The impacts with a row, each counted once when it is among [impacts]. *)
Definition impacts_present (impacts : list Impact) : list Impact :=
  filter (fun impact => ScenarioDeltas.has_impact impact impacts)
         [transport_disruption; hospital_access_reduction; food_supply_disruption].

Definition per_event_deltas (signals : ScenarioSignals) : Deltas :=
  plus_deltas
    (sum_deltas (map (per_event_contribution (severity signals) (duration signals))
                     (primary_events signals)))
    (sum_deltas (map impact_row (impacts_present (secondary_impacts signals)))).

(** *** Merged state *)

(** A stored field is falsy when it is absent or zero. *)
Definition falsy (x : option Q) : Prop :=
  match x with
  | None => True
  | Some q => q == 0
  end.

End Claims.

(** * Sample objects for concrete runs *)

Module Samples.

(** A model that answers every feature row alike. *)
Definition constant_model (label : string) (p_low p_medium p_high p_label : Q)
  : Classifier.Model :=
  fun _ =>
    Ok {| Classifier.class := label;
          Classifier.probabilities :=
            {| Classifier.low := p_low; Classifier.medium := p_medium;
               Classifier.high := p_high |};
          Classifier.confidence := p_label |}.

(** An engine under stress: the three models report high risk. *)
Definition stressed_engine : CascadingEngine.CascadingRiskEngine :=
  {| CascadingEngine.env_model :=
       constant_model "high" (10 # 100) (12 # 100) (78 # 100) (78 # 100);
     CascadingEngine.health_model :=
       constant_model "high" (8 # 100) (10 # 100) (82 # 100) (82 # 100);
     CascadingEngine.food_model :=
       constant_model "high" (25 # 100) (30 # 100) (45 # 100) (45 # 100);
     CascadingEngine._is_trained := true |}.

(** An engine whose models report low risk whatever they are shown. *)
Definition calm_engine : CascadingEngine.CascadingRiskEngine :=
  {| CascadingEngine.env_model :=
       constant_model "low" (70 # 100) (20 # 100) (10 # 100) (70 # 100);
     CascadingEngine.health_model :=
       constant_model "low" (60 # 100) (30 # 100) (10 # 100) (60 # 100);
     CascadingEngine.food_model :=
       constant_model "low" (80 # 100) (15 # 100) (5 # 100) (80 # 100);
     CascadingEngine._is_trained := true |}.

(** The same calm models behind the phase-1 engine. *)
Definition calm_risk_engine : RiskEngine.RiskEngine :=
  {| RiskEngine.env_model := CascadingEngine.env_model calm_engine;
     RiskEngine.health_model := CascadingEngine.health_model calm_engine;
     RiskEngine.food_model := CascadingEngine.food_model calm_engine |}.

(** A text parser that accepts nothing, and a stand-in for the logarithm
    (its tangent at 1); concrete runs that do not depend on either use them. *)
Definition no_text : string -> option PyFloat := fun _ => None.
Definition tangent_log : Q -> Q := fun q => q - 1.

(** The stress scenario of the engine's demonstration. *)
Definition stress_metrics : Dict PyVal :=
  [("aqi", VInt 175); ("traffic_density", VInt 2); ("temperature", VInt 38);
   ("rainfall", VInt 5); ("hospital_load", VFloat (Fin (82 # 100)));
   ("respiratory_cases", VInt 450); ("crop_supply_index", VInt 58);
   ("food_price_index", VInt 135); ("supply_disruption_events", VInt 3)].

(** Out-of-range readings: aqi 350, crop supply 20. *)
Definition extreme_metrics : Dict PyVal :=
  [("aqi", VInt 350); ("traffic_density", VInt 2); ("temperature", VInt 38);
   ("rainfall", VInt 5); ("hospital_load", VFloat (Fin (82 # 100)));
   ("respiratory_cases", VInt 450); ("crop_supply_index", VInt 20);
   ("food_price_index", VInt 135); ("supply_disruption_events", VInt 3)].

(** A call of [run_inference] that reads the clock at [t] and takes 10 ms. *)
Definition clock_at (t : Q) : Realtime.Clock :=
  {| Realtime.current_time := t;
     Realtime.start_time := t;
     Realtime.confidence_now := t;
     Realtime.end_time := t + (1 # 100);
     Realtime.record_now := t + (1 # 100) |}.

(** Ten calls within one second. *)
Definition burst : list Realtime.Clock :=
  map clock_at [1000; 1000 + (1 # 10); 1000 + (2 # 10); 1000 + (3 # 10); 1000 + (4 # 10);
                1000 + (5 # 10); 1000 + (6 # 10); 1000 + (7 # 10); 1000 + (8 # 10);
                1000 + (9 # 10)].

(** A manager whose every stored field is a zero observed at time 990. *)
Definition all_zero_manager : Realtime.RealtimeStateManager :=
  {| Realtime.environmental_state :=
       {| Realtime.aqi := Some 0; Realtime.temperature := Some 0;
          Realtime.humidity := Some 0; Realtime.env_timestamp := Some 990 |};
     Realtime.health_state :=
       {| Realtime.hospital_load := Some 0; Realtime.respiratory_cases := Some 0;
          Realtime.health_timestamp := Some 990 |};
     Realtime.food_state :=
       {| Realtime.price_volatility := Some 0; Realtime.supply_index := Some 0;
          Realtime.food_timestamp := Some 990 |};
     Realtime.prediction_history := [];
     Realtime.latest_prediction := None;
     Realtime._last_inference_time := 0 |}.

End Samples.

(** * More of the sources *)

(** ** api/realtime.py: updates, trends, fan-out *)

Module RealtimeUpdates.

Import Realtime.

(** The payload of an update as the three methods read it: [data.get(k)]
    for each field, and the [timestamp] entry, which may be absent
    ([None] here), or present with a value that may itself be [None]. *)
Record EnvironmentalUpdate : Type := {
  new_aqi : option Q;
  new_temperature : option Q;
  new_humidity : option Q;
  env_stamp : option (option Q)
}.

Record HealthUpdate : Type := {
  new_hospital_load : option Q;
  new_respiratory_cases : option Q;
  health_stamp : option (option Q)
}.

Record FoodUpdate : Type := {
  new_price_volatility : option Q;
  new_supply_index : option Q;
  food_stamp : option (option Q)
}.

(** [data.get("timestamp", datetime.now())] *)
Definition stamp_or_now (now : Q) (stamp : option (option Q)) : option Q :=
  match stamp with
  | Some given => given
  | None => Some now
  end.

(** [if data.get(k) is not None: state[k] = data[k]; changed = True] *)
Definition merge_field (stored given : option Q) (changed : bool) : option Q * bool :=
  match given with
  | Some v => (Some v, true)
  | None => (stored, changed)
  end.

Definition with_environmental (self : RealtimeStateManager) (st : EnvironmentalState)
  : RealtimeStateManager :=
  {| environmental_state := st;
     health_state := health_state self;
     food_state := food_state self;
     prediction_history := prediction_history self;
     latest_prediction := latest_prediction self;
     _last_inference_time := _last_inference_time self |}.

Definition with_health (self : RealtimeStateManager) (st : HealthState)
  : RealtimeStateManager :=
  {| environmental_state := environmental_state self;
     health_state := st;
     food_state := food_state self;
     prediction_history := prediction_history self;
     latest_prediction := latest_prediction self;
     _last_inference_time := _last_inference_time self |}.

Definition with_food (self : RealtimeStateManager) (st : FoodState)
  : RealtimeStateManager :=
  {| environmental_state := environmental_state self;
     health_state := health_state self;
     food_state := st;
     prediction_history := prediction_history self;
     latest_prediction := latest_prediction self;
     _last_inference_time := _last_inference_time self |}.

(** [update_environmental]; [now] is the reading of [datetime.now()]. *)
Definition update_environmental (now : Q) (data : EnvironmentalUpdate)
           (self : RealtimeStateManager) : RealtimeStateManager * bool :=
  let st := environmental_state self in
  let changed := false in
  let timestamp := stamp_or_now now (env_stamp data) in
  let '(aqi1, changed) := merge_field (aqi st) (new_aqi data) changed in
  let '(temperature1, changed) := merge_field (temperature st) (new_temperature data) changed in
  let '(humidity1, changed) := merge_field (humidity st) (new_humidity data) changed in
  let timestamp1 := if changed then timestamp else env_timestamp st in
  (with_environmental self
     {| aqi := aqi1; temperature := temperature1; humidity := humidity1;
        env_timestamp := timestamp1 |},
   changed).

(** [update_health] *)
Definition update_health (now : Q) (data : HealthUpdate)
           (self : RealtimeStateManager) : RealtimeStateManager * bool :=
  let st := health_state self in
  let changed := false in
  let timestamp := stamp_or_now now (health_stamp data) in
  let '(load1, changed) := merge_field (hospital_load st) (new_hospital_load data) changed in
  let '(cases1, changed) :=
    merge_field (respiratory_cases st) (new_respiratory_cases data) changed in
  let timestamp1 := if changed then timestamp else health_timestamp st in
  (with_health self
     {| hospital_load := load1; respiratory_cases := cases1; health_timestamp := timestamp1 |},
   changed).

(** [update_food] *)
Definition update_food (now : Q) (data : FoodUpdate)
           (self : RealtimeStateManager) : RealtimeStateManager * bool :=
  let st := food_state self in
  let changed := false in
  let timestamp := stamp_or_now now (food_stamp data) in
  let '(volatility1, changed) :=
    merge_field (price_volatility st) (new_price_volatility data) changed in
  let '(supply1, changed) := merge_field (supply_index st) (new_supply_index data) changed in
  let timestamp1 := if changed then timestamp else food_timestamp st in
  (with_food self
     {| price_volatility := volatility1; supply_index := supply1;
        food_timestamp := timestamp1 |},
   changed).

(** *** Trend summary *)

Inductive Direction : Type := increasing | decreasing | stable.

Record DomainTrend : Type := {
  direction : Direction;
  current : PyFloat;
  change : PyFloat
}.

(** [{"status": "insufficient_data", ...}] or
    [{"status": "ok", "environmental": ..., "health": ..., "food_security": ...}] *)
Inductive TrendSummary : Type :=
| insufficient_data
| trend_ok (environmental health food_security : DomainTrend).

(** [get_trend_direction]: the comparisons are those of floats, false on
    [nan]. *)
Definition get_trend_direction (recent older : PyFloat) : Direction :=
  let diff := Float64.fsub64 recent older in
  if fltb (Float64.literal (5 # 100)) diff then increasing
  else if fltb diff (Float64.literal (- (5 # 100))) then decreasing
  else stable.

(** [sum(values)]: from 0, one float after the other, each addition
    rounded (the summation of CPython up to 3.11; from 3.12 on [sum]
    compensates the rounding errors of floats). *)
Definition py_sum (values : list PyFloat) : PyFloat :=
  fold_left Float64.fadd64 values (Fin 0).

(** [sum(values) / len(values)], for a list that is not empty. *)
Definition mean (values : list PyFloat) : PyFloat :=
  Float64.fdiv64 (py_sum values) (Fin (inject_Z (Z.of_nat (List.length values)))).

(** [sum(f(p) for p in records) / len(records)] *)
Definition average (f : PredictionRecord -> Q) (records : list PredictionRecord) : PyFloat :=
  mean (map (fun p => Fin (f p)) records).

(** One entry of the summary, from the values of its domain in the two
    windows. *)
Definition trend_of (recent older : list PyFloat) : DomainTrend :=
  let recent_avg := mean recent in
  let older_avg := mean older in
  {| direction := get_trend_direction recent_avg older_avg;
     current := recent_avg;
     change := Float64.fsub64 recent_avg older_avg |}.

Definition domain_trend (f : PredictionRecord -> Q) (recent older : list PredictionRecord)
  : DomainTrend :=
  trend_of (map (fun p => Fin (f p)) recent) (map (fun p => Fin (f p)) older).

(** A float within 2^-55 of zero. *)
Definition negligible (x : PyFloat) : Prop :=
  exists c, x = Fin c /\ Qabs c <= 1 # 36028797018963968.

(** [get_trend_summary] *)
Definition get_trend_summary (self : RealtimeStateManager) : TrendSummary :=
  let history := prediction_history self in
  let n := List.length history in
  if (n <? 5)%nat then insufficient_data
  else
    (* recent = history[-5:] *)
    let recent := skipn (n - 5) history in
    (* older = history[-15:-5] if len(history) >= 15 else history[:-5] *)
    let older := if (15 <=? n)%nat then firstn 10 (skipn (n - 15) history)
                 else firstn (n - 5) history in
    match older with
    | [] => insufficient_data
    | _ =>
        trend_ok (domain_trend environmental_prob recent older)
                 (domain_trend health_prob recent older)
                 (domain_trend food_security_prob recent older)
    end.

(** *** Fan-out *)



End RealtimeUpdates.

(** ** Inputs of the preprocessor *)

Module PreprocessingInputs.

Import Preprocessing.

(** [float(v)] stays within the doubles: [v] is not an integer too large
    to convert. *)
Definition no_overflow (v : PyVal) : Prop :=
  match v with
  | VInt z => (Z.abs z < float_int_limit)%Z
  | _ => True
  end.

(** [v] is neither an infinite float nor text that reads as one. *)
Definition not_infinite (parse : string -> option PyFloat) (v : PyVal) : Prop :=
  match v with
  | VFloat PInf | VFloat NInf => False
  | VStr s => parse s <> Some PInf /\ parse s <> Some NInf
  | _ => True
  end.

(** The float [f] is the number [q]. *)
Definition is_number (f : PyFloat) (q : Q) : Prop :=
  exists q', f = Fin q' /\ q' == q.

(** A complete set of readings, and the metric bag that carries it. *)
Record Reading : Type := {
  r_aqi : Q;
  r_traffic_density : Z;
  r_temperature : Q;
  r_rainfall : Q;
  r_hospital_load : Q;
  r_respiratory_cases : Z;
  r_crop_supply_index : Q;
  r_food_price_index : Q;
  r_supply_disruption_events : Z
}.

Definition bag_of (r : Reading) : Dict PyVal :=
  [("aqi", VFloat (Fin (r_aqi r)));
   ("traffic_density", VInt (r_traffic_density r));
   ("temperature", VFloat (Fin (r_temperature r)));
   ("rainfall", VFloat (Fin (r_rainfall r)));
   ("hospital_load", VFloat (Fin (r_hospital_load r)));
   ("respiratory_cases", VInt (r_respiratory_cases r));
   ("crop_supply_index", VFloat (Fin (r_crop_supply_index r)));
   ("food_price_index", VFloat (Fin (r_food_price_index r)));
   ("supply_disruption_events", VInt (r_supply_disruption_events r))].

(** Every reading lies within the range of its field. *)
Definition valid_reading (r : Reading) : Prop :=
  0 <= r_aqi r <= 500 /\
  (0 <= r_traffic_density r <= 2)%Z /\
  0 <= r_temperature r <= 50 /\
  0 <= r_rainfall r <= 200 /\
  0 <= r_hospital_load r <= 1 /\
  (0 <= r_respiratory_cases r <= 10000)%Z /\
  0 <= r_crop_supply_index r <= 100 /\
  50 <= r_food_price_index r <= 200 /\
  (0 <= r_supply_disruption_events r <= 10)%Z.

(** The readings of the engine's demonstration. *)
Definition demo_reading : Reading :=
  {| r_aqi := 175; r_traffic_density := 2; r_temperature := 38; r_rainfall := 5;
     r_hospital_load := 82 # 100; r_respiratory_cases := 450;
     r_crop_supply_index := 58; r_food_price_index := 135;
     r_supply_disruption_events := 3 |}.

End PreprocessingInputs.

(** ** More sample inputs *)

Module MoreSamples.

(** A bag of unusable entries: text, None, an object and a nan. *)
Definition junk_metrics : Dict PyVal :=
  [("aqi", VStr "n/a"); ("temperature", VNone); ("hospital_load", VOther);
   ("traffic_density", VFloat NaN); ("respiratory_cases", VBool true)].

(** A hospital load given in percent and a temperature given in Kelvin. *)
Definition percent_kelvin_metrics : Dict PyVal :=
  [("hospital_load", VFloat (Fin 82)); ("temperature", VFloat (Fin 300))].

(** An infinite crop supply index. *)
Definition infinite_supply_metrics : Dict PyVal :=
  [("crop_supply_index", VFloat PInf)].

(** Metrics of a strained city, as floats, and two policies. *)
Definition strained_city : Dict PyFloat :=
  [("aqi", Fin 180); ("traffic_density", Fin 2); ("temperature", Fin 33);
   ("rainfall", Fin 10); ("hospital_load", Fin (85 # 100)); ("respiratory_cases", Fin 300);
   ("crop_supply_index", Fin 60); ("food_price_index", Fin 120);
   ("supply_disruption_events", Fin 2)].

Definition relief_policy : Dict PyFloat :=
  [("traffic_reduction", Fin (1 # 2)); ("surge_capacity", Fin (2 # 10));
   ("subsidy_rate", Fin (1 # 10))].

Definition unknown_policy : Dict PyFloat := [("carbon_tax", Fin (1 # 2))].

End MoreSamples.

(** ** api/scenario_deltas.py and api/scenario_interpreter.py: applying deltas *)

Module DeltaSimulation.

Import Schemas Text.

(** One entry of [deltas_applied]. *)
Record FieldChange : Type := {
  change_baseline : Q;
  change_delta : Q;
  change_final : Q
}.

(** The dictionary [apply_deltas_to_baseline] returns. *)
Record Simulated : Type := {
  sim_aqi : Q;
  sim_temperature : Q;
  sim_hospital_load : Q;
  sim_crop_supply : Q;
  applied_aqi : FieldChange;
  applied_temperature : FieldChange;
  applied_hospital_load : FieldChange;
  applied_crop_supply : FieldChange
}.

(** [max(lo, min(hi, x))] *)
Definition clamp (lo hi x : Q) : Q := py_max Qltb lo (py_min Qltb hi x).

(** [ScenarioDeltas.apply_deltas_to_baseline]; the baseline holds numbers
    (the caller's [fetch_current_metrics] sees to that). *)
Definition apply_deltas_to_baseline (baseline deltas : Dict Q) : Simulated :=
  let base_aqi := dict_get_default baseline "aqi" 100 in
  let delta_aqi := dict_get_default deltas "aqi_delta" 0 in
  let aqi := clamp 0 500 (base_aqi + delta_aqi) in
  let base_temp := dict_get_default baseline "temperature" 25 in
  let delta_temp := dict_get_default deltas "temperature_delta" 0 in
  let temperature := clamp (-10) 55 (base_temp + delta_temp) in
  let base_hosp := dict_get_default baseline "hospital_load" 50 in
  let delta_hosp := dict_get_default deltas "hospital_load_delta" 0 in
  let simulated_hosp := clamp 0 100 (base_hosp + delta_hosp) in
  let base_crop := dict_get_default baseline "crop_supply" 70 in
  let delta_crop := dict_get_default deltas "crop_supply_delta" 0 in
  let crop_supply := clamp 10 100 (base_crop + delta_crop) in
  {| sim_aqi := aqi;
     sim_temperature := temperature;
     sim_hospital_load := simulated_hosp;
     sim_crop_supply := crop_supply;
     applied_aqi :=
       {| change_baseline := base_aqi; change_delta := delta_aqi; change_final := aqi |};
     applied_temperature :=
       {| change_baseline := base_temp; change_delta := delta_temp;
          change_final := temperature |};
     applied_hospital_load :=
       {| change_baseline := base_hosp; change_delta := delta_hosp;
          change_final := simulated_hosp |};
     applied_crop_supply :=
       {| change_baseline := base_crop; change_delta := delta_crop;
          change_final := crop_supply |} |}.

(** SCENARIO_CONFIG["bounds"] *)
Definition bounds_aqi : Q * Q := (0, 500).
Definition bounds_temperature : Q * Q := (-10, 55).
Definition bounds_hospital_load : Q * Q := (0, 100).
Definition bounds_food_availability : Q * Q := (10, 100).

(** What [ScenarioSimulator.apply_to_baseline] returns: the four values. *)
Record SimulatedValues : Type := {
  value_aqi : Q;
  value_temperature : Q;
  value_hospital_load : Q;
  value_crop_supply : Q
}.

(** [ScenarioSimulator.apply_to_baseline] *)
Definition apply_to_baseline (baseline deltas : Dict Q) : SimulatedValues :=
  let val := dict_get_default baseline "aqi" 100 + dict_get_default deltas "aqi_delta" 0 in
  let aqi := py_max Qltb (fst bounds_aqi) (py_min Qltb (snd bounds_aqi) val) in
  let val := dict_get_default baseline "temperature" 25 +
             dict_get_default deltas "temperature_delta" 0 in
  let temperature :=
    py_max Qltb (fst bounds_temperature) (py_min Qltb (snd bounds_temperature) val) in
  let val := dict_get_default baseline "hospital_load" 50 +
             dict_get_default deltas "hospital_load_delta" 0 in
  let hospital_load :=
    py_max Qltb (fst bounds_hospital_load) (py_min Qltb (snd bounds_hospital_load) val) in
  let val := dict_get_default baseline "crop_supply" 70 +
             dict_get_default deltas "crop_supply_delta" 0 in
  let crop_supply :=
    py_max Qltb (fst bounds_food_availability)
           (py_min Qltb (snd bounds_food_availability) val) in
  {| value_aqi := aqi; value_temperature := temperature;
     value_hospital_load := hospital_load; value_crop_supply := crop_supply |}.

(** The numeric entries of a delta dictionary built from signals. *)
Definition deltas_dict (d : Deltas) : Dict Q :=
  [("aqi_delta", aqi_delta d); ("temperature_delta", temperature_delta d);
   ("hospital_load_delta", hospital_load_delta d);
   ("crop_supply_delta", crop_supply_delta d)].

(** The name of an event, and the event of a name: membership in
    [KEYWORDS["primary_events"]]. *)
Definition event_name (e : Event) : string :=
  match e with
  | flood => "flood"
  | heatwave => "heatwave"
  | drought => "drought"
  | pollution => "pollution"
  | cyclone => "cyclone"
  | no_event => "none"
  end.

Definition event_of_preset (scenario_type : string) : Event :=
  if String.eqb scenario_type "flood" then flood
  else if String.eqb scenario_type "heatwave" then heatwave
  else if String.eqb scenario_type "drought" then drought
  else if String.eqb scenario_type "pollution" then pollution
  else if String.eqb scenario_type "cyclone" then cyclone
  else no_event.

Inductive Source : Type :=
| source_custom | source_prompt_inference | source_preset | source_default.

(** The result of [run_delta_simulation]: the [deltas] entry and the
    [simulated] entry.  (Its [validation] entry reads the freshness label of
    the baseline and is left out, as are the echoed baseline and the time.) *)
Record DeltaResult : Type := {
  result_deltas : Deltas;
  result_source : Source;
  result_inferred_scenario : option string;
  result_signals : option ScenarioSignals;
  result_inference_confidence : option Q;
  result_simulated : Simulated
}.

(** The four numbers [run_delta_simulation] reports, each read with
    [deltas.get(key, 0)]. *)
Definition reported_deltas (deltas : Dict Q) : Deltas :=
  {| aqi_delta := dict_get_default deltas "aqi_delta" 0;
     temperature_delta := dict_get_default deltas "temperature_delta" 0;
     hospital_load_delta := dict_get_default deltas "hospital_load_delta" 0;
     crop_supply_delta := dict_get_default deltas "crop_supply_delta" 0 |}.

(** The signals a preset stands for. *)
Definition preset_signals (scenario_type : string) : ScenarioSignals :=
  let signals :=
    {| primary_events := [event_of_preset scenario_type];
       duration := duration_short;
       severity := severity_moderate;
       secondary_impacts := [];
       confidence := confidence_high |} in
  if String.eqb scenario_type "crisis" then
    {| primary_events := primary_events signals;
       duration := duration signals;
       severity := severity_high;
       secondary_impacts := [transport_disruption; hospital_access_reduction];
       confidence := confidence signals |}
  else signals.

Definition default_signals : ScenarioSignals :=
  {| primary_events := [no_event]; duration := duration_moderate;
     severity := severity_moderate; secondary_impacts := [];
     confidence := confidence_high |}.

(** Truth of an optional dictionary and of an optional string. *)
Definition truthy_dict {V : Type} (d : option (Dict V)) : bool :=
  match d with
  | Some (_ :: _) => true
  | _ => false
  end.

Definition truthy_string (s : option string) : bool :=
  match s with
  | Some (String _ _) => true
  | _ => false
  end.

(** [run_delta_simulation]; [None] stands for the IndexError of
    [signals.primary_events[0]] on an empty list. *)
Definition run_delta_simulation (baseline_metrics : Dict Q)
           (scenario_type custom_prompt : option string)
           (custom_deltas : option (Dict Q)) : option DeltaResult :=
  if truthy_dict custom_deltas then
    let deltas := match custom_deltas with Some d => d | None => [] end in
    Some {| result_deltas := reported_deltas deltas;
            result_source := source_custom;
            result_inferred_scenario := None;
            result_signals := None;
            result_inference_confidence := None;
            result_simulated := apply_deltas_to_baseline baseline_metrics deltas |}
  else if truthy_string custom_prompt then
    let prompt := match custom_prompt with Some p => p | None => "" end in
    let signals := ScenarioDeltas.extract_scenario_signals prompt in
    let deltas := deltas_dict (ScenarioDeltas.get_deltas_from_signals signals) in
    match primary_events signals with
    | [] => None
    | first :: _ =>
        Some {| result_deltas := reported_deltas deltas;
                result_source := source_prompt_inference;
                result_inferred_scenario := Some (event_name first);
                result_signals := Some signals;
                result_inference_confidence :=
                  Some (match confidence signals with
                        | confidence_high => 9 # 10
                        | _ => 5 # 10
                        end);
                result_simulated := apply_deltas_to_baseline baseline_metrics deltas |}
    end
  else if truthy_string scenario_type then
    let preset := match scenario_type with Some p => p | None => "" end in
    let signals := preset_signals preset in
    let deltas := deltas_dict (ScenarioDeltas.get_deltas_from_signals signals) in
    Some {| result_deltas := reported_deltas deltas;
            result_source := source_preset;
            result_inferred_scenario := Some preset;
            result_signals := Some signals;
            result_inference_confidence := Some 1;
            result_simulated := apply_deltas_to_baseline baseline_metrics deltas |}
  else
    let signals := default_signals in
    let deltas := deltas_dict (ScenarioDeltas.get_deltas_from_signals signals) in
    Some {| result_deltas := reported_deltas deltas;
            result_source := source_default;
            result_inferred_scenario := None;
            result_signals := Some signals;
            result_inference_confidence := None;
            result_simulated := apply_deltas_to_baseline baseline_metrics deltas |}.

(** The order of the confidence labels. *)
Definition confidence_rank (c : Confidence) : nat :=
  match c with
  | confidence_low => 0
  | confidence_medium => 1
  | confidence_high => 2
  end.

(** A delta that relieves nothing: the hospital load does not go down and
    the crop supply does not go up. *)
Definition strains (d : Deltas) : Prop :=
  0 <= hospital_load_delta d /\ crop_supply_delta d <= 0.

End DeltaSimulation.

(** ** model/cascading_engine.py: policy scenarios *)

Module Policy.

Import Preprocessing CascadingEngine.

(** [d[k] = v]: a key that is there keeps its place, a new one goes last. *)
Fixpoint dict_set {V : Type} (d : Dict V) (k : string) (v : V) : Dict V :=
  match d with
  | [] => [(k, v)]
  | (k', v') :: rest =>
      if String.eqb k' k then (k', v) :: rest else (k', v') :: dict_set rest k v
  end.

(** [if k in adjusted: adjusted[k] = f(adjusted[k])] *)
Definition dict_update (adjusted : Dict PyFloat) (k : string) (f : PyFloat -> PyFloat)
  : Dict PyFloat :=
  match dict_get adjusted k with
  | Some v => dict_set adjusted k (f v)
  | None => adjusted
  end.

(** The same for a right-hand side that may raise. *)
Definition dict_update_or_raise (adjusted : Dict PyFloat) (k : string)
           (f : PyFloat -> Result PyFloat) : Result (Dict PyFloat) :=
  match dict_get adjusted k with
  | Some v => v' <- f v ;; Ok (dict_set adjusted k v')
  | None => Ok adjusted
  end.

(** An [int] among the floats of the dictionary. *)
Definition of_int (z : Z) : PyFloat := Fin (inject_Z z).

(** [1 - x * c] for a literal [c] of the source. *)
Definition one_minus (x : PyFloat) (c : Q) : PyFloat :=
  Float64.fsub64 (Fin 1) (Float64.fmul64 x (Float64.literal c)).

(** [max(0.4, min(0.95, load))] *)
Definition clamp_load (load : PyFloat) : PyFloat :=
  py_max fltb (Float64.literal (4 # 10)) (py_min fltb (Float64.literal (95 # 100)) load).

(** The block under [if 'traffic_reduction' in policy_adjustments]. *)
Definition traffic_reduction_policy (policy_adjustments adjusted : Dict PyFloat)
  : Dict PyFloat :=
  match dict_get policy_adjustments "traffic_reduction" with
  | Some reduction =>
      match dict_get adjusted "traffic_density" with
      | Some current =>
          let adjusted :=
            if Float64.fleb (Float64.literal (5 # 10)) reduction && fltb (Fin 1) current
            then dict_set adjusted "traffic_density" (Float64.fsub64 current (Fin 2))
            else if Float64.fleb (Float64.literal (25 # 100)) reduction && fltb (Fin 0) current
                 then dict_set adjusted "traffic_density" (Float64.fsub64 current (Fin 1))
                 else adjusted in
          let adjusted := dict_update adjusted "traffic_density" (py_max fltb (Fin 0)) in
          dict_update adjusted "aqi"
                      (fun aqi => Float64.fmul64 aqi (one_minus reduction (3 # 10)))
      | None => adjusted
      end
  | None => adjusted
  end.

(** The block under [if 'aqi_cap' in policy_adjustments]. *)
Definition aqi_cap_policy (policy_adjustments adjusted : Dict PyFloat) : Dict PyFloat :=
  match dict_get policy_adjustments "aqi_cap" with
  | Some aqi_cap => dict_update adjusted "aqi" (fun aqi => py_min fltb aqi aqi_cap)
  | None => adjusted
  end.

(** The block under [if 'emission_control' in policy_adjustments]. *)
Definition emission_control_policy (policy_adjustments adjusted : Dict PyFloat)
  : Dict PyFloat :=
  match dict_get policy_adjustments "emission_control" with
  | Some emission_control =>
      dict_update adjusted "aqi"
                  (fun aqi => Float64.fmul64 aqi (Float64.fsub64 (Fin 1) emission_control))
  | None => adjusted
  end.

(** The block under [if 'surge_capacity' in policy_adjustments]: the
    division raises on a zero divisor. *)
Definition surge_capacity_policy (policy_adjustments adjusted : Dict PyFloat)
  : Result (Dict PyFloat) :=
  match dict_get policy_adjustments "surge_capacity" with
  | Some surge_capacity =>
      adjusted <-
        dict_update_or_raise adjusted "hospital_load"
          (fun load => Float64.py_truediv load (Float64.fadd64 (Fin 1) surge_capacity)) ;;
      Ok (dict_update adjusted "hospital_load" clamp_load)
  | None => Ok adjusted
  end.

(** The block under [if 'emergency_staffing' in policy_adjustments]. *)
Definition emergency_staffing_policy (policy_adjustments adjusted : Dict PyFloat)
  : Dict PyFloat :=
  match dict_get policy_adjustments "emergency_staffing" with
  | Some emergency_staffing =>
      let load_reduction := Float64.fmul64 emergency_staffing (Float64.literal (5 # 10)) in
      let adjusted :=
        dict_update adjusted "hospital_load"
                    (fun load => Float64.fmul64 load (Float64.fsub64 (Fin 1) load_reduction)) in
      dict_update adjusted "hospital_load" clamp_load
  | None => adjusted
  end.

(** The block under [if 'infrastructure' in policy_adjustments]: [int]
    raises on an infinity and on [nan]. *)
Definition infrastructure_policy (policy_adjustments adjusted : Dict PyFloat)
  : Result (Dict PyFloat) :=
  match dict_get policy_adjustments "infrastructure" with
  | Some infrastructure =>
      let adjusted :=
        dict_update adjusted "hospital_load"
                    (fun load => Float64.fmul64 load (one_minus infrastructure (4 # 10))) in
      dict_update_or_raise adjusted "respiratory_cases"
        (fun cases =>
           z <- py_int (Float64.fmul64 cases (one_minus infrastructure (3 # 10))) ;;
           Ok (of_int z))
  | None => Ok adjusted
  end.

(** The block under [if 'import_stabilization' in policy_adjustments]. *)
Definition import_stabilization_policy (policy_adjustments adjusted : Dict PyFloat)
  : Dict PyFloat :=
  match dict_get policy_adjustments "import_stabilization" with
  | Some import_stabilization =>
      let adjusted :=
        dict_update adjusted "crop_supply_index"
                    (fun supply =>
                       Float64.fmul64 supply (Float64.fadd64 (Fin 1) import_stabilization)) in
      dict_update adjusted "crop_supply_index" (fun supply => py_min fltb (Fin 100) supply)
  | None => adjusted
  end.

(** The block under [if 'subsidy_rate' in policy_adjustments]. *)
Definition subsidy_rate_policy (policy_adjustments adjusted : Dict PyFloat) : Dict PyFloat :=
  match dict_get policy_adjustments "subsidy_rate" with
  | Some subsidy_rate =>
      let adjusted :=
        dict_update adjusted "food_price_index"
                    (fun price => Float64.fmul64 price (Float64.fsub64 (Fin 1) subsidy_rate)) in
      dict_update adjusted "food_price_index" (fun price => py_max fltb (Fin 80) price)
  | None => adjusted
  end.

(** The block under [if 'supply_chain_resilience' in policy_adjustments];
    [reduction] is [supply_chain_resilience * 0.6]. *)
Definition supply_chain_resilience_policy (policy_adjustments adjusted : Dict PyFloat)
  : Result (Dict PyFloat) :=
  match dict_get policy_adjustments "supply_chain_resilience" with
  | Some supply_chain_resilience =>
      adjusted <-
        dict_update_or_raise adjusted "supply_disruption_events"
          (fun events =>
             z <- py_int (Float64.fmul64 events (one_minus supply_chain_resilience (6 # 10))) ;;
             Ok (of_int (py_max Z.ltb 0%Z z))) ;;
      Ok (dict_update adjusted "food_price_index"
                      (fun price =>
                         Float64.fmul64 price (one_minus supply_chain_resilience (2 # 10))))
  | None => Ok adjusted
  end.

(** [_apply_policy_adjustments], on metrics and policies that hold floats. *)
Definition _apply_policy_adjustments (metrics policy_adjustments : Dict PyFloat)
  : Result (Dict PyFloat) :=
  let adjusted := metrics in
  let adjusted := traffic_reduction_policy policy_adjustments adjusted in
  let adjusted := aqi_cap_policy policy_adjustments adjusted in
  let adjusted := emission_control_policy policy_adjustments adjusted in
  adjusted <- surge_capacity_policy policy_adjustments adjusted ;;
  let adjusted := emergency_staffing_policy policy_adjustments adjusted in
  adjusted <- infrastructure_policy policy_adjustments adjusted ;;
  let adjusted := import_stabilization_policy policy_adjustments adjusted in
  let adjusted := subsidy_rate_policy policy_adjustments adjusted in
  adjusted <- supply_chain_resilience_policy policy_adjustments adjusted ;;
  Ok adjusted.

(** The nine policies the function knows. *)
Definition known_policies : list string :=
  ["traffic_reduction"; "aqi_cap"; "emission_control"; "surge_capacity";
   "emergency_staffing"; "infrastructure"; "import_stabilization"; "subsidy_rate";
   "supply_chain_resilience"].

(** A dictionary of floats as the loosely typed bag the engine reads. *)
Definition as_metrics (d : Dict PyFloat) : Dict PyVal :=
  map (fun entry => (fst entry, VFloat (snd entry))) d.

Record PolicyDelta : Type := {
  delta_environmental : PyFloat;
  delta_health : PyFloat;
  delta_food_security : PyFloat;
  delta_resilience_score : Z
}.

Record PercentChange : Type := {
  percent_environmental : PyFloat;
  percent_health : PyFloat;
  percent_food_security : PyFloat
}.

(** The dictionary [run_policy_scenario] returns. *)
Record PolicyOutcome : Type := {
  outcome_baseline : Prediction;
  outcome_intervention : Prediction;
  outcome_delta : PolicyDelta;
  outcome_percent_change : PercentChange;
  policies_applied : list string;
  intervention_metrics : Dict PyFloat
}.

(** [safe_pct_change]; the division is behind the test for zero. *)
Definition safe_pct_change (baseline_val new_val : PyFloat) : PyFloat :=
  if Float64.feq0 baseline_val then Fin 0
  else Float64.fmul64
         (Float64.fdiv64 (Float64.fsub64 baseline_val new_val) baseline_val) (Fin 100).

(** The exact difference of a level and a step is a double. *)
Definition subtracts_exactly (level step : Q) : Prop :=
  exists x, Float64.fsub64 (Fin level) (Fin step) = Fin x /\ x == level - step.

(** A probability within the range of the doubles. *)
Definition in_double_range (p : Q) : Prop := exists x, Float64.round64 p = Fin x.

Section WithRuntime.

Variable parse : string -> option PyFloat.
Variable np_log : Q -> Q.

(** [run_policy_scenario] *)
Definition run_policy_scenario (self : CascadingRiskEngine)
           (baseline_metrics policy_adjustments : Dict PyFloat) : Result PolicyOutcome :=
  if negb (_is_trained self) then Raise RuntimeError else
  baseline <- predict_cascading_risks parse np_log self (as_metrics baseline_metrics) ;;
  intervention_metrics <- _apply_policy_adjustments baseline_metrics policy_adjustments ;;
  intervention <-
    predict_cascading_risks parse np_log self (as_metrics intervention_metrics) ;;
  let delta :=
    {| delta_environmental :=
         Float64.fsub64 (Fin (prob (environmental baseline)))
                        (Fin (prob (environmental intervention)));
       delta_health :=
         Float64.fsub64 (Fin (prob (health baseline))) (Fin (prob (health intervention)));
       delta_food_security :=
         Float64.fsub64 (Fin (prob (food_security baseline)))
                        (Fin (prob (food_security intervention)));
       delta_resilience_score :=
         (resilience_score intervention - resilience_score baseline)%Z |} in
  let percent_change :=
    {| percent_environmental :=
         safe_pct_change (Fin (prob (environmental baseline)))
                         (Fin (prob (environmental intervention)));
       percent_health :=
         safe_pct_change (Fin (prob (health baseline))) (Fin (prob (health intervention)));
       percent_food_security :=
         safe_pct_change (Fin (prob (food_security baseline)))
                         (Fin (prob (food_security intervention))) |} in
  Ok {| outcome_baseline := baseline;
        outcome_intervention := intervention;
        outcome_delta := delta;
        outcome_percent_change := percent_change;
        policies_applied := map fst policy_adjustments;
        intervention_metrics := intervention_metrics |}.

End WithRuntime.

End Policy.

(** * Properties *)

(** ** Comparisons and the min/max builtins on rationals *)

Lemma Qltb_true (a b : Q) : Qltb a b = true <-> a < b.
Proof.
  unfold Qltb. rewrite negb_true_iff.
  split; intro H.
  - apply Qnot_le_lt. intro Hle. apply Qle_bool_iff in Hle. congruence.
  - destruct (Qle_bool b a) eqn:E; [|reflexivity].
    apply Qle_bool_iff in E. exfalso. apply (Qlt_not_le _ _ H E).
Qed.

Lemma Qltb_false (a b : Q) : Qltb a b = false <-> b <= a.
Proof.
  unfold Qltb. rewrite negb_false_iff. apply Qle_bool_iff.
Qed.

Lemma Qltb_cases (a b : Q) :
  (Qltb a b = true /\ a < b) \/ (Qltb a b = false /\ b <= a).
Proof.
  destruct (Qltb a b) eqn:E.
  - left. split; [reflexivity|]. now apply Qltb_true.
  - right. split; [reflexivity|]. now apply Qltb_false.
Qed.

Ltac case_Qltb a b :=
  let E := fresh "E" in
  let L := fresh "L" in
  destruct (Qltb_cases a b) as [[E L]|[E L]]; rewrite ?E in *.

Lemma py_min_Qmin (a b : Q) : py_min Qltb a b == Qmin a b.
Proof.
  unfold py_min. case_Qltb b a.
  - symmetry. apply Q.min_r. lra.
  - symmetry. apply Q.min_l. exact L.
Qed.

Lemma py_max_Qmax (a b : Q) : py_max Qltb a b == Qmax a b.
Proof.
  unfold py_max. case_Qltb a b.
  - symmetry. apply Q.max_r. lra.
  - symmetry. apply Q.max_l. exact L.
Qed.

Lemma py_clamp_bounds (lo hi x : Q) :
  lo <= hi -> lo <= py_max Qltb lo (py_min Qltb hi x) <= hi.
Proof.
  intro H. unfold py_max, py_min.
  case_Qltb x hi; case_Qltb lo x; try case_Qltb lo hi; lra.
Qed.

Lemma Qtrunc_nonneg (q : Q) : 0 <= q -> Qtrunc q = Qfloor q.
Proof.
  destruct q as [n d]. unfold Qle, Qtrunc, Qfloor. simpl. intro H.
  apply Z.quot_div_nonneg; lia.
Qed.

(** ** Cascading inference *)

Section Cascade.

Import Preprocessing CascadingEngine.

Variable parse : string -> option PyFloat.
Variable np_log : Q -> Q.

(** What a successful run of [predict_cascading_risks] went through. *)
Lemma predict_cascading_risks_inv self metrics r :
  predict_cascading_risks parse np_log self metrics = Ok r ->
  exists em hm fm notes eo ho fo,
    _is_trained self = true /\
    preprocess_all_metrics parse metrics = Ok (em, hm, fm, notes) /\
    env_model self (X_env em) = Ok eo /\
    health_model self
      (X_health (inject_env_risk hm (Classifier.high (Classifier.probabilities eo)))) = Ok ho /\
    food_model self (X_food fm) = Ok fo /\
    environmental r = domain_prediction eo /\
    health r = domain_prediction ho /\
    food_security r = domain_prediction fo /\
    resilience_score r =
      _calculate_resilience_score (Classifier.high (Classifier.probabilities eo))
                                  (Classifier.high (Classifier.probabilities ho))
                                  (Classifier.high (Classifier.probabilities fo)) /\
    env_risk_injected_to_health (cascading_effect r) =
      Classifier.high (Classifier.probabilities eo).
Proof.
  unfold predict_cascading_risks. intro H.
  destruct (_is_trained self); simpl in H; [|discriminate].
  destruct (preprocess_all_metrics parse metrics) as [[[[em hm] fm] notes]|] eqn:EP;
    simpl in H; [|discriminate].
  destruct (env_model self (X_env em)) as [eo|] eqn:EE; simpl in H; [|discriminate].
  destruct (health_model self _) as [ho|] eqn:EH; simpl in H; [|discriminate].
  destruct (food_model self (X_food fm)) as [fo|] eqn:EF; simpl in H; [|discriminate].
  injection H as <-.
  exists em, hm, fm, notes, eo, ho, fo. simpl.
  repeat split; auto.
Qed.

End Cascade.

Section CascadeClaims.

Import Preprocessing CascadingEngine Claims.

(** C1, as stated, fails: the stressed engine scores 28 where the rounded
    formula gives 29 (the formula's value is 28.65). *)
Lemma resilience_score_not_rounded :
  ~ (forall parse np_log self metrics r,
        predict_cascading_risks parse np_log self metrics = Ok r ->
        resilience_score r =
          rounded_resilience (prob (environmental r)) (prob (health r))
                             (prob (food_security r))).
Proof.
  intro H.
  destruct (predict_cascading_risks Samples.no_text Samples.tangent_log
              Samples.stressed_engine Samples.stress_metrics) as [r|e] eqn:E.
  - specialize (H _ _ _ _ _ E).
    vm_compute in E. injection E as <-.
    vm_compute in H. discriminate H.
  - vm_compute in E. discriminate E.
Qed.

(** The clamp leaves a finite number between 0 and 100, whatever float it
    is given: [nan] and [+inf] give 100, [-inf] gives 0. *)
Lemma clamp_resilience_is_finite (x : PyFloat) :
  exists q, clamp_resilience x = Fin q /\ 0 <= q <= 100.
Proof.
  unfold clamp_resilience, py_max, py_min.
  destruct x as [v| | |]; cbn [fltb].
  - case_Qltb v 100; cbn [fltb].
    + case_Qltb 0 v; eexists; (split; [reflexivity|lra]).
    + exists 100. split; [reflexivity|lra].
  - exists 100. split; [reflexivity|lra].
  - exists 100. split; [reflexivity|lra].
  - exists 0. split; [reflexivity|lra].
Qed.

(** Binary rounding shows in the score: for the probabilities 1.0, 0.5 and
    0 the exact value of the formula is 45, the doubles give
    44.99999999999999, and the score is 44. *)
Lemma resilience_score_rounds_in_binary :
  _calculate_resilience_score 1 (1 # 2) 0 = 44%Z /\
  Qfloor (clamp_0_100 (resilience_formula 1 (1 # 2) 0)) = 45%Z.
Proof. split; vm_compute; reflexivity. Qed.

(** C1, amended: for every prediction returned by cascading inference the
    resilience score is the integer part of
    100 * (1 - (0.35 * P_env_high + 0.40 * P_health_high + 0.25 * P_food_high)),
    evaluated in double precision in that order and clamped to [0,100]
    before it is truncated; it is an integer between 0 and 100. *)
Theorem resilience_score_truncates_float_formula
        (parse : string -> option PyFloat) (np_log : Q -> Q)
        (self : CascadingRiskEngine) (metrics : Dict PyVal) (r : Prediction) :
  predict_cascading_risks parse np_log self metrics = Ok r ->
  exists resilience : Q,
    float_clamp_0_100 (float_resilience (prob (environmental r)) (prob (health r))
                                        (prob (food_security r))) = Fin resilience /\
    0 <= resilience <= 100 /\
    resilience_score r = Qfloor resilience /\
    (0 <= resilience_score r <= 100)%Z.
Proof.
  intro H.
  destruct (predict_cascading_risks_inv _ _ _ _ _ H)
    as (em & hm & fm & notes & eo & ho & fo & _ & _ & _ & _ & _ & He & Hh & Hf & Hr & _).
  rewrite Hr, He, Hh, Hf. cbn [prob domain_prediction].
  unfold _calculate_resilience_score, float_clamp_0_100, float_resilience,
    RESILIENCE_WEIGHT_environmental, RESILIENCE_WEIGHT_health, RESILIENCE_WEIGHT_food.
  fold (clamp_resilience
          (Float64.fmul64 (Fin 100)
             (Float64.fsub64 (Fin 1)
                (Float64.fadd64
                   (Float64.fadd64
                      (Float64.fmul64 (Float64.literal (35 # 100))
                                      (Fin (Classifier.high (Classifier.probabilities eo))))
                      (Float64.fmul64 (Float64.literal (40 # 100))
                                      (Fin (Classifier.high (Classifier.probabilities ho)))))
                   (Float64.fmul64 (Float64.literal (25 # 100))
                                   (Fin (Classifier.high (Classifier.probabilities fo)))))))).
  match goal with
  | |- context [clamp_resilience ?x] =>
      destruct (clamp_resilience_is_finite x) as (q & -> & Hlo & Hhi)
  end.
  exists q. cbn [py_int]. rewrite (Qtrunc_nonneg _ Hlo).
  split; [reflexivity|]. split; [split; assumption|]. split; [reflexivity|].
  split.
  - change 0%Z with (Qfloor 0). apply Qfloor_resp_le. exact Hlo.
  - change 100%Z with (Qfloor 100). apply Qfloor_resp_le. exact Hhi.
Qed.

(** The amended C1 on the stress scenario: the score is 28. *)
Lemma resilience_score_truncates_float_formula_witness :
  exists r resilience,
    predict_cascading_risks Samples.no_text Samples.tangent_log
                            Samples.stressed_engine Samples.stress_metrics = Ok r /\
    float_clamp_0_100 (float_resilience (prob (environmental r)) (prob (health r))
                                        (prob (food_security r))) = Fin resilience /\
    resilience_score r = Qfloor resilience /\
    resilience_score r = 28%Z.
Proof.
  destruct (predict_cascading_risks Samples.no_text Samples.tangent_log
              Samples.stressed_engine Samples.stress_metrics) as [r|e] eqn:E;
    [|vm_compute in E; discriminate E].
  destruct (resilience_score_truncates_float_formula _ _ _ _ _ E)
    as (resilience & Hclamp & _ & Hscore & _).
  exists r, resilience. split; [reflexivity|]. split; [exact Hclamp|].
  split; [exact Hscore|].
  vm_compute in E. injection E as <-. reflexivity.
Defined.

(** C9: the reported cascade value of a prediction is its environmental
    probability of high, and it is the value of the [environmental_risk_prob]
    feature (the fifth) of the row the health model was run on to produce
    that prediction's health distribution. *)
Theorem cascade_echo
        (parse : string -> option PyFloat) (np_log : Q -> Q)
        (self : CascadingRiskEngine) (metrics : Dict PyVal) (r : Prediction) :
  predict_cascading_risks parse np_log self metrics = Ok r ->
  env_risk_injected_to_health (cascading_effect r) = prob (environmental r) /\
  exists (health_metrics : HealthMetrics) (health_result : Classifier.Output),
    health_model self (X_health health_metrics) = Ok health_result /\
    health r = domain_prediction health_result /\
    health_environmental_risk_prob health_metrics =
      Fin (env_risk_injected_to_health (cascading_effect r)) /\
    nth_error (X_health health_metrics) 4 =
      Some (Fin (env_risk_injected_to_health (cascading_effect r))).
Proof.
  intro H.
  destruct (predict_cascading_risks_inv _ _ _ _ _ H)
    as (em & hm & fm & notes & eo & ho & fo & _ & _ & _ & Hhm & _ & He & Hh & _ & _ & Hc).
  rewrite Hc, He. split; [reflexivity|].
  exists (inject_env_risk hm (Classifier.high (Classifier.probabilities eo))), ho.
  repeat split; auto.
Qed.

(** C9 on the stress scenario: 0.78 is echoed. *)
Lemma cascade_echo_witness :
  exists r,
    predict_cascading_risks Samples.no_text Samples.tangent_log
                            Samples.stressed_engine Samples.stress_metrics = Ok r /\
    env_risk_injected_to_health (cascading_effect r) = 78 # 100 /\
    env_risk_injected_to_health (cascading_effect r) = prob (environmental r).
Proof.
  eexists. split; [vm_compute; reflexivity|].
  split; [reflexivity|].
  apply (cascade_echo Samples.no_text Samples.tangent_log
                      Samples.stressed_engine Samples.stress_metrics).
  vm_compute. reflexivity.
Defined.

End CascadeClaims.

(** ** Threshold override *)

Section ThresholdOverride.

Import Preprocessing Claims.

(** The phase-1 engine pins the environmental answer above aqi 300,
    without consulting its model. *)
Lemma risk_engine_pins_environmental
      (self : RiskEngine.RiskEngine) (aqi traffic_density temperature rainfall : PyFloat) :
  fltb (Fin 300) aqi = true ->
  RiskEngine.predict_environmental self aqi traffic_density temperature rainfall =
    Ok pinned_environmental.
Proof.
  intro H. unfold RiskEngine.predict_environmental. rewrite H. reflexivity.
Qed.

(** The phase-1 engine pins the food-security answer below supply 30. *)
Lemma risk_engine_pins_food_security
      (self : RiskEngine.RiskEngine)
      (crop_supply_index food_price_index rainfall temperature events : PyFloat) :
  fltb crop_supply_index (Fin 30) = true ->
  RiskEngine.predict_food_security self crop_supply_index food_price_index rainfall
                                   temperature events =
    Ok pinned_food_security.
Proof.
  intro H. unfold RiskEngine.predict_food_security. rewrite H. reflexivity.
Qed.

(** Cascading inference reports, for each domain, what the domain's model
    answered on the preprocessed row: nothing overrides it. *)
Lemma cascade_forwards_the_models
      (parse : string -> option PyFloat) (np_log : Q -> Q)
      (self : CascadingEngine.CascadingRiskEngine) (metrics : Dict PyVal)
      (r : CascadingEngine.Prediction) :
  CascadingEngine.predict_cascading_risks parse np_log self metrics = Ok r ->
  exists em hm fm notes eo fo,
    preprocess_all_metrics parse metrics = Ok (em, hm, fm, notes) /\
    CascadingEngine.env_model self (CascadingEngine.X_env em) = Ok eo /\
    CascadingEngine.environmental r = CascadingEngine.domain_prediction eo /\
    CascadingEngine.food_model self (CascadingEngine.X_food fm) = Ok fo /\
    CascadingEngine.food_security r = CascadingEngine.domain_prediction fo.
Proof.
  intro H.
  destruct (predict_cascading_risks_inv _ _ _ _ _ H)
    as (em & hm & fm & notes & eo & ho & fo & _ & Hp & He & _ & Hf & Hre & _ & Hrf & _).
  exists em, hm, fm, notes, eo, fo. auto.
Qed.

(** C3 at aqi 350 and crop supply 20: cascading inference returns the calm
    models' answers for the environment and for food security, where the
    phase-1 engine, on the same readings and models, returns the pinned
    distributions. *)
Theorem cascade_has_no_threshold_override
        (parse : string -> option PyFloat) (np_log : Q -> Q) :
  (exists r,
      CascadingEngine.predict_cascading_risks parse np_log Samples.calm_engine
                                              Samples.extreme_metrics = Ok r /\
      CascadingEngine.risk (CascadingEngine.environmental r) = "low" /\
      CascadingEngine.probabilities (CascadingEngine.environmental r) =
        {| Classifier.low := 70 # 100; Classifier.medium := 20 # 100;
           Classifier.high := 10 # 100 |} /\
      CascadingEngine.risk (CascadingEngine.food_security r) = "low" /\
      CascadingEngine.probabilities (CascadingEngine.food_security r) =
        {| Classifier.low := 80 # 100; Classifier.medium := 15 # 100;
           Classifier.high := 5 # 100 |}) /\
  RiskEngine.predict_environmental Samples.calm_risk_engine
                                   (Fin 350) (Fin 2) (Fin 38) (Fin 5) =
    Ok pinned_environmental /\
  RiskEngine.predict_food_security Samples.calm_risk_engine
                                   (Fin 20) (Fin 135) (Fin 5) (Fin 38) (Fin 3) =
    Ok pinned_food_security.
Proof.
  split; [|split; reflexivity].
  destruct (preprocess_all_metrics parse Samples.extreme_metrics)
    as [[[[em hm] fm] notes]|e] eqn:Hp; [|vm_compute in Hp; discriminate Hp].
  unfold CascadingEngine.predict_cascading_risks.
  rewrite Hp. cbn.
  eexists. split; [reflexivity|].
  cbn. repeat split.
Qed.

End ThresholdOverride.

(** ** Preprocessing *)

Section PreprocessingClaims.

Import Preprocessing.

Variable parse : string -> option PyFloat.

(** C5 at an infinite traffic density and at an aqi of 10^400: neither
    [round(inf)] nor [float(10**400)] raises a TypeError or a ValueError,
    so the OverflowError leaves [preprocess_all_metrics]. *)
Theorem preprocess_all_metrics_overflows :
  preprocess_all_metrics parse [("traffic_density", VFloat PInf)] = Raise OverflowError /\
  preprocess_all_metrics parse [("respiratory_cases", VFloat PInf)] = Raise OverflowError /\
  preprocess_all_metrics parse [("aqi", VInt (10 ^ 400))] = Raise OverflowError.
Proof.
  repeat split; vm_compute; reflexivity.
Qed.

(** *** What holds whenever preprocessing returns *)

Lemma clip_to_range_in_range (x : PyFloat) (r : Range) :
  lo r <= hi r -> Claims.in_range r (clip_to_range x r).
Proof.
  intro H. unfold Claims.in_range, clip_to_range, py_max, py_min.
  destruct x as [q| | |]; cbn [fltb].
  - case_Qltb q (hi r); cbn [fltb].
    + case_Qltb (lo r) q; eexists; (split; [reflexivity|lra]).
    + case_Qltb (lo r) (hi r); eexists; (split; [reflexivity|lra]).
  - case_Qltb (lo r) (hi r); eexists; (split; [reflexivity|lra]).
  - case_Qltb (lo r) (hi r); eexists; (split; [reflexivity|lra]).
  - eexists. split; [reflexivity|lra].
Qed.

Lemma clip_to_range_int_in_range (z : Z) (r : Z * Z) :
  (fst r <= snd r)%Z -> Claims.in_range_int r (clip_to_range_int z r).
Proof.
  intro H. unfold Claims.in_range_int, clip_to_range_int, py_max, py_min.
  destruct (z <? snd r)%Z eqn:E1.
  - destruct (fst r <? z)%Z eqn:E2; lia.
  - destruct (fst r <? snd r)%Z eqn:E2; lia.
Qed.

Lemma default_in_range (q : Q) (r : Range) :
  lo r <= q <= hi r -> Claims.in_range r (Fin q).
Proof. intro H. exists q. split; [reflexivity|exact H]. Qed.

(** What a [try]/[except (TypeError, ValueError)] block returns satisfies
    whatever both its body and its handler guarantee. *)
Lemma except_type_value_ok {A : Type} (P : A -> Prop) (c h : Result A) (a : A) :
  except_type_value c h = Ok a ->
  (forall x, c = Ok x -> P x) -> (forall x, h = Ok x -> P x) -> P a.
Proof.
  unfold except_type_value. intros H Hc Hh.
  destruct c as [x|[]]; try discriminate H; auto.
Qed.

(** The body of a block, past its [float(...)]. *)
Ltac float_inversion H :=
  match type of H with
  | context [py_float ?p ?v] =>
      let x := fresh "x" in
      destruct (py_float p v) as [x|]; cbn [Py.bind] in H; [|discriminate H]
  end.

Lemma float_field_in_range metrics k default r v notes :
  lo r <= default <= hi r ->
  float_field parse metrics k default r = Ok (v, notes) -> Claims.in_range r v.
Proof.
  intros Hd H. unfold float_field in H.
  apply (except_type_value_ok (fun p => Claims.in_range r (fst p)) _ _ _ H).
  - intros [v' n'] Hc. float_inversion Hc.
    injection Hc as <- _. cbn [fst]. apply clip_to_range_in_range. lra.
  - intros [v' n'] Hh. injection Hh as <- _. now apply default_in_range.
Qed.

Lemma temperature_field_in_range metrics default r log v notes :
  lo r <= default <= hi r ->
  temperature_field parse metrics default r log = Ok (v, notes) -> Claims.in_range r v.
Proof.
  intros Hd H. unfold temperature_field in H.
  apply (except_type_value_ok (fun p => Claims.in_range r (fst p)) _ _ _ H).
  - intros [v' n'] Hc. float_inversion Hc.
    destruct (fltb (Fin 200) x); injection Hc as <- _; cbn [fst];
      apply clip_to_range_in_range; lra.
  - intros [v' n'] Hh. injection Hh as <- _. now apply default_in_range.
Qed.

Lemma count_field_in_range metrics k default r n notes :
  (fst r <= default <= snd r)%Z ->
  count_field parse metrics k default r = Ok (n, notes) -> Claims.in_range_int r n.
Proof.
  intros Hd H. unfold count_field in H.
  apply (except_type_value_ok (fun p => Claims.in_range_int r (fst p)) _ _ _ H).
  - intros [v' n'] Hc. float_inversion Hc.
    destruct (py_int x) as [truncated|]; cbn [bind] in Hc; [|discriminate Hc].
    injection Hc as <- _. cbn [fst]. apply clip_to_range_int_in_range. lia.
  - intros [v' n'] Hh. injection Hh as <- _. exact Hd.
Qed.

Ltac bind_inversion H :=
  match type of H with
  | Py.bind ?c _ = Ok _ =>
      let E := fresh "E" in
      destruct c as [[? ?]|] eqn:E; cbn [Py.bind] in H; [|discriminate H]
  end.

Ltac range_goal := repeat split; vm_compute; discriminate.

Lemma preprocess_environmental_metrics_in_range metrics m notes :
  preprocess_environmental_metrics parse metrics = Ok (m, notes) ->
  Claims.in_range ENV_RANGE_aqi (env_aqi m) /\
  Claims.in_range_int ENV_RANGE_traffic_density (env_traffic_density m) /\
  Claims.in_range ENV_RANGE_temperature (env_temperature m) /\
  Claims.in_range ENV_RANGE_rainfall (env_rainfall m).
Proof.
  unfold preprocess_environmental_metrics. intro H.
  do 4 bind_inversion H. injection H as <- _.
  cbn [env_aqi env_traffic_density env_temperature env_rainfall].
  refine (conj _ (conj _ (conj _ _))).
  - apply (except_type_value_ok (fun p => Claims.in_range ENV_RANGE_aqi (fst p)) _ _ _ E).
    + intros [v' n'] Hc. float_inversion Hc.
      injection Hc as <- _. cbn [fst]. apply clip_to_range_in_range. range_goal.
    + intros [v' n'] Hh. injection Hh as <- _. apply default_in_range.
      unfold ENV_DEFAULT_aqi. range_goal.
  - apply (except_type_value_ok
             (fun p => Claims.in_range_int ENV_RANGE_traffic_density (fst p)) _ _ _ E0).
    + intros [v' n'] Hc. float_inversion Hc.
      destruct (py_round x) as [rounded|]; cbn [bind] in Hc; [|discriminate Hc].
      injection Hc as <- _. cbn [fst]. apply clip_to_range_int_in_range. range_goal.
    + intros [v' n'] Hh. injection Hh as <- _. unfold Claims.in_range_int.
      unfold ENV_DEFAULT_traffic_density. range_goal.
  - eapply temperature_field_in_range; [|exact E1].
    unfold ENV_DEFAULT_temperature. range_goal.
  - eapply float_field_in_range; [|exact E2]. unfold ENV_DEFAULT_rainfall. range_goal.
Qed.

Lemma preprocess_health_metrics_in_range metrics m notes :
  preprocess_health_metrics parse metrics None = Ok (m, notes) ->
  Claims.in_range HEALTH_RANGE_aqi (health_aqi m) /\
  Claims.in_range HEALTH_RANGE_hospital_load (health_hospital_load m) /\
  Claims.in_range_int HEALTH_RANGE_respiratory_cases (health_respiratory_cases m) /\
  Claims.in_range HEALTH_RANGE_temperature (health_temperature m) /\
  Claims.in_range HEALTH_RANGE_environmental_risk_prob (health_environmental_risk_prob m).
Proof.
  unfold preprocess_health_metrics. intro H.
  do 5 bind_inversion H. injection H as <- _.
  cbn [health_aqi health_hospital_load health_respiratory_cases health_temperature
       health_environmental_risk_prob].
  refine (conj _ (conj _ (conj _ (conj _ _)))).
  - eapply float_field_in_range; [|exact E]. unfold HEALTH_DEFAULT_aqi. range_goal.
  - apply (except_type_value_ok
             (fun p => Claims.in_range HEALTH_RANGE_hospital_load (fst p)) _ _ _ E0).
    + intros [v' n'] Hc. float_inversion Hc.
      destruct (fltb (Fin 1) x); injection Hc as <- _; cbn [fst];
        apply clip_to_range_in_range; range_goal.
    + intros [v' n'] Hh. injection Hh as <- _. apply default_in_range.
      unfold HEALTH_DEFAULT_hospital_load. range_goal.
  - eapply count_field_in_range; [|exact E1].
    unfold HEALTH_DEFAULT_respiratory_cases. range_goal.
  - eapply temperature_field_in_range; [|exact E2].
    unfold HEALTH_DEFAULT_temperature. range_goal.
  - eapply float_field_in_range; [|exact E3].
    unfold HEALTH_DEFAULT_environmental_risk_prob. range_goal.
Qed.

Lemma preprocess_food_metrics_in_range metrics m notes :
  preprocess_food_metrics parse metrics = Ok (m, notes) ->
  Claims.in_range FOOD_RANGE_crop_supply_index (food_crop_supply_index m) /\
  Claims.in_range FOOD_RANGE_food_price_index (food_food_price_index m) /\
  Claims.in_range FOOD_RANGE_rainfall (food_rainfall m) /\
  Claims.in_range FOOD_RANGE_temperature (food_temperature m) /\
  Claims.in_range_int FOOD_RANGE_supply_disruption_events (food_supply_disruption_events m).
Proof.
  unfold preprocess_food_metrics. intro H.
  do 5 bind_inversion H. injection H as <- _.
  cbn [food_crop_supply_index food_food_price_index food_rainfall food_temperature
       food_supply_disruption_events].
  refine (conj _ (conj _ (conj _ (conj _ _)))).
  - eapply float_field_in_range; [|exact E]. unfold FOOD_DEFAULT_crop_supply_index. range_goal.
  - eapply float_field_in_range; [|exact E0]. unfold FOOD_DEFAULT_food_price_index. range_goal.
  - eapply float_field_in_range; [|exact E1]. unfold FOOD_DEFAULT_rainfall. range_goal.
  - eapply temperature_field_in_range; [|exact E2].
    unfold FOOD_DEFAULT_temperature. range_goal.
  - eapply count_field_in_range; [|exact E3].
    unfold FOOD_DEFAULT_supply_disruption_events. range_goal.
Qed.

(** Whenever [preprocess_all_metrics] returns, every field of the three
    slices is a finite number within the range documented for it. *)
Lemma preprocess_all_metrics_in_range metrics env health food notes :
  preprocess_all_metrics parse metrics = Ok (env, health, food, notes) ->
  (Claims.in_range ENV_RANGE_aqi (env_aqi env) /\
   Claims.in_range_int ENV_RANGE_traffic_density (env_traffic_density env) /\
   Claims.in_range ENV_RANGE_temperature (env_temperature env) /\
   Claims.in_range ENV_RANGE_rainfall (env_rainfall env)) /\
  (Claims.in_range HEALTH_RANGE_aqi (health_aqi health) /\
   Claims.in_range HEALTH_RANGE_hospital_load (health_hospital_load health) /\
   Claims.in_range_int HEALTH_RANGE_respiratory_cases (health_respiratory_cases health) /\
   Claims.in_range HEALTH_RANGE_temperature (health_temperature health) /\
   Claims.in_range HEALTH_RANGE_environmental_risk_prob
                   (health_environmental_risk_prob health)) /\
  (Claims.in_range FOOD_RANGE_crop_supply_index (food_crop_supply_index food) /\
   Claims.in_range FOOD_RANGE_food_price_index (food_food_price_index food) /\
   Claims.in_range FOOD_RANGE_rainfall (food_rainfall food) /\
   Claims.in_range FOOD_RANGE_temperature (food_temperature food) /\
   Claims.in_range_int FOOD_RANGE_supply_disruption_events
                       (food_supply_disruption_events food)).
Proof.
  unfold preprocess_all_metrics. intro H.
  do 3 bind_inversion H. injection H as <- <- <- _.
  split; [|split].
  - eapply preprocess_environmental_metrics_in_range. exact E.
  - eapply preprocess_health_metrics_in_range. exact E0.
  - eapply preprocess_food_metrics_in_range. exact E1.
Qed.

(** A number already within the range of a plain float field comes back as
    the same number, with nothing logged. *)
Lemma float_field_valid_unchanged metrics k default r q :
  metrics_get metrics k = VFloat (Fin q) ->
  lo r <= q <= hi r ->
  exists q', float_field parse metrics k default r = Ok (Fin q', []) /\ q' == q.
Proof.
  intros Hget Hq. unfold float_field. rewrite Hget.
  cbn [handle_missing py_float bind except_type_value].
  unfold clip_to_range, py_max, py_min. cbn [fltb].
  case_Qltb q (hi r); cbn [fltb].
  - case_Qltb (lo r) q; eexists; (split; [reflexivity|lra]).
  - case_Qltb (lo r) (hi r); eexists; (split; [reflexivity|lra]).
Qed.

End PreprocessingClaims.

(** ** The real-time state manager *)

Section RealtimeClaims.

Import CascadingEngine Realtime Claims.

Variable parse : string -> option PyFloat.
Variable np_log : Q -> Q.
Variable engine : CascadingRiskEngine.

Lemma prediction_dict_domains (p : Prediction) :
  obj_get (prediction_dict p) "environmental" (ODict []) = Ok (domain_dict (environmental p)) /\
  obj_get (prediction_dict p) "health" (ODict []) = Ok (domain_dict (health p)) /\
  obj_get (prediction_dict p) "food_security" (ODict []) =
    Ok (domain_dict (food_security p)).
Proof. repeat split. Qed.

(** A domain entry has the keys [risk], [prob] and [probabilities]: asking
    it for [risk_level] or [high_prob] yields the default. *)
Lemma domain_dict_misses (d : DomainPrediction) (default : PyObj) :
  obj_get (domain_dict d) "risk_level" default = Ok default /\
  obj_get (domain_dict d) "high_prob" default = Ok default.
Proof. split; reflexivity. Qed.

(** The record [run_inference] builds never reads the engine's answer. *)
Lemma build_record_defaults clk self record :
  build_record parse np_log engine clk self = Ok record ->
  environmental_risk record = "medium" /\
  environmental_prob record = (5 # 10) /\
  health_risk record = "low" /\
  health_prob record = (2 # 10) /\
  food_security_risk record = "low" /\
  food_security_prob record = (1 # 10) /\
  Realtime.confidence record = get_confidence (confidence_now clk) self.
Proof.
  unfold build_record. intro H.
  destruct (predict_cascading_risks parse np_log engine
              (inference_metrics (get_merged_state (confidence_now clk) self))) as [r|e].
  - cbn [bind] in H.
    destruct (prediction_dict_domains r) as (He & Hh & Hf).
    rewrite He, Hh, Hf in H. cbn [bind] in H.
    rewrite !(proj1 (domain_dict_misses _ _)), !(proj2 (domain_dict_misses _ _)) in H.
    cbn [bind as_str as_float] in H.
    injection H as <-. cbn [environmental_risk environmental_prob health_risk health_prob
                             food_security_risk food_security_prob Realtime.confidence
                             m_confidence get_merged_state].
    repeat split; reflexivity.
  - cbn [bind] in H. discriminate H.
Qed.

(** C2, as the code has it: whenever [run_inference] returns a record, the
    record's per-domain risk levels and probabilities are the fixed
    defaults medium/0.5, low/0.2 and low/0.1, whatever cascading inference
    computed on the merged state; only its confidence field is as claimed,
    the data-freshness confidence of the manager. *)
Theorem run_inference_record_ignores_prediction clk self self' record :
  run_inference parse np_log engine clk self = (self', Some record) ->
  environmental_risk record = "medium" /\
  environmental_prob record = (5 # 10) /\
  health_risk record = "low" /\
  health_prob record = (2 # 10) /\
  food_security_risk record = "low" /\
  food_security_prob record = (1 # 10) /\
  Realtime.confidence record = get_confidence (confidence_now clk) self.
Proof.
  unfold run_inference. intro H.
  destruct (rate_limited clk self); [discriminate H|].
  destruct (build_record parse np_log engine clk
              (set_last_inference_time self (current_time clk))) as [rec|e] eqn:E;
    [|discriminate H].
  injection H as _ <-.
  exact (build_record_defaults _ _ _ E).
Qed.

(** *** Data freshness *)

Lemma append_confidence_slot now confidences ts :
  append_confidence now confidences ts = (confidences ++ [slot_freshness now ts])%list.
Proof.
  unfold append_confidence, slot_freshness, freshness_of_age, STALE_THRESHOLD.
  destruct ts as [t|]; [|reflexivity].
  change (60 * 2) with 120. change (60 * 5) with 300.
  destruct (Qltb (now - t) 60); [reflexivity|].
  destruct (Qltb (now - t) 120); [reflexivity|].
  destruct (Qltb (now - t) 300); reflexivity.
Qed.

Lemma freshness_of_age_antitone (age1 age2 : Q) :
  age1 <= age2 -> freshness_of_age age2 <= freshness_of_age age1.
Proof.
  intro H. unfold freshness_of_age.
  case_Qltb age2 60; case_Qltb age1 60;
    try case_Qltb age2 120; try case_Qltb age1 120;
    try case_Qltb age2 300; try case_Qltb age1 300;
    solve [lra | unfold Qle; simpl; lia].
Qed.

Lemma freshness_of_age_values (age : Q) :
  (age < 60 -> freshness_of_age age = 1) /\
  (60 <= age -> age < 120 -> freshness_of_age age = (8 # 10)) /\
  (120 <= age -> age < 300 -> freshness_of_age age = (5 # 10)) /\
  (300 <= age -> freshness_of_age age = (3 # 10)).
Proof.
  unfold freshness_of_age.
  repeat split; intros;
    case_Qltb age 60; try case_Qltb age 120; try case_Qltb age 300;
    solve [reflexivity | lra].
Qed.

(** C8: the aggregate data-freshness confidence is the average of the three
    per-slot values (1.0 under 60 s of age, 0.8 under 120 s, 0.5 under 300 s,
    0.3 from then on, 0.5 without a timestamp), and the per-slot value of a
    slot with a timestamp does not increase as its age grows. *)
Theorem get_confidence_is_average_freshness now self :
  fold_left (append_confidence now)
            [env_timestamp (environmental_state self);
             health_timestamp (health_state self);
             food_timestamp (food_state self)] [] =
    [slot_freshness now (env_timestamp (environmental_state self));
     slot_freshness now (health_timestamp (health_state self));
     slot_freshness now (food_timestamp (food_state self))] /\
  get_confidence now self ==
    (slot_freshness now (env_timestamp (environmental_state self)) +
     slot_freshness now (health_timestamp (health_state self)) +
     slot_freshness now (food_timestamp (food_state self))) / 3 /\
  (forall age,
      (age < 60 -> freshness_of_age age = 1) /\
      (60 <= age -> age < 120 -> freshness_of_age age = (8 # 10)) /\
      (120 <= age -> age < 300 -> freshness_of_age age = (5 # 10)) /\
      (300 <= age -> freshness_of_age age = (3 # 10))) /\
  (forall ts1 ts2,
      now - ts1 <= now - ts2 ->
      slot_freshness now (Some ts2) <= slot_freshness now (Some ts1)).
Proof.
  assert (Hlist :
            fold_left (append_confidence now)
                      [env_timestamp (environmental_state self);
                       health_timestamp (health_state self);
                       food_timestamp (food_state self)] [] =
            [slot_freshness now (env_timestamp (environmental_state self));
             slot_freshness now (health_timestamp (health_state self));
             slot_freshness now (food_timestamp (food_state self))]).
  { cbn [fold_left]. rewrite !append_confidence_slot. reflexivity. }
  split; [exact Hlist|]. split; [|split].
  - unfold get_confidence. rewrite Hlist.
    unfold Qsum. cbn [fold_left List.length].
    change (inject_Z (Z.of_nat 3)) with 3. field.
  - exact freshness_of_age_values.
  - intros ts1 ts2 H. cbn [slot_freshness]. now apply freshness_of_age_antitone.
Qed.

(** *** Merged state *)

Lemma py_or_falsy (x : option Q) (default : Q) :
  falsy x -> py_or x default = default.
Proof.
  destruct x as [q|]; [|reflexivity].
  cbn [falsy py_or]. intro H.
  destruct (Qeq_bool q 0) eqn:E; [reflexivity|].
  apply Qeq_bool_neq in E. contradiction.
Qed.

Lemma py_or_never_zero (x : option Q) (default : Q) :
  ~ default == 0 -> ~ py_or x default == 0.
Proof.
  intro Hd. destruct x as [q|]; [|exact Hd].
  cbn [py_or]. destruct (Qeq_bool q 0) eqn:E; [exact Hd|].
  now apply Qeq_bool_neq.
Qed.

(** C10: [get_merged_state] puts the default in the place of every stored
    field that is falsy, an observed zero included: aqi 100, temperature 25,
    hospital_load 0.5, respiratory_cases 100, price_volatility 0.1 and
    supply_index 80; so none of these six fields of the merged state is
    ever zero. *)
Theorem get_merged_state_replaces_falsy now self :
  (falsy (aqi (environmental_state self)) ->
   m_aqi (get_merged_state now self) = 100) /\
  (falsy (temperature (environmental_state self)) ->
   m_temperature (get_merged_state now self) = 25) /\
  (falsy (hospital_load (health_state self)) ->
   m_hospital_load (get_merged_state now self) = (5 # 10)) /\
  (falsy (respiratory_cases (health_state self)) ->
   m_respiratory_cases (get_merged_state now self) = 100) /\
  (falsy (price_volatility (food_state self)) ->
   m_price_volatility (get_merged_state now self) = (1 # 10)) /\
  (falsy (supply_index (food_state self)) ->
   m_crop_supply_index (get_merged_state now self) = 80) /\
  ~ m_aqi (get_merged_state now self) == 0 /\
  ~ m_temperature (get_merged_state now self) == 0 /\
  ~ m_hospital_load (get_merged_state now self) == 0 /\
  ~ m_respiratory_cases (get_merged_state now self) == 0 /\
  ~ m_price_volatility (get_merged_state now self) == 0 /\
  ~ m_crop_supply_index (get_merged_state now self) == 0.
Proof.
  cbn [get_merged_state m_aqi m_temperature m_hospital_load m_respiratory_cases
       m_price_volatility m_crop_supply_index].
  repeat split; try (apply py_or_falsy); apply py_or_never_zero; discriminate.
Qed.

(** *** Rate gate *)

Lemma rate_limited_true clk self :
  rate_limited clk self = true <-> current_time clk - _last_inference_time self < (1 # 2).
Proof.
  unfold rate_limited, MAX_INFERENCE_RATE. rewrite Qltb_true.
  change (1 / 2) with (1 # 2). reflexivity.
Qed.

Lemma rate_limited_false clk self :
  rate_limited clk self = false <-> _last_inference_time self + (1 # 2) <= current_time clk.
Proof.
  unfold rate_limited, MAX_INFERENCE_RATE. rewrite Qltb_false.
  change (1 / 2) with (1 # 2). split; intro H; lra.
Qed.

(** A rejected call returns nothing and changes nothing. *)
Lemma run_inference_rejects clk self :
  rate_limited clk self = true -> run_inference parse np_log engine clk self = (self, None).
Proof.
  intro H. unfold run_inference. rewrite H. reflexivity.
Qed.

(** An admitted call moves the gate to its own reading, whether or not the
    engine then succeeds. *)
Lemma run_inference_admits clk self :
  rate_limited clk self = false ->
  _last_inference_time (fst (run_inference parse np_log engine clk self)) = current_time clk.
Proof.
  intro H. unfold run_inference. rewrite H.
  destruct (build_record parse np_log engine clk _); reflexivity.
Qed.

Lemma executed_times_spaced clks :
  forall self,
    spaced (1 # 2) (executed_times parse np_log engine clks self) /\
    (forall t rest,
        executed_times parse np_log engine clks self = t :: rest ->
        _last_inference_time self + (1 # 2) <= t).
Proof.
  induction clks as [|clk clks IH]; intro self.
  - split; [exact I|]. intros t rest H. discriminate H.
  - cbn [executed_times].
    destruct (rate_limited clk self) eqn:E.
    + rewrite (run_inference_rejects _ _ E). cbn [fst]. apply IH.
    + pose proof (run_inference_admits _ _ E) as Hlast.
      destruct (IH (fst (run_inference parse np_log engine clk self))) as [Hs Hhead].
      split.
      * cbn [spaced]. split; [|exact Hs].
        destruct (executed_times parse np_log engine clks
                    (fst (run_inference parse np_log engine clk self)))
          as [|t' rest'] eqn:Et; [exact I|].
        specialize (Hhead t' rest' eq_refl). rewrite Hlast in Hhead. exact Hhead.
      * intros t rest H. injection H as <- _.
        now apply rate_limited_false.
Qed.

Lemma spaced_tail gap t ts : spaced gap (t :: ts) -> spaced gap ts.
Proof. cbn [spaced]. intros [_ H]. exact H. Qed.

Lemma spaced_after gap t ts :
  0 <= gap -> spaced gap (t :: ts) -> Forall (fun x => t + gap <= x) ts.
Proof.
  intro Hg. revert t. induction ts as [|b ts IH]; intros t H.
  - constructor.
  - cbn [spaced] in H. destruct H as [Hb Hrest].
    constructor; [exact Hb|].
    specialize (IH b Hrest).
    eapply Forall_impl; [|exact IH]. cbn. intros x Hx. lra.
Qed.

Lemma none_in_window w ts :
  Forall (fun x => w + 1 <= x) ts -> executed_in_window w ts = 0%nat.
Proof.
  unfold executed_in_window. induction 1 as [|x ts Hx _ IH]; [reflexivity|].
  cbn [filter]. unfold in_window at 1.
  assert (E : Qltb x (w + 1) = false) by now apply Qltb_false.
  rewrite E, andb_false_r. exact IH.
Qed.

Lemma in_window_true w t : in_window w t = true -> w <= t /\ t < w + 1.
Proof.
  unfold in_window. rewrite andb_true_iff, Qle_bool_iff, Qltb_true. tauto.
Qed.

(** At most two readings that lie half a second apart fit a window. *)
Lemma spaced_window ts :
  spaced (1 # 2) ts -> forall w, (executed_in_window w ts <= 2)%nat.
Proof.
  induction ts as [|a ts IH]; intros Hs w.
  - unfold executed_in_window. cbn. lia.
  - specialize (IH (spaced_tail _ _ _ Hs) w).
    unfold executed_in_window in *. cbn [filter].
    destruct (in_window w a) eqn:Ea; [|exact IH].
    apply in_window_true in Ea. destruct Ea as [Hwa Haw].
    cbn [List.length]. apply le_n_S.
    destruct ts as [|b ts]; [cbn; lia|].
    assert (Hrest : Forall (fun x => w + 1 <= x) ts).
    { cbn [spaced] in Hs. destruct Hs as [Hab Hs].
      pose proof (spaced_after (1 # 2) b ts ltac:(lra) Hs) as Hb.
      eapply Forall_impl; [|exact Hb]. cbn. intros x Hx. lra. }
    pose proof (none_in_window w ts Hrest) as Hz. unfold executed_in_window in Hz.
    cbn [filter]. destruct (in_window w b); cbn [List.length]; rewrite Hz; lia.
Qed.

(** C4: in every sequence of calls of [run_inference], the gate readings of
    the executed inferences lie at least 0.5 s apart, so at most two of them
    fall into any one-second window [w, w + 1); and a call that arrives less
    than 0.5 s after the previous executed inference returns no prediction
    and leaves the manager, its rolling history included, as it was. *)
Theorem rate_gate clks self :
  spaced (1 # 2) (executed_times parse np_log engine clks self) /\
  (forall w, (executed_in_window w (executed_times parse np_log engine clks self) <= 2)%nat) /\
  (forall clk s,
      current_time clk - _last_inference_time s < (1 # 2) ->
      run_inference parse np_log engine clk s = (s, None)) /\
  (forall clk s,
      ~ current_time clk - _last_inference_time s < (1 # 2) ->
      _last_inference_time (fst (run_inference parse np_log engine clk s)) =
        current_time clk).
Proof.
  pose proof (proj1 (executed_times_spaced clks self)) as Hs.
  split; [exact Hs|]. split; [exact (spaced_window _ Hs)|]. split.
  - intros clk s H. apply run_inference_rejects. now apply rate_limited_true.
  - intros clk s H. apply run_inference_admits.
    destruct (rate_limited clk s) eqn:E; [|reflexivity].
    apply rate_limited_true in E. contradiction.
Qed.

End RealtimeClaims.

(** *** Concrete runs of the state manager *)

Section RealtimeRuns.

Import CascadingEngine Realtime Claims Samples.

(** C2 on a fresh manager and the stressed engine: cascading inference on
    the merged state says high with 0.78 for the environment; the record
    that [run_inference] appends says medium with 0.5. *)
Lemma run_inference_record_ignores_prediction_witness :
  exists self' record r,
    run_inference no_text tangent_log stressed_engine (clock_at 1000) init =
      (self', Some record) /\
    prediction_history self' = [record] /\
    predict_cascading_risks no_text tangent_log stressed_engine
      (inference_metrics (get_merged_state 1000 init)) = Ok r /\
    risk (environmental r) = "high" /\
    prob (environmental r) = (78 # 100) /\
    environmental_risk record = "medium" /\
    environmental_prob record = (5 # 10).
Proof.
  destruct (run_inference no_text tangent_log stressed_engine (clock_at 1000) init)
    as [self' [record|]] eqn:E; [|vm_compute in E; discriminate E].
  destruct (predict_cascading_risks no_text tangent_log stressed_engine
              (inference_metrics (get_merged_state 1000 init))) as [r|e] eqn:Ep;
    [|vm_compute in Ep; discriminate Ep].
  exists self', record, r.
  destruct (run_inference_record_ignores_prediction
              no_text tangent_log stressed_engine (clock_at 1000) init self' record E)
    as (H1 & H2 & _).
  split; [reflexivity|].
  split; [vm_compute in E; injection E as <- <-; reflexivity|].
  split; [reflexivity|].
  vm_compute in Ep. injection Ep as <-.
  repeat split; assumption.
Defined.

(** C4 on ten calls within one second, from a fresh manager: the window
    that opens with the first call holds at most two inferences, and the
    second call, 0.1 s after the first, is turned away. *)
Lemma rate_gate_witness :
  (executed_in_window 1000 (executed_times no_text tangent_log stressed_engine burst init)
   <= 2)%nat /\
  run_inference no_text tangent_log stressed_engine (clock_at (1000 + (1 # 10)))
                (fst (run_inference no_text tangent_log stressed_engine (clock_at 1000) init)) =
    (fst (run_inference no_text tangent_log stressed_engine (clock_at 1000) init), None).
Proof.
  destruct (rate_gate no_text tangent_log stressed_engine burst init) as (_ & Hw & Hrej & _).
  split; [apply Hw|].
  apply Hrej. vm_compute. reflexivity.
Defined.

(** The ten calls run two inferences, at 1000 and at 1000.5, and the
    history grows by two records. *)
Example burst_runs_two_inferences :
  map Qred (executed_times no_text tangent_log stressed_engine burst init) =
    [1000; 2001 # 2] /\
  List.length (prediction_history
                 (fst (run_inferences no_text tangent_log stressed_engine burst init))) = 2%nat.
Proof. split; vm_compute; reflexivity. Qed.

(** C8 on a manager whose slots were stamped 10 s ago: the confidence is 1;
    and a slot aged 300 s scores no more than one aged 50 s. *)
Lemma get_confidence_is_average_freshness_witness :
  get_confidence 1000 all_zero_manager == 1 /\
  slot_freshness 1000 (Some 700) <= slot_freshness 1000 (Some 950).
Proof.
  destruct (get_confidence_is_average_freshness 1000 all_zero_manager)
    as (_ & Havg & _ & Hmono).
  split.
  - rewrite Havg. vm_compute. reflexivity.
  - apply Hmono. vm_compute. discriminate.
Defined.

(** C10 on a manager that observed zeros everywhere: the merged aqi is 100
    and the merged supply index is 80. *)
Lemma get_merged_state_replaces_falsy_witness :
  m_aqi (get_merged_state 1000 all_zero_manager) = 100 /\
  m_crop_supply_index (get_merged_state 1000 all_zero_manager) = 80.
Proof.
  destruct (get_merged_state_replaces_falsy 1000 all_zero_manager)
    as (Haqi & _ & _ & _ & _ & Hsupply & _).
  split; [apply Haqi|apply Hsupply]; reflexivity.
Defined.

End RealtimeRuns.

(** ** Scenario signals *)

Section SignalExtraction.

Import Schemas Text Claims.

Lemma prefix_occurs (p s : string) :
  String.prefix p s = true <-> exists after, s = (p ++ after)%string.
Proof.
  revert s. induction p as [|a p IH]; intro s.
  - split; [intros _; exists s; reflexivity|].
    intros _. destruct s; reflexivity.
  - destruct s as [|b s]; cbn [String.prefix].
    + split; [discriminate|]. intros [after H]. discriminate H.
    + destruct (ascii_dec a b) as [->|Hne].
      * rewrite IH. split; intros [after H]; exists after.
        -- cbn. now rewrite H.
        -- cbn in H. now injection H.
      * split; [discriminate|]. intros [after H]. cbn in H.
        injection H as H _. congruence.
Qed.

(** [contains] decides occurrence as a substring. *)
Lemma contains_occurs (kw s : string) : contains kw s = true <-> occurs_in kw s.
Proof.
  unfold occurs_in. induction s as [|c s IH]; cbn [contains].
  - destruct (String.prefix kw "") eqn:E.
    + split; [intros _|reflexivity].
      apply prefix_occurs in E. destruct E as [after E]. exists "", after. exact E.
    + split; [discriminate|]. intros (before & after & H).
      destruct before; [|discriminate H]. cbn in H.
      assert (String.prefix kw "" = true) by (apply prefix_occurs; now exists after).
      congruence.
  - destruct (String.prefix kw (String c s)) eqn:E.
    + split; [intros _|reflexivity].
      apply prefix_occurs in E. destruct E as [after E]. exists "", after. exact E.
    + rewrite IH. split.
      * intros (before & after & H). exists (String c before), after. cbn. now rewrite H.
      * intros (before & after & H). destruct before as [|c' before].
        -- cbn in H.
           assert (String.prefix kw (String c s) = true)
             by (apply prefix_occurs; now exists after).
           congruence.
        -- cbn in H. injection H as _ H. now exists before, after.
Qed.

(** A keyword list matches when one of its keywords occurs in the text. *)
Lemma any_keyword_occurs (keywords : list string) (p : string) :
  any_keyword keywords p = true <-> exists kw, In kw keywords /\ occurs_in kw p.
Proof.
  unfold any_keyword. rewrite existsb_exists.
  split; intros (kw & Hin & H); exists kw; (split; [exact Hin|]); now apply contains_occurs.
Qed.

(** The loop that collects matching keys is a filter. *)
Lemma matching_keys_filter {K : Type} (table : list (K * list string)) (p : string) :
  matching_keys table p = map fst (filter (fun entry => any_keyword (snd entry) p) table).
Proof.
  unfold matching_keys.
  enough (H : forall out,
             fold_left (fun out entry =>
                          if any_keyword (snd entry) p then (out ++ [fst entry])%list else out)
                       table out =
             (out ++ map fst (filter (fun entry => any_keyword (snd entry) p) table))%list)
    by apply (H []).
  induction table as [|entry table IH]; intro out; cbn [fold_left filter].
  - now rewrite app_nil_r.
  - rewrite IH. destruct (any_keyword (snd entry) p); [|reflexivity].
    cbn [map]. now rewrite <- app_assoc.
Qed.

Lemma matching_keys_length {K : Type} (table : list (K * list string)) (prompt : string) :
  List.length (matching_keys table (lower prompt)) = matches table prompt.
Proof.
  rewrite matching_keys_filter. unfold matches. apply length_map.
Qed.

Lemma confidence_of_for (n : nat) : ScenarioDeltas.confidence_of n = confidence_for n.
Proof. destruct n as [|[|n]]; reflexivity. Qed.

(** C7, as stated, fails for the extractor behind the API: in "severe
    flood" one event matches and no impact, yet the confidence is high. *)
Lemma severity_keyword_raises_confidence :
  ~ (forall prompt,
        confidence (ScenarioDeltas.extract_scenario_signals prompt) =
          confidence_for (matches ScenarioDeltas.KEYWORDS_primary_events prompt +
                          matches ScenarioDeltas.KEYWORDS_secondary_impacts prompt)).
Proof.
  intro H. specialize (H "severe flood"). vm_compute in H. discriminate H.
Qed.

(** C7, amended: [ScenarioInterpreter.extract_signals] rates its confidence
    high exactly when at least two matches are found across the primary
    events and the secondary impacts, medium for exactly one, low otherwise,
    whatever the severity and duration keywords; in
    [ScenarioDeltas.extract_scenario_signals] the count has one more match
    when the extracted severity is not moderate, and duration keywords do
    not enter it. *)
Theorem extraction_confidence (prompt : string) :
  confidence (ScenarioInterpreter.extract_signals prompt) =
    confidence_for (matches ScenarioInterpreter.KEYWORDS_primary_events prompt +
                    matches ScenarioInterpreter.KEYWORDS_secondary_impacts prompt) /\
  confidence (ScenarioDeltas.extract_scenario_signals prompt) =
    confidence_for (matches ScenarioDeltas.KEYWORDS_primary_events prompt +
                    matches ScenarioDeltas.KEYWORDS_secondary_impacts prompt +
                    severity_bonus (severity (ScenarioDeltas.extract_scenario_signals prompt))) /\
  severity (ScenarioDeltas.extract_scenario_signals prompt) =
    first_match ScenarioDeltas.KEYWORDS_severity (lower prompt) severity_moderate.
Proof.
  split; [|split].
  - unfold ScenarioInterpreter.extract_signals. cbn [confidence].
    rewrite !matching_keys_length.
    exact (confidence_of_for _).
  - unfold ScenarioDeltas.extract_scenario_signals. cbn [confidence severity].
    rewrite !matching_keys_length, confidence_of_for.
    reflexivity.
  - reflexivity.
Qed.

(** The signals of the flood prompt of the specification's fourth scenario. *)
Example monsoon_prompt_signals :
  ScenarioDeltas.extract_scenario_signals
    "prolonged monsoon flooding that disrupts transport and hospital access" =
  {| primary_events := [flood];
     duration := duration_prolonged;
     severity := severity_moderate;
     secondary_impacts := [transport_disruption; hospital_access_reduction];
     confidence := confidence_high |}.
Proof. vm_compute. reflexivity. Qed.

End SignalExtraction.

(** ** Signals to deltas *)

Section SignalsToDeltas.

Import Schemas Claims.

Lemma deltas_eq_refl (a : Deltas) : deltas_eq a a.
Proof. unfold deltas_eq. repeat split; reflexivity. Qed.

Lemma deltas_eq_trans (a b c : Deltas) : deltas_eq a b -> deltas_eq b c -> deltas_eq a c.
Proof.
  unfold deltas_eq. intros (H1 & H2 & H3 & H4) (K1 & K2 & K3 & K4).
  repeat split; etransitivity; eassumption.
Qed.

Lemma plus_deltas_compat (a a' b b' : Deltas) :
  deltas_eq a a' -> deltas_eq b b' -> deltas_eq (plus_deltas a b) (plus_deltas a' b').
Proof.
  unfold deltas_eq, plus_deltas. intros (H1 & H2 & H3 & H4) (K1 & K2 & K3 & K4).
  cbn [aqi_delta temperature_delta hospital_load_delta crop_supply_delta].
  repeat split; lra.
Qed.

Lemma deltas_eq_sym_zero (a : Deltas) : deltas_eq a (plus_deltas a zero_deltas).
Proof.
  unfold deltas_eq, plus_deltas, zero_deltas.
  cbn [aqi_delta temperature_delta hospital_load_delta crop_supply_delta].
  repeat split; lra.
Qed.

Lemma plus_deltas_zero_r (a : Deltas) : deltas_eq (plus_deltas a zero_deltas) a.
Proof.
  unfold deltas_eq, plus_deltas, zero_deltas.
  cbn [aqi_delta temperature_delta hospital_load_delta crop_supply_delta].
  repeat split; lra.
Qed.

Ltac fields :=
  cbn [aqi_delta temperature_delta hospital_load_delta crop_supply_delta
       ScenarioInterpreter.base_aqi ScenarioInterpreter.base_temp
       ScenarioInterpreter.base_hospital ScenarioInterpreter.base_food fst snd].

(** One turn of the loop of [ScenarioSimulator.get_deltas] adds the event's
    contribution under the uniform rule. *)
Lemma interpreter_event_step signals deltas event :
  deltas_eq (ScenarioInterpreter.event_step signals deltas event)
            (plus_deltas deltas
                         (event_contribution (severity signals) (duration signals) event)).
Proof.
  unfold deltas_eq, plus_deltas, ScenarioInterpreter.event_step, event_contribution,
    ScenarioInterpreter.row_get, ScenarioInterpreter.base_impacts, base_impact, zero_deltas,
    temperature_bonus.
  destruct event, (severity signals), (duration signals); fields;
    cbn [ScenarioInterpreter.severity_multiplier ScenarioInterpreter.duration_multiplier
         severity_multiplier duration_multiplier];
    repeat split; lra.
Qed.

Lemma interpreter_impact_step deltas impact :
  deltas_eq (ScenarioInterpreter.impact_step deltas impact)
            (plus_deltas deltas (impact_row impact)).
Proof.
  unfold deltas_eq, plus_deltas, ScenarioInterpreter.impact_step, impact_row,
    ScenarioInterpreter.row_get, ScenarioInterpreter.secondary_impacts_config, zero_deltas.
  destruct impact; fields; repeat split; lra.
Qed.

(** One turn of the loop of [ScenarioDeltas.get_deltas_from_signals] adds
    the event's contribution under the per-event rules. *)
Lemma scenario_deltas_event_step signals deltas event :
  deltas_eq (ScenarioDeltas.event_step signals deltas event)
            (plus_deltas deltas
                         (per_event_contribution (severity signals) (duration signals) event)).
Proof.
  unfold deltas_eq, plus_deltas, ScenarioDeltas.event_step, ScenarioDeltas.add_deltas,
    per_event_contribution, base_impact, zero_deltas, temperature_bonus.
  destruct event, (severity signals), (duration signals); fields;
    cbn [ScenarioDeltas.sev_mult ScenarioDeltas.dur_mult
         severity_multiplier duration_multiplier];
    repeat split; lra.
Qed.

(** A loop that adds one row per element computes the sum of the rows. *)
Lemma fold_left_sum_deltas {A : Type} (step : Deltas -> A -> Deltas) (row : A -> Deltas) :
  (forall deltas x, deltas_eq (step deltas x) (plus_deltas deltas (row x))) ->
  forall xs deltas,
    deltas_eq (fold_left step xs deltas) (plus_deltas deltas (sum_deltas (map row xs))).
Proof.
  intros Hstep xs. induction xs as [|x xs IH]; intro deltas; cbn [fold_left map].
  - apply deltas_eq_sym_zero.
  - change (sum_deltas (row x :: map row xs))
      with (plus_deltas (row x) (sum_deltas (map row xs))).
    eapply deltas_eq_trans; [apply IH|].
    eapply deltas_eq_trans;
      [apply plus_deltas_compat; [apply Hstep|apply deltas_eq_refl]|].
    generalize (sum_deltas (map row xs)) as rest. intro rest.
    unfold deltas_eq, plus_deltas. fields. repeat split; lra.
Qed.

Lemma plus_deltas_zero_l (a : Deltas) : deltas_eq (plus_deltas zero_deltas a) a.
Proof.
  unfold deltas_eq, plus_deltas, zero_deltas. fields. repeat split; lra.
Qed.

(** Dropping a lone [none] changes no sum: [none] contributes nothing. *)
Lemma active_events_uniform s d events :
  deltas_eq (sum_deltas (map (event_contribution s d)
                             (ScenarioInterpreter.active_events events)))
            (sum_deltas (map (event_contribution s d) events)).
Proof.
  destruct events as [|e [|e' rest]];
    [apply deltas_eq_refl| |destruct e; apply deltas_eq_refl].
  destruct e; try apply deltas_eq_refl.
  unfold deltas_eq. destruct s, d; vm_compute; repeat split; reflexivity.
Qed.

Lemma active_events_per_event s d events :
  deltas_eq (sum_deltas (map (per_event_contribution s d)
                             (ScenarioDeltas.active_events events)))
            (sum_deltas (map (per_event_contribution s d) events)).
Proof.
  destruct events as [|e [|e' rest]];
    [apply deltas_eq_refl| |destruct e; apply deltas_eq_refl].
  destruct e; try apply deltas_eq_refl.
  unfold deltas_eq. destruct s, d; vm_compute; repeat split; reflexivity.
Qed.

(** C6, as stated, fails for [ScenarioDeltas.get_deltas_from_signals], the
    function behind the API: for a drought of high severity and moderate
    duration it raises the hospital load by 8, not by 8 × 1.5 = 12. *)
Lemma scenario_deltas_not_uniform :
  ~ (forall signals,
        deltas_eq (ScenarioDeltas.get_deltas_from_signals signals) (uniform_deltas signals)).
Proof.
  intro H.
  specialize (H {| primary_events := [drought];
                   duration := duration_moderate;
                   severity := severity_high;
                   secondary_impacts := [];
                   confidence := confidence_high |}).
  destruct H as (_ & _ & Hhospital & _).
  vm_compute in Hhospital. discriminate Hhospital.
Qed.

(** C6, amended: [ScenarioSimulator.get_deltas] follows the uniform rule
    (per primary event the base row, its aqi, hospital and food components
    times the severity multiplier, hospital and food also times the duration
    multiplier, the temperature component with only the 1.2× bonus for a
    heatwave at high severity; summed over all primary events, plus the
    fixed row of every secondary impact), while
    [ScenarioDeltas.get_deltas_from_signals] scales the aqi component by the
    severity multiplier and follows per-event rules for the other three
    components, adding the row of each of the three impacts that have one
    once when that impact is present. *)
Theorem signals_to_deltas (signals : ScenarioSignals) :
  deltas_eq (ScenarioInterpreter.get_deltas signals) (uniform_deltas signals) /\
  deltas_eq (ScenarioDeltas.get_deltas_from_signals signals) (per_event_deltas signals).
Proof.
  split.
  - unfold ScenarioInterpreter.get_deltas, uniform_deltas.
    eapply deltas_eq_trans;
      [apply (fold_left_sum_deltas _ impact_row interpreter_impact_step)|].
    apply plus_deltas_compat; [|apply deltas_eq_refl].
    eapply deltas_eq_trans;
      [apply (fold_left_sum_deltas _ _ (interpreter_event_step signals))|].
    eapply deltas_eq_trans; [apply plus_deltas_zero_l|].
    apply active_events_uniform.
  - unfold ScenarioDeltas.get_deltas_from_signals, per_event_deltas, impacts_present.
    cbn [filter].
    pose proof (fold_left_sum_deltas _ _ (scenario_deltas_event_step signals)
                  (ScenarioDeltas.active_events (primary_events signals)) zero_deltas)
      as Hloop.
    pose proof (active_events_per_event (severity signals) (duration signals)
                  (primary_events signals)) as Hactive.
    change {| aqi_delta := 0; temperature_delta := 0;
              hospital_load_delta := 0; crop_supply_delta := 0 |} with zero_deltas.
    revert Hloop Hactive.
    generalize (fold_left (ScenarioDeltas.event_step signals)
                          (ScenarioDeltas.active_events (primary_events signals))
                          zero_deltas) as looped.
    generalize (sum_deltas (map (per_event_contribution (severity signals) (duration signals))
                                (ScenarioDeltas.active_events (primary_events signals))))
      as active.
    generalize (sum_deltas (map (per_event_contribution (severity signals) (duration signals))
                                (primary_events signals))) as total.
    intros total active looped.
    unfold deltas_eq, plus_deltas, ScenarioDeltas.add_deltas, zero_deltas. fields.
    intros (L1 & L2 & L3 & L4) (A1 & A2 & A3 & A4).
    destruct (ScenarioDeltas.has_impact transport_disruption (secondary_impacts signals)),
      (ScenarioDeltas.has_impact hospital_access_reduction (secondary_impacts signals)),
      (ScenarioDeltas.has_impact food_supply_disruption (secondary_impacts signals));
      cbn [map sum_deltas fold_right impact_row]; unfold plus_deltas, zero_deltas; fields;
      repeat split; lra.
Qed.

(** The flood prompt of the specification's fourth scenario raises the
    hospital load by 58 (flood 12 × 1.5, transport 15, hospital access 25). *)
Example monsoon_prompt_deltas :
  hospital_load_delta
    (ScenarioDeltas.get_deltas_from_signals
       (ScenarioDeltas.extract_scenario_signals
          "prolonged monsoon flooding that disrupts transport and hospital access")) == 58.
Proof. vm_compute. reflexivity. Qed.

End SignalsToDeltas.

(** * Further properties *)

(** ** Updates of the state manager *)

Section UpdateProperties.

Import Realtime RealtimeUpdates.

(** X1: an update none of whose fields is given changes nothing, whatever
    its timestamp: the three update methods answer False and leave the
    manager as it was. *)
Theorem update_without_fields_is_noop
        (now : Q) (stamp : option (option Q)) (self : RealtimeStateManager) :
  update_environmental now
    {| new_aqi := None; new_temperature := None; new_humidity := None; env_stamp := stamp |}
    self = (self, false) /\
  update_health now
    {| new_hospital_load := None; new_respiratory_cases := None; health_stamp := stamp |}
    self = (self, false) /\
  update_food now
    {| new_price_volatility := None; new_supply_index := None; food_stamp := stamp |}
    self = (self, false).
Proof.
  destruct self as [[a t h ts] [l c hts] [v s fts] hist latest last].
  repeat split.
Qed.

(** X2: an environmental update with at least one field answers True,
    stamps the slot with the given timestamp or else with the current time,
    overwrites exactly the fields it gives, and touches neither the other
    two slots nor the history, the latest prediction or the rate gate. *)
Theorem update_environmental_merges
        (now : Q) (data : EnvironmentalUpdate) (self : RealtimeStateManager) :
  new_aqi data <> None \/ new_temperature data <> None \/ new_humidity data <> None ->
  let self' := fst (update_environmental now data self) in
  snd (update_environmental now data self) = true /\
  env_timestamp (environmental_state self') = stamp_or_now now (env_stamp data) /\
  aqi (environmental_state self') =
    match new_aqi data with Some v => Some v | None => aqi (environmental_state self) end /\
  temperature (environmental_state self') =
    match new_temperature data with
    | Some v => Some v
    | None => temperature (environmental_state self)
    end /\
  humidity (environmental_state self') =
    match new_humidity data with
    | Some v => Some v
    | None => humidity (environmental_state self)
    end /\
  health_state self' = health_state self /\
  food_state self' = food_state self /\
  prediction_history self' = prediction_history self /\
  latest_prediction self' = latest_prediction self /\
  _last_inference_time self' = _last_inference_time self.
Proof.
  intro H. unfold update_environmental, merge_field.
  destruct (new_aqi data), (new_temperature data), (new_humidity data);
    cbn; repeat split; try reflexivity;
    destruct H as [H|[H|H]]; contradiction.
Qed.

(** X2 on a fresh manager: an aqi reading of 150 without a timestamp. *)
Lemma update_environmental_merges_witness :
  snd (update_environmental 1000
         {| new_aqi := Some 150; new_temperature := None; new_humidity := None;
            env_stamp := None |} init) = true /\
  env_timestamp (environmental_state
                   (fst (update_environmental 1000
                           {| new_aqi := Some 150; new_temperature := None;
                              new_humidity := None; env_stamp := None |} init))) =
    Some 1000.
Proof.
  destruct (update_environmental_merges 1000
              {| new_aqi := Some 150; new_temperature := None; new_humidity := None;
                 env_stamp := None |} init) as (H1 & H2 & _).
  - left. discriminate.
  - split; [exact H1|exact H2].
Defined.



End UpdateProperties.

(** ** Rolling history and trends *)

Section HistoryProperties.

Import CascadingEngine Realtime RealtimeUpdates.

Variable parse : string -> option PyFloat.
Variable np_log : Q -> Q.
Variable engine : CascadingRiskEngine.

Lemma deque_append_length {A : Type} (maxlen : nat) (d : list A) (x : A) :
  (0 < maxlen)%nat -> (List.length d <= maxlen)%nat ->
  (List.length (deque_append maxlen d x) <= maxlen)%nat.
Proof.
  intros Hpos Hlen. unfold deque_append.
  destruct (maxlen <=? List.length d)%nat eqn:E.
  - apply Nat.leb_le in E. rewrite length_app. cbn [List.length].
    destruct d as [|y d]; cbn [tl List.length] in *; lia.
  - apply Nat.leb_gt in E. rewrite length_app. cbn [List.length]. lia.
Qed.

Lemma run_inferences_step clk clks self :
  fst (run_inferences parse np_log engine (clk :: clks) self) =
  fst (run_inferences parse np_log engine clks
         (fst (run_inference parse np_log engine clk self))).
Proof.
  cbn [run_inferences].
  destruct (run_inference parse np_log engine clk self) as [self1 r]. cbn [fst].
  destruct (run_inferences parse np_log engine clks self1) as [self2 rs].
  reflexivity.
Qed.

(** What one call does to the manager, by its three outcomes. *)
Lemma run_inference_cases clk self :
  (run_inference parse np_log engine clk self = (self, None)) \/
  (run_inference parse np_log engine clk self =
     (set_last_inference_time self (current_time clk), None)) \/
  (exists record,
      build_record parse np_log engine clk
                   (set_last_inference_time self (current_time clk)) = Ok record /\
      run_inference parse np_log engine clk self =
        (store (set_last_inference_time self (current_time clk)) record, Some record)).
Proof.
  unfold run_inference.
  destruct (rate_limited clk self); [left; reflexivity|].
  destruct (build_record parse np_log engine clk _) as [record|e] eqn:E.
  - right. right. exists record. split; reflexivity.
  - right. left. reflexivity.
Qed.

Lemma run_inference_history_bounded clk self :
  (List.length (prediction_history self) <= WINDOW_SIZE)%nat ->
  (List.length (prediction_history (fst (run_inference parse np_log engine clk self)))
   <= WINDOW_SIZE)%nat.
Proof.
  intro H.
  destruct (run_inference_cases clk self) as [E|[E|(record & _ & E)]]; rewrite E; cbn [fst].
  - exact H.
  - exact H.
  - cbn [store prediction_history set_last_inference_time].
    apply deque_append_length; [unfold WINDOW_SIZE; lia|exact H].
Qed.

(** X4: the rolling history never outgrows the window: a manager that holds
    at most 60 records still holds at most 60 after any sequence of
    inference calls. *)
Theorem history_stays_within_window clks :
  forall self,
    (List.length (prediction_history self) <= WINDOW_SIZE)%nat ->
    (List.length (prediction_history (fst (run_inferences parse np_log engine clks self)))
     <= WINDOW_SIZE)%nat.
Proof.
  induction clks as [|clk clks IH]; intros self H.
  - exact H.
  - rewrite run_inferences_step. apply IH. now apply run_inference_history_bounded.
Qed.

(** X5: a call changes the history exactly when it returns a record.  When
    it returns nothing, the history, the latest prediction and the three
    slots are as before.  When it returns a record, that record is the
    latest prediction and the newest entry of the history, behind the old
    entries, of which the oldest is dropped if there were already 60. *)
Theorem run_inference_appends_what_it_returns clk self :
  let self' := fst (run_inference parse np_log engine clk self) in
  environmental_state self' = environmental_state self /\
  health_state self' = health_state self /\
  food_state self' = food_state self /\
  match snd (run_inference parse np_log engine clk self) with
  | None =>
      prediction_history self' = prediction_history self /\
      latest_prediction self' = latest_prediction self
  | Some record =>
      latest_prediction self' = Some record /\
      prediction_history self' =
        ((if (WINDOW_SIZE <=? List.length (prediction_history self))%nat
          then tl (prediction_history self) else prediction_history self) ++ [record])%list
  end.
Proof.
  destruct (run_inference_cases clk self) as [E|[E|(record & _ & E)]]; rewrite E;
    cbn [fst snd store set_last_inference_time environmental_state health_state food_state
         prediction_history latest_prediction];
    repeat split.
  unfold deque_append.
  destruct (WINDOW_SIZE <=? List.length (prediction_history self))%nat; reflexivity.
Qed.

(** *** Trend summary *)

Lemma older_length (history : list PredictionRecord) :
  (5 <= List.length history)%nat ->
  List.length
    (if (15 <=? List.length history)%nat
     then firstn 10 (skipn (List.length history - 15) history)
     else firstn (List.length history - 5) history) =
  (if (15 <=? List.length history)%nat then 10 else List.length history - 5)%nat.
Proof.
  intro H. destruct (15 <=? List.length history)%nat eqn:E.
  - apply Nat.leb_le in E. rewrite length_firstn, length_skipn. lia.
  - apply Nat.leb_gt in E. rewrite length_firstn. lia.
Qed.

(** X6: trends need six records: the summary reports insufficient data
    exactly when the history holds fewer than six (with five, the older
    window is empty). *)
Theorem trend_summary_needs_six_records (self : RealtimeStateManager) :
  get_trend_summary self = insufficient_data <->
  (List.length (prediction_history self) < 6)%nat.
Proof.
  unfold get_trend_summary.
  destruct (List.length (prediction_history self) <? 5)%nat eqn:E5.
  - apply Nat.ltb_lt in E5. split; [lia|reflexivity].
  - apply Nat.ltb_ge in E5.
    pose proof (older_length (prediction_history self) E5) as Hlen.
    destruct (if (15 <=? List.length (prediction_history self))%nat
              then firstn 10 (skipn (List.length (prediction_history self) - 15)
                                    (prediction_history self))
              else firstn (List.length (prediction_history self) - 5)
                          (prediction_history self)) as [|r older] eqn:Eo.
    + cbn [List.length] in Hlen.
      destruct (15 <=? List.length (prediction_history self))%nat; [discriminate Hlen|].
      split; [lia|reflexivity].
    + cbn [List.length] in Hlen.
      split; [discriminate|].
      destruct (15 <=? List.length (prediction_history self))%nat eqn:E15.
      * apply Nat.leb_le in E15. lia.
      * lia.
Qed.

Lemma Forall_skipn_list {A : Type} (P : A -> Prop) (n : nat) (l : list A) :
  Forall P l -> Forall P (skipn n l).
Proof.
  revert l. induction n as [|n IH]; intros l H; [exact H|].
  destruct H as [|x l Hx Hl]; [constructor|]. cbn [skipn]. now apply IH.
Qed.

Lemma Forall_firstn_list {A : Type} (P : A -> Prop) (n : nat) (l : list A) :
  Forall P l -> Forall P (firstn n l).
Proof.
  revert l. induction n as [|n IH]; intros l H; [constructor|].
  destruct H as [|x l Hx Hl]; [constructor|]. cbn [firstn]. constructor; auto.
Qed.

(** The probabilities every record built by [run_inference] carries. *)
Lemma run_inference_keeps_record_values clk self :
  Forall (fun r => environmental_prob r = (5 # 10) /\ health_prob r = (2 # 10) /\
                   food_security_prob r = (1 # 10)) (prediction_history self) ->
  Forall (fun r => environmental_prob r = (5 # 10) /\ health_prob r = (2 # 10) /\
                   food_security_prob r = (1 # 10))
         (prediction_history (fst (run_inference parse np_log engine clk self))).
Proof.
  intro H.
  destruct (run_inference_cases clk self) as [E|[E|(record & Hb & E)]]; rewrite E; cbn [fst].
  - exact H.
  - exact H.
  - cbn [store prediction_history set_last_inference_time].
    destruct (build_record_defaults _ _ _ _ _ _ Hb) as (_ & He & _ & Hh & _ & Hf & _).
    unfold deque_append.
    destruct (WINDOW_SIZE <=? List.length (prediction_history self))%nat;
      apply Forall_app; (split; [|constructor; [auto|constructor]]); [|exact H].
    destruct H; [constructor|assumption].
Qed.

Lemma run_inferences_keep_record_values clks :
  forall self,
    Forall (fun r => environmental_prob r = (5 # 10) /\ health_prob r = (2 # 10) /\
                     food_security_prob r = (1 # 10)) (prediction_history self) ->
    Forall (fun r => environmental_prob r = (5 # 10) /\ health_prob r = (2 # 10) /\
                     food_security_prob r = (1 # 10))
           (prediction_history (fst (run_inferences parse np_log engine clks self))).
Proof.
  induction clks as [|clk clks IH]; intros self H; [exact H|].
  rewrite run_inferences_step. apply IH. now apply run_inference_keeps_record_values.
Qed.

Lemma map_of_constant {A B : Type} (f : A -> B) (c : B) (l : list A) :
  Forall (fun x => f x = c) l -> map f l = repeat c (List.length l).
Proof.
  induction 1 as [|x l Hx _ IH]; cbn [map List.length repeat]; [reflexivity|].
  now rewrite Hx, IH.
Qed.

(** The trend of a domain whose records all carry the fallback [c] of the
    record, over five recent records and one to ten older ones: each case
    is a computation in doubles. *)
Lemma trend_of_fallbacks (c : Q) (k : nat) :
  c = (5 # 10) \/ c = (2 # 10) \/ c = (1 # 10) ->
  (1 <= k <= 10)%nat ->
  let trend := trend_of (repeat (Fin c) 5) (repeat (Fin c) k) in
  direction trend = stable /\ current trend = Float64.literal c /\ negligible (change trend).
Proof.
  intros Hc Hk.
  assert (Ek : (k = 1 \/ k = 2 \/ k = 3 \/ k = 4 \/ k = 5 \/ k = 6 \/ k = 7 \/ k = 8 \/
                k = 9 \/ k = 10)%nat) by lia.
  unfold negligible.
  destruct Hc as [Hc|[Hc|Hc]];
    destruct Ek as [Ek|[Ek|[Ek|[Ek|[Ek|[Ek|[Ek|[Ek|[Ek|Ek]]]]]]]]];
    subst c k;
    (split; [vm_compute; reflexivity|];
     split; [vm_compute; reflexivity|];
     eexists; split; [vm_compute; reflexivity|vm_compute; discriminate]).
Qed.

Lemma domain_trend_of_constant (f : PredictionRecord -> Q) (c : Q)
      (recent older : list PredictionRecord) :
  c = (5 # 10) \/ c = (2 # 10) \/ c = (1 # 10) ->
  Forall (fun r => f r = c) recent -> Forall (fun r => f r = c) older ->
  List.length recent = 5%nat -> (1 <= List.length older <= 10)%nat ->
  direction (domain_trend f recent older) = stable /\
  current (domain_trend f recent older) = Float64.literal c /\
  negligible (change (domain_trend f recent older)).
Proof.
  intros Hc Hr Ho Hrn Hon. unfold domain_trend.
  rewrite (map_of_constant (fun p => Fin (f p)) (Fin c) recent),
    (map_of_constant (fun p => Fin (f p)) (Fin c) older).
  - rewrite Hrn. now apply trend_of_fallbacks.
  - eapply Forall_impl; [|exact Ho]. cbn. now intros r ->.
  - eapply Forall_impl; [|exact Hr]. cbn. now intros r ->.
Qed.

(** X7: the trends of a manager that started with an empty history never
    leave stable: whatever the engine answers, after any sequence of
    inference calls the summary either reports insufficient data or
    reports all three domains stable, at the doubles 0.5, 0.2 and 0.1, with
    a change that the rounding of the float sums keeps within 2^-55 of 0
    (it is not always 0). *)
Theorem trend_summary_never_moves clks self :
  prediction_history self = [] ->
  let self' := fst (run_inferences parse np_log engine clks self) in
  get_trend_summary self' = insufficient_data \/
  exists env health food,
    get_trend_summary self' = trend_ok env health food /\
    direction env = stable /\ direction health = stable /\ direction food = stable /\
    current env = Float64.literal (5 # 10) /\
    current health = Float64.literal (2 # 10) /\
    current food = Float64.literal (1 # 10) /\
    negligible (change env) /\ negligible (change health) /\ negligible (change food).
Proof.
  intros Hempty self'.
  assert (H : Forall (fun r => environmental_prob r = (5 # 10) /\ health_prob r = (2 # 10) /\
                               food_security_prob r = (1 # 10)) (prediction_history self')).
  { apply run_inferences_keep_record_values. rewrite Hempty. constructor. }
  unfold get_trend_summary.
  set (history := prediction_history self') in *.
  destruct (List.length history <? 5)%nat eqn:E5; [left; reflexivity|].
  apply Nat.ltb_ge in E5.
  pose proof (older_length history E5) as Hlen.
  set (recent := skipn (List.length history - 5) history).
  set (older := if (15 <=? List.length history)%nat
                then firstn 10 (skipn (List.length history - 15) history)
                else firstn (List.length history - 5) history) in *.
  assert (Hrecent : Forall (fun r => environmental_prob r = (5 # 10) /\
                                     health_prob r = (2 # 10) /\
                                     food_security_prob r = (1 # 10)) recent)
    by now apply Forall_skipn_list.
  assert (Holder : Forall (fun r => environmental_prob r = (5 # 10) /\
                                    health_prob r = (2 # 10) /\
                                    food_security_prob r = (1 # 10)) older).
  { unfold older. destruct (15 <=? List.length history)%nat;
      apply Forall_firstn_list; [now apply Forall_skipn_list|exact H]. }
  assert (Hrn : List.length recent = 5%nat).
  { unfold recent. rewrite length_skipn. lia. }
  assert (Hon : (List.length older <= 10)%nat).
  { rewrite Hlen. destruct (15 <=? List.length history)%nat eqn:E15; [lia|].
    apply Nat.leb_gt in E15. lia. }
  destruct older as [|o older'] eqn:Eo; [left; reflexivity|].
  right. do 3 eexists. split; [reflexivity|].
  assert (Hok : (1 <= List.length (o :: older') <= 10)%nat) by (cbn in *; lia).
  destruct (domain_trend_of_constant environmental_prob (5 # 10) recent (o :: older'))
    as (D1 & C1 & G1); auto;
    try (eapply Forall_impl; [|eassumption]; cbn; tauto).
  destruct (domain_trend_of_constant health_prob (2 # 10) recent (o :: older'))
    as (D2 & C2 & G2); auto;
    try (eapply Forall_impl; [|eassumption]; cbn; tauto).
  destruct (domain_trend_of_constant food_security_prob (1 # 10) recent (o :: older'))
    as (D3 & C3 & G3); auto;
    try (eapply Forall_impl; [|eassumption]; cbn; tauto).
  repeat split; assumption.
Qed.

End HistoryProperties.

(** ** Fan-out *)

Section FanOut.

Import RealtimeUpdates.

Variable send_ok : nat -> bool.





End FanOut.

(** *** Concrete runs *)

Section HistoryRuns.

Import CascadingEngine Realtime RealtimeUpdates Samples.

(** X4 on the ten calls of the burst, from a fresh manager. *)
Lemma history_stays_within_window_witness :
  (List.length (prediction_history
                  (fst (run_inferences no_text tangent_log stressed_engine burst init)))
   <= WINDOW_SIZE)%nat.
Proof.
  apply (history_stays_within_window no_text tangent_log stressed_engine burst init).
  cbn. unfold WINDOW_SIZE. lia.
Defined.

(** X7 on seven calls one second apart: seven records, three stable trends. *)
Lemma trend_summary_never_moves_witness :
  List.length (prediction_history
                 (fst (run_inferences no_text tangent_log stressed_engine
                         (map clock_at [1000; 1001; 1002; 1003; 1004; 1005; 1006]) init))) =
    7%nat /\
  (get_trend_summary
     (fst (run_inferences no_text tangent_log stressed_engine
             (map clock_at [1000; 1001; 1002; 1003; 1004; 1005; 1006]) init)) =
     insufficient_data \/
   exists env health food,
     get_trend_summary
       (fst (run_inferences no_text tangent_log stressed_engine
               (map clock_at [1000; 1001; 1002; 1003; 1004; 1005; 1006]) init)) =
       trend_ok env health food /\
     direction env = stable /\ direction health = stable /\ direction food = stable /\
     current env = Float64.literal (5 # 10) /\
     current health = Float64.literal (2 # 10) /\
     current food = Float64.literal (1 # 10) /\
     negligible (change env) /\ negligible (change health) /\ negligible (change food)).
Proof.
  split; [vm_compute; reflexivity|].
  apply (trend_summary_never_moves no_text tangent_log stressed_engine
           (map clock_at [1000; 1001; 1002; 1003; 1004; 1005; 1006]) init).
  reflexivity.
Defined.

End HistoryRuns.

(** ** More on preprocessing *)

Section PreprocessingProperties.

Import Preprocessing PreprocessingInputs.

Variable parse : string -> option PyFloat.

(** *** When preprocessing returns *)

Lemma py_float_without_overflow (v : PyVal) :
  no_overflow v ->
  (exists x, py_float parse v = Ok x) \/
  py_float parse v = Raise TypeError \/ py_float parse v = Raise ValueError.
Proof.
  intro H. destruct v as [|b|z|f|s|]; cbn [py_float no_overflow] in *.
  - right. left. reflexivity.
  - left. eexists. reflexivity.
  - apply Z.ltb_lt in H. rewrite H. left. eexists. reflexivity.
  - left. eexists. reflexivity.
  - destruct (parse s); [left; eexists; reflexivity|right; right; reflexivity].
  - right. left. reflexivity.
Qed.

Lemma handle_missing_no_overflow (v default : PyVal) :
  no_overflow v -> no_overflow default -> no_overflow (handle_missing v default).
Proof.
  intros Hv Hd. destruct v as [|b|z|[q| | |]|s|]; cbn [handle_missing]; assumption.
Qed.

(** A block whose body, past [float(...)], cannot fail returns. *)
Lemma block_returns {A : Type} (v : PyVal) (body : PyFloat -> Result A) (h : A) :
  no_overflow v ->
  (forall x, py_float parse v = Ok x -> exists a, body x = Ok a) ->
  exists a, except_type_value (x <- py_float parse v ;; body x) (Ok h) = Ok a.
Proof.
  intros Hv Hbody.
  destruct (py_float_without_overflow v Hv) as [[x E]|[E|E]].
  - rewrite E. cbn [bind]. destruct (Hbody x E) as [a Ha]. rewrite Ha.
    exists a. reflexivity.
  - rewrite E. exists h. reflexivity.
  - rewrite E. exists h. reflexivity.
Qed.

Lemma float_field_returns metrics k default r :
  no_overflow (metrics_get metrics k) ->
  exists a, float_field parse metrics k default r = Ok a.
Proof.
  intro H. unfold float_field. apply block_returns.
  - apply handle_missing_no_overflow; [exact H|exact I].
  - intros x _. eexists. reflexivity.
Qed.

Lemma temperature_field_returns metrics default r log :
  no_overflow (metrics_get metrics "temperature") ->
  exists a, temperature_field parse metrics default r log = Ok a.
Proof.
  intro H. unfold temperature_field.
  apply (block_returns _ (fun t =>
           let '(t, notes) :=
             if fltb (Fin 200) t
             then (fsub t (27315 # 100),
                   if log then [KelvinConverted (fsub t (27315 # 100))] else [])
             else (t, []) in
           Ok (clip_to_range t r, notes))).
  - apply handle_missing_no_overflow; [exact H|exact I].
  - intros x _. destruct (fltb (Fin 200) x); eexists; reflexivity.
Qed.

Lemma py_float_not_infinite (v : PyVal) (x : PyFloat) :
  not_infinite parse v -> py_float parse v = Ok x -> x <> PInf /\ x <> NInf.
Proof.
  intros H E. destruct v as [|b|z|f|s|]; cbn [py_float not_infinite] in *.
  - discriminate E.
  - injection E as <-. split; discriminate.
  - destruct (Z.abs z <? float_int_limit)%Z; [|discriminate E].
    injection E as <-. split; discriminate.
  - injection E as <-. destruct f; try contradiction; split; discriminate.
  - destruct (parse s) as [f|]; [|discriminate E]. injection E as <-.
    destruct H as [H1 H2]. split; congruence.
  - discriminate E.
Qed.

Lemma handle_missing_not_infinite (v : PyVal) (default : Z) :
  not_infinite parse v -> not_infinite parse (handle_missing v (VInt default)).
Proof.
  intro H. destruct v as [|b|z|[q| | |]|s|]; cbn [handle_missing]; try assumption; exact I.
Qed.

Lemma count_field_returns metrics k default r :
  (Z.abs default < float_int_limit)%Z ->
  no_overflow (metrics_get metrics k) -> not_infinite parse (metrics_get metrics k) ->
  exists a, count_field parse metrics k default r = Ok a.
Proof.
  intros Hd H Hinf. unfold count_field.
  destruct (py_float_without_overflow
              (handle_missing (metrics_get metrics k) (VInt default)))
    as [[x E]|[E|E]].
  - apply handle_missing_no_overflow; [exact H|exact Hd].
  - rewrite E. cbn [bind].
    destruct (py_float_not_infinite _ _ (handle_missing_not_infinite _ default Hinf) E)
      as [Hp Hn].
    destruct x as [q| | |]; cbn [py_int bind except_type_value];
      try congruence; eexists; reflexivity.
  - rewrite E. eexists. reflexivity.
  - rewrite E. eexists. reflexivity.
Qed.

Lemma bind_returns {A B : Type} (c : Result A) (k : A -> Result B) :
  (exists a, c = Ok a) -> (forall a, exists b, k a = Ok b) -> exists b, bind c k = Ok b.
Proof.
  intros [a E] Hk. rewrite E. cbn [bind]. apply Hk.
Qed.

Lemma traffic_block_returns metrics :
  no_overflow (metrics_get metrics "traffic_density") ->
  not_infinite parse (metrics_get metrics "traffic_density") ->
  exists a,
    except_type_value
      (x <- py_float parse
              (handle_missing (metrics_get metrics "traffic_density")
                              (VInt ENV_DEFAULT_traffic_density)) ;;
       n <- py_round x ;;
       Ok (clip_to_range_int n ENV_RANGE_traffic_density, @nil Assumption))
      (Ok (ENV_DEFAULT_traffic_density, [Invalid "traffic_density"])) = Ok a.
Proof.
  intros H Hinf.
  destruct (py_float_without_overflow
              (handle_missing (metrics_get metrics "traffic_density")
                              (VInt ENV_DEFAULT_traffic_density)))
    as [[x E]|[E|E]].
  - apply handle_missing_no_overflow; [exact H|]. cbn. reflexivity.
  - rewrite E. cbn [bind].
    destruct (py_float_not_infinite _ _
                (handle_missing_not_infinite _ ENV_DEFAULT_traffic_density Hinf) E)
      as [Hp Hn].
    destruct x as [q| | |]; cbn [py_round bind except_type_value];
      try congruence; eexists; reflexivity.
  - rewrite E. eexists. reflexivity.
  - rewrite E. eexists. reflexivity.
Qed.

(** Preprocessing returns for every bag that holds no integer too large
    for a double and no infinity in its three integer-valued fields. *)
Lemma preprocess_all_metrics_total (metrics : Dict PyVal) :
  (forall k, no_overflow (metrics_get metrics k)) ->
  not_infinite parse (metrics_get metrics "traffic_density") ->
  not_infinite parse (metrics_get metrics "respiratory_cases") ->
  not_infinite parse (metrics_get metrics "supply_disruption_events") ->
  exists env health food notes,
    preprocess_all_metrics parse metrics = Ok (env, health, food, notes).
Proof.
  intros Hno Ht Hc Hd.
  assert (He : exists a, preprocess_environmental_metrics parse metrics = Ok a).
  { unfold preprocess_environmental_metrics.
    apply bind_returns.
    { apply block_returns.
      - apply handle_missing_no_overflow; [apply Hno|exact I].
      - intros x _. eexists. reflexivity. }
    intros [aqi a1]. apply bind_returns; [now apply traffic_block_returns|].
    intros [traffic a2]. apply bind_returns; [apply temperature_field_returns, Hno|].
    intros [temp a3]. apply bind_returns; [apply float_field_returns, Hno|].
    intros [rain a4]. eexists. reflexivity. }
  assert (Hh : exists a, preprocess_health_metrics parse metrics None = Ok a).
  { unfold preprocess_health_metrics.
    apply bind_returns; [apply float_field_returns, Hno|].
    intros [aqi a1]. apply bind_returns.
    { apply (block_returns _ (fun l =>
               let '(l, notes) :=
                 if fltb (Fin 1) l
                 then (fdiv l 100, [PercentConverted (fdiv l 100)])
                 else (l, []) in
               Ok (clip_to_range l HEALTH_RANGE_hospital_load, notes))).
      - apply handle_missing_no_overflow; [apply Hno|exact I].
      - intros x _. destruct (fltb (Fin 1) x); eexists; reflexivity. }
    intros [load a2]. apply bind_returns.
    { apply count_field_returns; [cbn; reflexivity|apply Hno|exact Hc]. }
    intros [cases a3]. apply bind_returns; [apply temperature_field_returns, Hno|].
    intros [temp a4]. apply bind_returns; [apply float_field_returns, Hno|].
    intros [erp a5]. eexists. reflexivity. }
  assert (Hf : exists a, preprocess_food_metrics parse metrics = Ok a).
  { unfold preprocess_food_metrics.
    apply bind_returns; [apply float_field_returns, Hno|].
    intros [supply a1]. apply bind_returns; [apply float_field_returns, Hno|].
    intros [price a2]. apply bind_returns; [apply float_field_returns, Hno|].
    intros [rain a3]. apply bind_returns; [apply temperature_field_returns, Hno|].
    intros [temp a4]. apply bind_returns.
    { apply count_field_returns; [cbn; reflexivity|apply Hno|exact Hd]. }
    intros [disruptions a5]. eexists. reflexivity. }
  destruct He as [[env ea] He], Hh as [[health ha] Hh], Hf as [[food fa] Hf].
  exists env, health, food, (ea ++ ha ++ fa)%list.
  unfold preprocess_all_metrics. rewrite He, Hh, Hf. reflexivity.
Qed.

(** X9: preprocessing returns for every bag that holds no integer too
    large for a double and no infinity in its three integer-valued fields:
    missing, None, nan, text, out-of-range and ill-typed values all lead to
    a result, and every field of that result is a finite number within the
    range documented for it. *)
Theorem preprocess_all_metrics_returns (metrics : Dict PyVal) :
  (forall k, no_overflow (metrics_get metrics k)) ->
  not_infinite parse (metrics_get metrics "traffic_density") ->
  not_infinite parse (metrics_get metrics "respiratory_cases") ->
  not_infinite parse (metrics_get metrics "supply_disruption_events") ->
  exists env health food notes,
    preprocess_all_metrics parse metrics = Ok (env, health, food, notes) /\
    (Claims.in_range ENV_RANGE_aqi (env_aqi env) /\
     Claims.in_range_int ENV_RANGE_traffic_density (env_traffic_density env) /\
     Claims.in_range ENV_RANGE_temperature (env_temperature env) /\
     Claims.in_range ENV_RANGE_rainfall (env_rainfall env)) /\
    (Claims.in_range HEALTH_RANGE_aqi (health_aqi health) /\
     Claims.in_range HEALTH_RANGE_hospital_load (health_hospital_load health) /\
     Claims.in_range_int HEALTH_RANGE_respiratory_cases (health_respiratory_cases health) /\
     Claims.in_range HEALTH_RANGE_temperature (health_temperature health) /\
     Claims.in_range HEALTH_RANGE_environmental_risk_prob
                     (health_environmental_risk_prob health)) /\
    (Claims.in_range FOOD_RANGE_crop_supply_index (food_crop_supply_index food) /\
     Claims.in_range FOOD_RANGE_food_price_index (food_food_price_index food) /\
     Claims.in_range FOOD_RANGE_rainfall (food_rainfall food) /\
     Claims.in_range FOOD_RANGE_temperature (food_temperature food) /\
     Claims.in_range_int FOOD_RANGE_supply_disruption_events
                         (food_supply_disruption_events food)).
Proof.
  intros Hno Ht Hc Hd.
  destruct (preprocess_all_metrics_total metrics Hno Ht Hc Hd)
    as (env & health & food & notes & E).
  exists env, health, food, notes. split; [exact E|].
  exact (preprocess_all_metrics_in_range parse metrics env health food notes E).
Qed.

(** *** Valid readings *)

Lemma clip_to_range_valid (q : Q) (r : Range) :
  lo r <= q <= hi r -> is_number (clip_to_range (Fin q) r) q.
Proof.
  intro H. unfold is_number, clip_to_range, py_max, py_min. cbn [fltb].
  case_Qltb q (hi r); cbn [fltb].
  - case_Qltb (lo r) q; eexists; (split; [reflexivity|lra]).
  - case_Qltb (lo r) (hi r); eexists; (split; [reflexivity|lra]).
Qed.

Lemma clip_to_range_int_valid (z : Z) (r : Z * Z) :
  (fst r <= z <= snd r)%Z -> clip_to_range_int z r = z.
Proof.
  intro H. unfold clip_to_range_int, py_max, py_min.
  destruct (z <? snd r)%Z eqn:E1.
  - destruct (fst r <? z)%Z eqn:E2; lia.
  - destruct (fst r <? snd r)%Z eqn:E2; lia.
Qed.

Lemma Qtrunc_inject_Z (z : Z) : Qtrunc (inject_Z z) = z.
Proof. unfold Qtrunc, inject_Z. cbn. apply Z.quot_1_r. Qed.

Lemma Qround_half_even_inject_Z (z : Z) : Qround_half_even (inject_Z z) = z.
Proof.
  unfold Qround_half_even. rewrite Qfloor_Z.
  assert (E : Qltb (inject_Z z - inject_Z z) (1 # 2) = true) by (apply Qltb_true; lra).
  now rewrite E.
Qed.

Lemma small_int_converts (z : Z) :
  (0 <= z <= 10000)%Z -> (Z.abs z <? float_int_limit)%Z = true.
Proof.
  intro H. apply Z.ltb_lt.
  assert (10000 < float_int_limit)%Z by (vm_compute; reflexivity). lia.
Qed.

Lemma is_number_no_note (f : PyFloat) (q : Q) (k : string) :
  is_number f q ->
  (if float_ne_val f (VFloat (Fin q)) then [Adjusted k (VFloat (Fin q)) f] else []) = [].
Proof.
  intros (q' & -> & E). cbn [float_ne_val].
  apply Qeq_bool_iff in E. now rewrite E.
Qed.

Lemma valid_reading_environmental (r : Reading) :
  valid_reading r ->
  exists env,
    preprocess_environmental_metrics parse (bag_of r) = Ok (env, []) /\
    is_number (env_aqi env) (r_aqi r) /\
    env_traffic_density env = r_traffic_density r /\
    is_number (env_temperature env) (r_temperature r) /\
    is_number (env_rainfall env) (r_rainfall r).
Proof.
  intros (Haqi & Htraffic & Htemp & Hrain & _).
  unfold preprocess_environmental_metrics, temperature_field, float_field.
  change (metrics_get (bag_of r) "aqi") with (VFloat (Fin (r_aqi r))).
  change (metrics_get (bag_of r) "traffic_density") with (VInt (r_traffic_density r)).
  change (metrics_get (bag_of r) "temperature") with (VFloat (Fin (r_temperature r))).
  change (metrics_get (bag_of r) "rainfall") with (VFloat (Fin (r_rainfall r))).
  cbn [handle_missing py_float].
  rewrite (small_int_converts (r_traffic_density r)) by lia.
  cbn [bind py_round except_type_value].
  rewrite Qround_half_even_inject_Z.
  rewrite (clip_to_range_int_valid (r_traffic_density r) ENV_RANGE_traffic_density)
    by (cbn; lia).
  assert (E200 : fltb (Fin 200) (Fin (r_temperature r)) = false)
    by (cbn [fltb]; apply Qltb_false; lra).
  rewrite E200. cbn [bind except_type_value].
  pose proof (clip_to_range_valid (r_aqi r) ENV_RANGE_aqi Haqi) as Naqi.
  rewrite (is_number_no_note _ _ "aqi" Naqi).
  eexists. split; [reflexivity|].
  cbn [env_aqi env_traffic_density env_temperature env_rainfall].
  refine (conj Naqi (conj eq_refl (conj _ _))); apply clip_to_range_valid; assumption.
Qed.

Lemma valid_reading_health (r : Reading) :
  valid_reading r ->
  exists health,
    preprocess_health_metrics parse (bag_of r) None = Ok (health, []) /\
    is_number (health_aqi health) (r_aqi r) /\
    is_number (health_hospital_load health) (r_hospital_load r) /\
    health_respiratory_cases health = r_respiratory_cases r /\
    is_number (health_temperature health) (r_temperature r) /\
    health_environmental_risk_prob health = Fin HEALTH_DEFAULT_environmental_risk_prob.
Proof.
  intros (Haqi & _ & Htemp & _ & Hload & Hcases & _).
  unfold preprocess_health_metrics, temperature_field, float_field, count_field.
  change (metrics_get (bag_of r) "aqi") with (VFloat (Fin (r_aqi r))).
  change (metrics_get (bag_of r) "hospital_load") with (VFloat (Fin (r_hospital_load r))).
  change (metrics_get (bag_of r) "respiratory_cases") with (VInt (r_respiratory_cases r)).
  change (metrics_get (bag_of r) "temperature") with (VFloat (Fin (r_temperature r))).
  change (metrics_get (bag_of r) "environmental_risk_prob") with VNone.
  cbn [handle_missing py_float].
  rewrite (small_int_converts (r_respiratory_cases r)) by lia.
  cbn [bind py_int except_type_value].
  rewrite Qtrunc_inject_Z.
  rewrite (clip_to_range_int_valid (r_respiratory_cases r) HEALTH_RANGE_respiratory_cases)
    by (cbn; lia).
  assert (E200 : fltb (Fin 200) (Fin (r_temperature r)) = false)
    by (cbn [fltb]; apply Qltb_false; lra).
  assert (E1 : fltb (Fin 1) (Fin (r_hospital_load r)) = false)
    by (cbn [fltb]; apply Qltb_false; lra).
  rewrite E200, E1. cbn [bind except_type_value].
  eexists. split; [reflexivity|].
  cbn [health_aqi health_hospital_load health_respiratory_cases health_temperature
       health_environmental_risk_prob].
  refine (conj _ (conj _ (conj eq_refl (conj _ _)))).
  - now apply clip_to_range_valid.
  - now apply clip_to_range_valid.
  - now apply clip_to_range_valid.
  - vm_compute. reflexivity.
Qed.

Lemma valid_reading_food (r : Reading) :
  valid_reading r ->
  exists food,
    preprocess_food_metrics parse (bag_of r) = Ok (food, []) /\
    is_number (food_crop_supply_index food) (r_crop_supply_index r) /\
    is_number (food_food_price_index food) (r_food_price_index r) /\
    is_number (food_rainfall food) (r_rainfall r) /\
    is_number (food_temperature food) (r_temperature r) /\
    food_supply_disruption_events food = r_supply_disruption_events r.
Proof.
  intros (_ & _ & Htemp & Hrain & _ & _ & Hsupply & Hprice & Hevents).
  unfold preprocess_food_metrics, temperature_field, float_field, count_field.
  change (metrics_get (bag_of r) "crop_supply_index")
    with (VFloat (Fin (r_crop_supply_index r))).
  change (metrics_get (bag_of r) "food_price_index")
    with (VFloat (Fin (r_food_price_index r))).
  change (metrics_get (bag_of r) "rainfall") with (VFloat (Fin (r_rainfall r))).
  change (metrics_get (bag_of r) "temperature") with (VFloat (Fin (r_temperature r))).
  change (metrics_get (bag_of r) "supply_disruption_events")
    with (VInt (r_supply_disruption_events r)).
  cbn [handle_missing py_float].
  rewrite (small_int_converts (r_supply_disruption_events r)) by lia.
  cbn [bind py_int except_type_value].
  rewrite Qtrunc_inject_Z.
  rewrite (clip_to_range_int_valid (r_supply_disruption_events r)
                                   FOOD_RANGE_supply_disruption_events) by (cbn; lia).
  assert (E200 : fltb (Fin 200) (Fin (r_temperature r)) = false)
    by (cbn [fltb]; apply Qltb_false; lra).
  rewrite E200. cbn [bind except_type_value].
  eexists. split; [reflexivity|].
  cbn [food_crop_supply_index food_food_price_index food_rainfall food_temperature
       food_supply_disruption_events].
  refine (conj _ (conj _ (conj _ (conj _ eq_refl)))); now apply clip_to_range_valid.
Qed.

(** X10: readings that are all present and within range come back as they
    were given: every field of the three slices is the number given for it
    (the health slice's environmental risk probability, which no caller
    gives, is its default 0.5), and nothing is logged as an assumption. *)
Theorem valid_reading_is_preserved (r : Reading) :
  valid_reading r ->
  exists env health food,
    preprocess_all_metrics parse (bag_of r) = Ok (env, health, food, []) /\
    (is_number (env_aqi env) (r_aqi r) /\
     env_traffic_density env = r_traffic_density r /\
     is_number (env_temperature env) (r_temperature r) /\
     is_number (env_rainfall env) (r_rainfall r)) /\
    (is_number (health_aqi health) (r_aqi r) /\
     is_number (health_hospital_load health) (r_hospital_load r) /\
     health_respiratory_cases health = r_respiratory_cases r /\
     is_number (health_temperature health) (r_temperature r) /\
     health_environmental_risk_prob health = Fin HEALTH_DEFAULT_environmental_risk_prob) /\
    (is_number (food_crop_supply_index food) (r_crop_supply_index r) /\
     is_number (food_food_price_index food) (r_food_price_index r) /\
     is_number (food_rainfall food) (r_rainfall r) /\
     is_number (food_temperature food) (r_temperature r) /\
     food_supply_disruption_events food = r_supply_disruption_events r).
Proof.
  intro H.
  destruct (valid_reading_environmental r H) as (env & Ee & He).
  destruct (valid_reading_health r H) as (health & Eh & Hh).
  destruct (valid_reading_food r H) as (food & Ef & Hf).
  exists env, health, food.
  split; [|auto].
  unfold preprocess_all_metrics. rewrite Ee, Eh, Ef. reflexivity.
Qed.

(** *** Across the slices, and at the edges *)

Ltac invert_bind H :=
  match type of H with
  | Py.bind ?c _ = Ok _ =>
      let E := fresh "E" in
      destruct c as [[? ?]|] eqn:E; cbn [Py.bind] in H; [|discriminate H]
  end.

Lemma float_field_value metrics k default r v notes :
  float_field parse metrics k default r = Ok (v, notes) ->
  v = match py_float parse (handle_missing (metrics_get metrics k) (VFloat (Fin default))) with
      | Ok x => clip_to_range x r
      | Raise _ => Fin default
      end.
Proof.
  unfold float_field. intro H.
  destruct (py_float parse _) as [x|[]]; cbn [bind except_type_value] in H;
    try discriminate H; now injection H as <- _.
Qed.

Lemma temperature_field_value metrics default r log v notes :
  temperature_field parse metrics default r log = Ok (v, notes) ->
  v = match py_float parse (handle_missing (metrics_get metrics "temperature")
                                           (VFloat (Fin default))) with
      | Ok t => clip_to_range (if fltb (Fin 200) t then fsub t (27315 # 100) else t) r
      | Raise _ => Fin default
      end.
Proof.
  unfold temperature_field. intro H.
  destruct (py_float parse _) as [x|[]]; cbn [bind except_type_value] in H;
    try discriminate H; try (now injection H as <- _).
  destruct (fltb (Fin 200) x); now injection H as <- _.
Qed.

(** X11: the three slices never disagree on the air quality index or on
    the temperature, whatever the bag holds; on rainfall they disagree when
    it is missing: the environmental slice then assumes 20 mm, the food
    slice 40 mm. *)
Theorem slices_agree_on_shared_fields metrics env health food notes :
  preprocess_all_metrics parse metrics = Ok (env, health, food, notes) ->
  env_aqi env = health_aqi health /\
  env_temperature env = health_temperature health /\
  health_temperature health = food_temperature food /\
  (metrics_get metrics "rainfall" = VNone ->
   env_rainfall env = Fin 20 /\ food_rainfall food = Fin 40).
Proof.
  unfold preprocess_all_metrics. intro H.
  do 3 invert_bind H. injection H as <- <- <- _.
  unfold preprocess_environmental_metrics in E. do 4 invert_bind E. injection E as <- _.
  unfold preprocess_health_metrics in E0. do 5 invert_bind E0. injection E0 as <- _.
  unfold preprocess_food_metrics in E1. do 5 invert_bind E1. injection E1 as <- _.
  cbn [env_aqi env_temperature env_rainfall health_aqi health_temperature
       food_temperature food_rainfall].
  repeat match goal with
         | H : temperature_field _ _ _ _ _ = Ok _ |- _ =>
             apply temperature_field_value in H
         | H : float_field _ _ _ _ _ = Ok _ |- _ => apply float_field_value in H
         end.
  unfold ENV_DEFAULT_temperature, HEALTH_DEFAULT_temperature, FOOD_DEFAULT_temperature,
    ENV_RANGE_temperature, HEALTH_RANGE_temperature, FOOD_RANGE_temperature in *.
  refine (conj _ (conj _ (conj _ _))).
  - match goal with
    | H : except_type_value _ _ = Ok (?p, _), K : ?q = match py_float parse
            (handle_missing (metrics_get metrics "aqi") _) with _ => _ end |- ?p = ?q =>
        rewrite K; clear - H;
        unfold ENV_DEFAULT_aqi, HEALTH_DEFAULT_aqi, ENV_RANGE_aqi, HEALTH_RANGE_aqi in *;
        destruct (py_float parse _) as [x|[]]; cbn [bind except_type_value] in H;
        try discriminate H; now injection H as <- _
    end.
  - congruence.
  - congruence.
  - intro Hmissing.
    repeat match goal with
           | H : _ = match py_float parse (handle_missing (metrics_get metrics "rainfall") _)
                     with _ => _ end |- _ =>
               rewrite Hmissing in H; cbn in H
           end.
    split; assumption.
Qed.

(** X12: what is not a finite number in the crop supply index.  A float
    nan counts as missing and gives the default 75; positive infinity is
    clipped to 100 and negative infinity to 0; text that reads as nan is not
    missing and ends at the upper bound 100; text that does not read as a
    number gives the default 75. *)
Theorem crop_supply_when_not_finite metrics food notes :
  preprocess_food_metrics parse metrics = Ok (food, notes) ->
  (metrics_get metrics "crop_supply_index" = VFloat NaN ->
   food_crop_supply_index food = Fin 75) /\
  (metrics_get metrics "crop_supply_index" = VFloat PInf ->
   food_crop_supply_index food = Fin 100) /\
  (metrics_get metrics "crop_supply_index" = VFloat NInf ->
   food_crop_supply_index food = Fin 0) /\
  (forall s, metrics_get metrics "crop_supply_index" = VStr s -> parse s = Some NaN ->
             food_crop_supply_index food = Fin 100) /\
  (forall s, metrics_get metrics "crop_supply_index" = VStr s -> parse s = None ->
             food_crop_supply_index food = Fin 75).
Proof.
  unfold preprocess_food_metrics. intro H.
  do 5 invert_bind H. injection H as <- _. cbn [food_crop_supply_index].
  apply float_field_value in E.
  refine (conj _ (conj _ (conj _ (conj _ _)))).
  - intro Hv. rewrite Hv in E. exact E.
  - intro Hv. rewrite Hv in E. exact E.
  - intro Hv. rewrite Hv in E. exact E.
  - intros s Hv Hs. rewrite Hv in E. cbn [handle_missing py_float] in E.
    rewrite Hs in E. exact E.
  - intros s Hv Hs. rewrite Hv in E. cbn [handle_missing py_float] in E.
    rewrite Hs in E. exact E.
Qed.

Lemma clip_to_range_above (q : Q) (r : Range) :
  lo r <= hi r -> hi r <= q -> is_number (clip_to_range (Fin q) r) (hi r).
Proof.
  intros Hr H. unfold is_number, clip_to_range, py_max, py_min. cbn [fltb].
  case_Qltb q (hi r); cbn [fltb].
  - lra.
  - case_Qltb (lo r) (hi r); eexists; (split; [reflexivity|lra]).
Qed.

(** X13: units in the health slice.  A hospital load above 1 is read as a
    percentage: between 1 and 100 it comes back divided by 100.  A
    temperature above 200 is read as Kelvin: between 273.15 and 323.15 it
    comes back less 273.15.  A temperature from 50 to 200 is taken as
    Celsius and clipped to 50. *)
Theorem health_unit_conversions metrics health notes :
  preprocess_health_metrics parse metrics None = Ok (health, notes) ->
  (forall load, metrics_get metrics "hospital_load" = VFloat (Fin load) ->
             1 < load <= 100 ->
             is_number (health_hospital_load health) (load / 100)) /\
  (forall temp, metrics_get metrics "temperature" = VFloat (Fin temp) ->
             (27315 # 100) <= temp <= (32315 # 100) ->
             is_number (health_temperature health) (temp - (27315 # 100))) /\
  (forall temp, metrics_get metrics "temperature" = VFloat (Fin temp) ->
             50 <= temp <= 200 ->
             is_number (health_temperature health) 50).
Proof.
  unfold preprocess_health_metrics. intro H.
  do 5 invert_bind H. injection H as <- _.
  cbn [health_hospital_load health_temperature].
  apply temperature_field_value in E2.
  refine (conj _ (conj _ _)).
  - intros load Hv Hl. rewrite Hv in E0.
    cbn [handle_missing py_float bind] in E0.
    assert (E1l : fltb (Fin 1) (Fin load) = true) by (cbn [fltb]; apply Qltb_true; lra).
    rewrite E1l in E0. cbn [except_type_value fdiv] in E0. injection E0 as <- _.
    apply clip_to_range_valid. cbn [lo hi HEALTH_RANGE_hospital_load].
    unfold Qdiv. split.
    + apply Qmult_le_0_compat; [lra|]. unfold Qle. cbn. lia.
    + setoid_replace 1 with (100 * / 100) by (unfold Qeq; cbn; reflexivity).
      apply Qmult_le_compat_r; [lra|]. unfold Qle. cbn. lia.
  - intros temp Hv Ht. rewrite Hv in E2. cbn [handle_missing py_float] in E2.
    assert (E200 : fltb (Fin 200) (Fin temp) = true) by (cbn [fltb]; apply Qltb_true; lra).
    rewrite E200 in E2. cbn [fsub] in E2. rewrite E2.
    apply clip_to_range_valid. cbn [lo hi HEALTH_RANGE_temperature]. lra.
  - intros temp Hv Ht. rewrite Hv in E2. cbn [handle_missing py_float] in E2.
    assert (E200 : fltb (Fin 200) (Fin temp) = false) by (cbn [fltb]; apply Qltb_false; lra).
    rewrite E200 in E2. rewrite E2.
    apply (clip_to_range_above temp HEALTH_RANGE_temperature);
      cbn [lo hi HEALTH_RANGE_temperature]; lra.
Qed.

End PreprocessingProperties.

(** *** Concrete runs of the preprocessor *)

Section PreprocessingRuns.

Import Preprocessing PreprocessingInputs Samples MoreSamples.

(** X9 on a bag of unusable entries. *)
Lemma preprocess_all_metrics_returns_witness :
  exists env health food notes,
    preprocess_all_metrics no_text junk_metrics = Ok (env, health, food, notes) /\
    Claims.in_range ENV_RANGE_aqi (env_aqi env) /\
    Claims.in_range_int HEALTH_RANGE_respiratory_cases (health_respiratory_cases health).
Proof.
  destruct (preprocess_all_metrics_returns no_text junk_metrics)
    as (env & health & food & notes & E & (Haqi & _) & (_ & _ & Hcases & _) & _);
    [| | | |exists env, health, food, notes; split; [exact E|split; assumption]].
  - intro k. unfold junk_metrics, metrics_get, dict_get_default. cbn [dict_get].
    repeat match goal with
           | |- context [String.eqb ?a k] => destruct (String.eqb a k)
           end; exact I.
  - exact I.
  - exact I.
  - exact I.
Defined.

(** X10 on the readings of the demonstration. *)
Lemma valid_reading_is_preserved_witness :
  exists env health food,
    preprocess_all_metrics no_text (bag_of demo_reading) = Ok (env, health, food, []) /\
    is_number (env_aqi env) 175 /\
    health_respiratory_cases health = 450%Z /\
    is_number (food_food_price_index food) 135.
Proof.
  destruct (valid_reading_is_preserved no_text demo_reading)
    as (env & health & food & E & (Haqi & _) & (_ & _ & Hcases & _) & (_ & Hprice & _)).
  - repeat split; vm_compute; discriminate.
  - exists env, health, food. repeat split; assumption.
Defined.

(** X11 on a bag without rainfall. *)
Lemma slices_agree_on_shared_fields_witness :
  exists env health food notes,
    preprocess_all_metrics no_text percent_kelvin_metrics = Ok (env, health, food, notes) /\
    env_temperature env = food_temperature food /\
    env_rainfall env = Fin 20 /\ food_rainfall food = Fin 40.
Proof.
  destruct (preprocess_all_metrics no_text percent_kelvin_metrics)
    as [[[[env health] food] notes]|e] eqn:E; [|vm_compute in E; discriminate E].
  exists env, health, food, notes. split; [reflexivity|].
  destruct (slices_agree_on_shared_fields no_text percent_kelvin_metrics
              env health food notes E) as (_ & H1 & H2 & Hrain).
  split; [congruence|]. apply Hrain. reflexivity.
Defined.

(** X12 on an infinite crop supply index. *)
Lemma crop_supply_when_not_finite_witness :
  exists food notes,
    preprocess_food_metrics no_text infinite_supply_metrics = Ok (food, notes) /\
    food_crop_supply_index food = Fin 100.
Proof.
  destruct (preprocess_food_metrics no_text infinite_supply_metrics)
    as [[food notes]|e] eqn:E; [|vm_compute in E; discriminate E].
  exists food, notes. split; [reflexivity|].
  destruct (crop_supply_when_not_finite no_text infinite_supply_metrics food notes E)
    as (_ & Hinf & _).
  apply Hinf. reflexivity.
Defined.

(** X13 on a load of 82 percent and a temperature of 300 K. *)
Lemma health_unit_conversions_witness :
  exists health notes,
    preprocess_health_metrics no_text percent_kelvin_metrics None = Ok (health, notes) /\
    is_number (health_hospital_load health) (82 / 100) /\
    is_number (health_temperature health) (300 - (27315 # 100)).
Proof.
  destruct (preprocess_health_metrics no_text percent_kelvin_metrics None)
    as [[health notes]|e] eqn:E; [|vm_compute in E; discriminate E].
  exists health, notes. split; [reflexivity|].
  destruct (health_unit_conversions no_text percent_kelvin_metrics health notes E)
    as (Hload & Hkelvin & _).
  split.
  - apply Hload; [reflexivity|]. split; vm_compute; [reflexivity|discriminate].
  - apply Hkelvin; [reflexivity|]. split; vm_compute; discriminate.
Defined.

End PreprocessingRuns.

(** * Scenario simulation *)

Section ScenarioSimulation.

Import Schemas Text DeltaSimulation.

Lemma clamp_within (lo hi x : Q) : lo <= hi -> lo <= clamp lo hi x <= hi.
Proof. apply py_clamp_bounds. Qed.

Lemma clamp_inside (lo hi x : Q) : lo <= x <= hi -> clamp lo hi x == x.
Proof.
  intros [Hlo Hhi]. unfold clamp, py_max, py_min.
  case_Qltb x hi; case_Qltb lo x; try case_Qltb lo hi; lra.
Qed.

Lemma clamp_monotone (lo hi x y : Q) : x <= y -> clamp lo hi x <= clamp lo hi y.
Proof.
  intro H. unfold clamp, py_max, py_min.
  case_Qltb x hi; case_Qltb y hi;
    repeat match goal with
           | |- context [Qltb ?a ?b] => case_Qltb a b
           end; lra.
Qed.

(** X14.  Whatever the baseline and the deltas, the simulated air quality
    index lies in [0, 500], the temperature in [-10, 55], the hospital load
    in [0, 100] and the crop supply in [10, 100]. *)
Theorem simulated_values_within_bounds (baseline deltas : Dict Q) :
  let simulated := apply_deltas_to_baseline baseline deltas in
  0 <= sim_aqi simulated <= 500 /\
  -10 <= sim_temperature simulated <= 55 /\
  0 <= sim_hospital_load simulated <= 100 /\
  10 <= sim_crop_supply simulated <= 100.
Proof.
  cbn [apply_deltas_to_baseline sim_aqi sim_temperature sim_hospital_load sim_crop_supply].
  refine (conj _ (conj _ (conj _ _))); apply clamp_within; lra.
Qed.

(** X15.  A sum of baseline and delta that lies within the bounds of its
    field is the simulated value: the clamps change nothing else. *)
Theorem in_bounds_deltas_are_added (baseline deltas : Dict Q) :
  let simulated := apply_deltas_to_baseline baseline deltas in
  let sum key default delta_key :=
    dict_get_default baseline key default + dict_get_default deltas delta_key 0 in
  (0 <= sum "aqi" 100 "aqi_delta" <= 500 ->
   sim_aqi simulated == sum "aqi" 100 "aqi_delta") /\
  (-10 <= sum "temperature" 25 "temperature_delta" <= 55 ->
   sim_temperature simulated == sum "temperature" 25 "temperature_delta") /\
  (0 <= sum "hospital_load" 50 "hospital_load_delta" <= 100 ->
   sim_hospital_load simulated == sum "hospital_load" 50 "hospital_load_delta") /\
  (10 <= sum "crop_supply" 70 "crop_supply_delta" <= 100 ->
   sim_crop_supply simulated == sum "crop_supply" 70 "crop_supply_delta").
Proof.
  cbn [apply_deltas_to_baseline sim_aqi sim_temperature sim_hospital_load sim_crop_supply].
  refine (conj _ (conj _ (conj _ _))); intro H; apply clamp_inside; exact H.
Qed.

(** X16.  The simulator of scenario_interpreter.py and the one of
    scenario_deltas.py compute the same four simulated values from the same
    baseline and deltas, and the [final] entries of the breakdown repeat
    them. *)
Theorem apply_functions_agree (baseline deltas : Dict Q) :
  let simulated := apply_deltas_to_baseline baseline deltas in
  let values := apply_to_baseline baseline deltas in
  value_aqi values = sim_aqi simulated /\
  value_temperature values = sim_temperature simulated /\
  value_hospital_load values = sim_hospital_load simulated /\
  value_crop_supply values = sim_crop_supply simulated /\
  change_final (applied_aqi simulated) = sim_aqi simulated /\
  change_final (applied_temperature simulated) = sim_temperature simulated /\
  change_final (applied_hospital_load simulated) = sim_hospital_load simulated /\
  change_final (applied_crop_supply simulated) = sim_crop_supply simulated.
Proof. repeat split. Qed.

(** *** The extracted events *)

Lemma matching_keys_nil {K : Type} (table : list (K * list string)) (p : string) :
  matching_keys table p = [] <-> forall entry, In entry table -> any_keyword (snd entry) p = false.
Proof.
  rewrite matching_keys_filter. induction table as [|entry table IH]; cbn.
  - split; [intros _ ? []|reflexivity].
  - destruct (any_keyword (snd entry) p) eqn:E; cbn.
    + split; [discriminate|]. intro H. specialize (H entry (or_introl eq_refl)). congruence.
    + rewrite IH. split.
      * intros H e [<-|Hin]; [exact E|now apply H].
      * intros H e Hin. apply H. now right.
Qed.

Lemma matching_keys_In {K : Type} (table : list (K * list string)) (p : string) (key : K) :
  In key (matching_keys table p) <->
  exists keywords, In (key, keywords) table /\ any_keyword keywords p = true.
Proof.
  rewrite matching_keys_filter, in_map_iff. split.
  - intros ([k kws] & <- & Hin). apply filter_In in Hin. destruct Hin as [Hin Hany].
    exists kws. split; assumption.
  - intros (kws & Hin & Hany). exists (key, kws). split; [reflexivity|].
    apply filter_In. split; assumption.
Qed.

Lemma filtered_keys_NoDup {K V : Type} (keep : K * V -> bool) (table : list (K * V)) :
  NoDup (map fst table) -> NoDup (map fst (filter keep table)).
Proof.
  induction table as [|entry table IH]; cbn [map filter]; intro Hkeys; [constructor|].
  apply NoDup_cons_iff in Hkeys. destruct Hkeys as [Hfresh Hrest].
  destruct (keep entry); cbn [map]; [|exact (IH Hrest)].
  apply NoDup_cons_iff. split; [|exact (IH Hrest)].
  rewrite in_map_iff. intros (other & Hkey & Hin). apply Hfresh.
  apply filter_In in Hin. rewrite in_map_iff. exists other. tauto.
Qed.

Lemma events_table_NoDup : NoDup (map fst ScenarioDeltas.KEYWORDS_primary_events).
Proof.
  cbn. repeat constructor; cbn; intuition discriminate.
Qed.

Lemma extracted_events (prompt : string) :
  let events := primary_events (ScenarioDeltas.extract_scenario_signals prompt) in
  events <> [] /\ NoDup events /\
  (events = [no_event] \/ ~ In no_event events).
Proof.
  cbn [ScenarioDeltas.extract_scenario_signals primary_events].
  destruct (matching_keys ScenarioDeltas.KEYWORDS_primary_events (lower prompt))
    as [|e es] eqn:E.
  - split; [discriminate|]. split; [repeat constructor; intros []|]. now left.
  - split; [discriminate|]. split.
    + rewrite <- E, matching_keys_filter. apply filtered_keys_NoDup, events_table_NoDup.
    + right. rewrite <- E. intro Hin. apply matching_keys_In in Hin.
      destruct Hin as (kws & Hin & _). cbn in Hin.
      repeat (destruct Hin as [Hin|Hin]; [discriminate Hin|]). exact Hin.
Qed.

(** X17.  The two extractors read the same events, severity and duration
    off every prompt; the event list is never empty, names no event twice
    and holds the placeholder [none] only when it is the whole list.  The
    extractor of scenario_interpreter.py reports the secondary impacts of
    the other but for power outages and water shortages, which it does not
    know. *)
Theorem extractors_agree_on_events (prompt : string) :
  let signals := ScenarioDeltas.extract_scenario_signals prompt in
  let signals' := ScenarioInterpreter.extract_signals prompt in
  primary_events signals' = primary_events signals /\
  severity signals' = severity signals /\
  duration signals' = duration signals /\
  secondary_impacts signals' =
    filter (fun impact => match impact with
                          | power_outage | water_shortage => false
                          | _ => true
                          end) (secondary_impacts signals) /\
  primary_events signals <> [] /\
  NoDup (primary_events signals) /\
  (primary_events signals = [no_event] \/ ~ In no_event (primary_events signals)).
Proof.
  split; [reflexivity|]. split; [reflexivity|]. split; [reflexivity|].
  split; [|apply extracted_events].
  cbn [ScenarioDeltas.extract_scenario_signals ScenarioInterpreter.extract_signals
       secondary_impacts].
  rewrite !matching_keys_filter.
  unfold ScenarioDeltas.KEYWORDS_secondary_impacts,
    ScenarioInterpreter.KEYWORDS_secondary_impacts.
  cbn [filter snd fst map].
  repeat match goal with
         | |- context [any_keyword ?kws ?p] => destruct (any_keyword kws p)
         end; reflexivity.
Qed.

(** X18.  [run_delta_simulation] always returns: the first event it reads
    off the signals of a prompt exists.  Its deltas come from the custom
    deltas when that dictionary is not empty, else from the prompt when
    that is not the empty string, else from the preset when that is not
    empty, else they are the default ones. *)
Theorem run_delta_simulation_returns (baseline : Dict Q)
        (scenario_type custom_prompt : option string) (custom_deltas : option (Dict Q)) :
  exists result,
    run_delta_simulation baseline scenario_type custom_prompt custom_deltas = Some result /\
    result_source result =
      (if truthy_dict custom_deltas then source_custom
       else if truthy_string custom_prompt then source_prompt_inference
       else if truthy_string scenario_type then source_preset
       else source_default) /\
    result_deltas result =
      (if truthy_dict custom_deltas
       then reported_deltas (match custom_deltas with Some d => d | None => [] end)
       else if truthy_string custom_prompt
       then ScenarioDeltas.get_deltas_from_signals
              (ScenarioDeltas.extract_scenario_signals
                 (match custom_prompt with Some p => p | None => "" end))
       else if truthy_string scenario_type
       then ScenarioDeltas.get_deltas_from_signals
              (preset_signals (match scenario_type with Some p => p | None => "" end))
       else {| aqi_delta := 0; temperature_delta := 0;
               hospital_load_delta := 0; crop_supply_delta := 0 |}).
Proof.
  unfold run_delta_simulation.
  destruct (truthy_dict custom_deltas).
  { eexists. split; [reflexivity|]. split; reflexivity. }
  destruct (truthy_string custom_prompt).
  { destruct (extracted_events (match custom_prompt with Some p => p | None => "" end))
      as (Hne & _).
    cbv zeta in Hne.
    destruct (primary_events (ScenarioDeltas.extract_scenario_signals _)) as [|first rest];
      [now elim Hne|].
    eexists. split; [reflexivity|]. split; [reflexivity|].
    cbn [result_deltas].
    now destruct (ScenarioDeltas.get_deltas_from_signals _). }
  destruct (truthy_string scenario_type).
  { eexists. split; [reflexivity|]. split; [reflexivity|].
    cbn [result_deltas].
    now destruct (ScenarioDeltas.get_deltas_from_signals _). }
  eexists. split; [reflexivity|]. split; reflexivity.
Qed.

End ScenarioSimulation.

(** * Scenarios and their deltas *)

Section ScenarioDeltaProperties.

Import Schemas Text DeltaSimulation.

Ltac delta_fields :=
  cbn [aqi_delta temperature_delta hospital_load_delta crop_supply_delta
       ScenarioInterpreter.base_aqi ScenarioInterpreter.base_temp
       ScenarioInterpreter.base_hospital ScenarioInterpreter.base_food fst snd].

Lemma fold_left_invariant {A B : Type} (P : A -> Prop) (f : A -> B -> A) (l : list B) :
  (forall a b, P a -> P (f a b)) -> forall a, P a -> P (fold_left f l a).
Proof.
  intro Hstep. induction l as [|b l IH]; intros a Ha; cbn [fold_left]; [exact Ha|].
  apply IH, Hstep, Ha.
Qed.

Lemma scenario_deltas_event_strains signals deltas event :
  strains deltas -> strains (ScenarioDeltas.event_step signals deltas event).
Proof.
  unfold strains, ScenarioDeltas.event_step, ScenarioDeltas.add_deltas.
  intros [Hh Hc].
  destruct event, (severity signals), (duration signals); delta_fields;
    cbn [ScenarioDeltas.sev_mult ScenarioDeltas.dur_mult]; split; lra.
Qed.

Lemma interpreter_event_strains signals deltas event :
  strains deltas -> strains (ScenarioInterpreter.event_step signals deltas event).
Proof.
  unfold strains, ScenarioInterpreter.event_step, ScenarioInterpreter.row_get,
    ScenarioInterpreter.base_impacts.
  intros [Hh Hc].
  destruct event, (severity signals), (duration signals); delta_fields;
    cbn [ScenarioInterpreter.severity_multiplier ScenarioInterpreter.duration_multiplier];
    split; lra.
Qed.

Lemma interpreter_impact_strains deltas impact :
  strains deltas -> strains (ScenarioInterpreter.impact_step deltas impact).
Proof.
  unfold strains, ScenarioInterpreter.impact_step, ScenarioInterpreter.row_get,
    ScenarioInterpreter.secondary_impacts_config.
  intros [Hh Hc]. destruct impact; delta_fields; split; lra.
Qed.

Lemma scenario_deltas_strain (signals : ScenarioSignals) :
  strains (ScenarioDeltas.get_deltas_from_signals signals).
Proof.
  unfold ScenarioDeltas.get_deltas_from_signals.
  assert (H : strains
                (fold_left (ScenarioDeltas.event_step signals)
                           (ScenarioDeltas.active_events (primary_events signals))
                           {| aqi_delta := 0; temperature_delta := 0;
                              hospital_load_delta := 0; crop_supply_delta := 0 |})).
  { apply fold_left_invariant; [intros; now apply scenario_deltas_event_strains|].
    unfold strains. cbn. split; lra. }
  revert H. generalize (fold_left (ScenarioDeltas.event_step signals)
                                  (ScenarioDeltas.active_events (primary_events signals))
                                  {| aqi_delta := 0; temperature_delta := 0;
                                     hospital_load_delta := 0; crop_supply_delta := 0 |}).
  intros d [Hh Hc]. unfold strains, ScenarioDeltas.add_deltas.
  destruct (ScenarioDeltas.has_impact transport_disruption _),
    (ScenarioDeltas.has_impact hospital_access_reduction _),
    (ScenarioDeltas.has_impact food_supply_disruption _); delta_fields; split; lra.
Qed.

Lemma interpreter_deltas_strain (signals : ScenarioSignals) :
  strains (ScenarioInterpreter.get_deltas signals).
Proof.
  unfold ScenarioInterpreter.get_deltas.
  apply fold_left_invariant; [intros; now apply interpreter_impact_strains|].
  apply fold_left_invariant; [intros; now apply interpreter_event_strains|].
  unfold strains. cbn. split; lra.
Qed.

(** X19.  Whatever the signals, neither implementation lowers the hospital
    load or raises the crop supply, so the simulated hospital load is at
    least, and the simulated crop supply at most, what the baseline alone
    gives. *)
Theorem scenarios_never_relieve (baseline : Dict Q) (signals : ScenarioSignals) :
  let deltas := ScenarioDeltas.get_deltas_from_signals signals in
  let unchanged := apply_deltas_to_baseline baseline [] in
  let simulated := apply_deltas_to_baseline baseline (deltas_dict deltas) in
  0 <= hospital_load_delta deltas /\
  crop_supply_delta deltas <= 0 /\
  0 <= hospital_load_delta (ScenarioInterpreter.get_deltas signals) /\
  crop_supply_delta (ScenarioInterpreter.get_deltas signals) <= 0 /\
  sim_hospital_load unchanged <= sim_hospital_load simulated /\
  sim_crop_supply simulated <= sim_crop_supply unchanged.
Proof.
  cbv zeta.
  destruct (scenario_deltas_strain signals) as [Hh Hc].
  destruct (interpreter_deltas_strain signals) as [Hh' Hc'].
  refine (conj Hh (conj Hc (conj Hh' (conj Hc' (conj _ _)))));
    cbn [apply_deltas_to_baseline sim_hospital_load sim_crop_supply];
    apply clamp_monotone;
    unfold deltas_dict, dict_get_default at 2 4; cbn [dict_get String.eqb Ascii.eqb Bool.eqb];
    lra.
Qed.

(** *** Longer prompts *)

Lemma string_append_assoc (a b c : string) : ((a ++ b) ++ c = a ++ (b ++ c))%string.
Proof. induction a as [|x a IH]; cbn; [reflexivity|now rewrite IH]. Qed.

Lemma lower_append (a b : string) : lower (a ++ b) = (lower a ++ lower b)%string.
Proof. induction a as [|x a IH]; cbn; [reflexivity|now rewrite IH]. Qed.

Lemma occurs_in_longer (kw pre s post : string) :
  Claims.occurs_in kw s -> Claims.occurs_in kw (pre ++ s ++ post).
Proof.
  intros (before & after & ->). exists (pre ++ before)%string, (after ++ post)%string.
  now rewrite !string_append_assoc.
Qed.

Lemma any_keyword_longer (keywords : list string) (pre p post : string) :
  any_keyword keywords (lower p) = true ->
  any_keyword keywords (lower (pre ++ p ++ post)) = true.
Proof.
  rewrite !any_keyword_occurs. intros (kw & Hin & Hocc). exists kw. split; [exact Hin|].
  rewrite !lower_append. now apply occurs_in_longer.
Qed.

Lemma filter_length_le {A : Type} (f g : A -> bool) (l : list A) :
  (forall x, f x = true -> g x = true) ->
  (List.length (filter f l) <= List.length (filter g l))%nat.
Proof.
  intro H. induction l as [|a l IH]; cbn; [lia|].
  destruct (f a) eqn:E.
  - rewrite (H a E). cbn. lia.
  - destruct (g a); cbn; lia.
Qed.

Lemma matching_keys_longer {K : Type} (table : list (K * list string)) (pre p post : string) :
  (List.length (matching_keys table (lower p)) <=
   List.length (matching_keys table (lower (pre ++ p ++ post))))%nat.
Proof.
  rewrite !matching_keys_filter, !length_map.
  apply filter_length_le. intros entry. apply any_keyword_longer.
Qed.

Lemma severity_counts_longer (pre p post : string) :
  (match first_match ScenarioDeltas.KEYWORDS_severity (lower p) severity_moderate with
   | severity_moderate => 0
   | _ => 1
   end <=
   match first_match ScenarioDeltas.KEYWORDS_severity (lower (pre ++ p ++ post))
                     severity_moderate with
   | severity_moderate => 0
   | _ => 1
   end)%nat.
Proof.
  unfold ScenarioDeltas.KEYWORDS_severity. cbn [first_match].
  repeat match goal with
         | |- context [any_keyword ?kws (lower p)] =>
             let E := fresh "E" in
             destruct (any_keyword kws (lower p)) eqn:E;
             [rewrite (any_keyword_longer kws pre p post E)|]
         end;
    repeat match goal with
           | |- context [any_keyword ?kws ?q] => destruct (any_keyword kws q)
           end; lia.
Qed.

Lemma confidence_of_monotone (n m : nat) :
  (n <= m)%nat ->
  (confidence_rank (ScenarioDeltas.confidence_of n) <=
   confidence_rank (ScenarioDeltas.confidence_of m))%nat.
Proof.
  intro H. destruct n as [|[|n]], m as [|[|m]]; cbn; lia.
Qed.

Lemma extracted_event_matches (prompt : string) (event : Event) :
  event <> no_event ->
  In event (primary_events (ScenarioDeltas.extract_scenario_signals prompt)) <->
  In event (matching_keys ScenarioDeltas.KEYWORDS_primary_events (lower prompt)).
Proof.
  intro Hne. cbn [ScenarioDeltas.extract_scenario_signals primary_events].
  destruct (matching_keys ScenarioDeltas.KEYWORDS_primary_events (lower prompt));
    [|reflexivity].
  split; [|intros []]. intros [H|[]]. now elim Hne.
Qed.

(** X20.  Text put before or after a prompt takes nothing away: every event
    and every secondary impact read off the prompt is read off the longer
    one, and the confidence of either extractor does not go down. *)
Theorem longer_prompt_keeps_signals (pre prompt post : string) :
  let longer := (pre ++ prompt ++ post)%string in
  let signals := ScenarioDeltas.extract_scenario_signals prompt in
  let signals' := ScenarioDeltas.extract_scenario_signals longer in
  (forall event, event <> no_event ->
                 In event (primary_events signals) -> In event (primary_events signals')) /\
  (forall impact, In impact (secondary_impacts signals) ->
                  In impact (secondary_impacts signals')) /\
  (confidence_rank (confidence signals) <= confidence_rank (confidence signals'))%nat /\
  (confidence_rank (confidence (ScenarioInterpreter.extract_signals prompt)) <=
   confidence_rank (confidence (ScenarioInterpreter.extract_signals longer)))%nat.
Proof.
  cbv zeta. refine (conj _ (conj _ (conj _ _))).
  - intros event Hne. rewrite !extracted_event_matches by exact Hne.
    rewrite !matching_keys_In. intros (kws & Hin & Hany). exists kws.
    split; [exact Hin|]. now apply any_keyword_longer.
  - intros impact. cbn [ScenarioDeltas.extract_scenario_signals secondary_impacts].
    rewrite !matching_keys_In. intros (kws & Hin & Hany). exists kws.
    split; [exact Hin|]. now apply any_keyword_longer.
  - cbn [ScenarioDeltas.extract_scenario_signals confidence].
    apply confidence_of_monotone.
    pose proof (matching_keys_longer ScenarioDeltas.KEYWORDS_primary_events pre prompt post).
    pose proof (matching_keys_longer ScenarioDeltas.KEYWORDS_secondary_impacts pre prompt post).
    pose proof (severity_counts_longer pre prompt post).
    lia.
  - cbn [ScenarioInterpreter.extract_signals confidence].
    apply (confidence_of_monotone
             (List.length (matching_keys ScenarioInterpreter.KEYWORDS_primary_events
                                         (lower prompt)) +
              List.length (matching_keys ScenarioInterpreter.KEYWORDS_secondary_impacts
                                         (lower prompt)))
             (List.length (matching_keys ScenarioInterpreter.KEYWORDS_primary_events
                                         (lower (pre ++ prompt ++ post))) +
              List.length (matching_keys ScenarioInterpreter.KEYWORDS_secondary_impacts
                                         (lower (pre ++ prompt ++ post))))).
    pose proof (matching_keys_longer ScenarioInterpreter.KEYWORDS_primary_events
                                     pre prompt post).
    pose proof (matching_keys_longer ScenarioInterpreter.KEYWORDS_secondary_impacts
                                     pre prompt post).
    lia.
Qed.

(** *** Where the two implementations meet *)

Lemma has_impact_In (impact : Impact) (impacts : list Impact) :
  ScenarioDeltas.has_impact impact impacts = true <-> In impact impacts.
Proof.
  unfold ScenarioDeltas.has_impact. rewrite existsb_exists. split.
  - intros (x & Hin & E). destruct impact, x; try discriminate E; exact Hin.
  - intro Hin. exists impact. split; [exact Hin|]. now destruct impact.
Qed.

Lemma has_impact_absent (impact : Impact) (impacts : list Impact) :
  ~ In impact impacts -> ScenarioDeltas.has_impact impact impacts = false.
Proof.
  intro H. destruct (ScenarioDeltas.has_impact impact impacts) eqn:E; [|reflexivity].
  apply has_impact_In in E. now elim H.
Qed.

Lemma impact_fold_once (impacts : list Impact) :
  NoDup impacts ->
  forall deltas,
    let folded := fold_left ScenarioInterpreter.impact_step impacts deltas in
    aqi_delta folded = aqi_delta deltas /\
    temperature_delta folded = temperature_delta deltas /\
    hospital_load_delta folded ==
      hospital_load_delta deltas +
      (if ScenarioDeltas.has_impact transport_disruption impacts then 15 else 0) +
      (if ScenarioDeltas.has_impact hospital_access_reduction impacts then 25 else 0) /\
    crop_supply_delta folded ==
      crop_supply_delta deltas +
      (if ScenarioDeltas.has_impact transport_disruption impacts then -5 else 0) +
      (if ScenarioDeltas.has_impact food_supply_disruption impacts then -10 else 0).
Proof.
  induction impacts as [|impact impacts IH]; intros Hnd deltas; cbn [fold_left].
  - cbn. repeat split; lra.
  - inversion Hnd as [|? ? Hnot Hrest]; subst.
    specialize (IH Hrest (ScenarioInterpreter.impact_step deltas impact)).
    cbv zeta in IH. destruct IH as (Ha & Ht & Hh & Hc).
    cbv zeta. rewrite Ha, Ht, Hh, Hc.
    pose proof (has_impact_absent impact impacts Hnot) as Habsent.
    unfold ScenarioDeltas.has_impact in *. cbn [existsb].
    unfold ScenarioInterpreter.impact_step, ScenarioInterpreter.row_get,
      ScenarioInterpreter.secondary_impacts_config.
    destruct impact; cbn [ScenarioDeltas.Impact_eqb orb]; rewrite ?Habsent; delta_fields;
      repeat split;
      repeat match goal with
             | |- context [existsb ?f ?l] => destruct (existsb f l)
             end; lra.
Qed.

Lemma event_steps_meet signals deltas deltas' event :
  severity signals = severity_moderate ->
  duration signals = duration_moderate ->
  Claims.deltas_eq deltas deltas' ->
  Claims.deltas_eq (ScenarioDeltas.event_step signals deltas event)
                   (ScenarioInterpreter.event_step signals deltas' event).
Proof.
  unfold Claims.deltas_eq, ScenarioDeltas.event_step, ScenarioDeltas.add_deltas,
    ScenarioInterpreter.event_step, ScenarioInterpreter.row_get,
    ScenarioInterpreter.base_impacts.
  intros -> -> (Ha & Ht & Hh & Hc).
  destruct event; delta_fields;
    cbn [ScenarioDeltas.sev_mult ScenarioDeltas.dur_mult
         ScenarioInterpreter.severity_multiplier ScenarioInterpreter.duration_multiplier];
    repeat split; lra.
Qed.

Lemma event_folds_meet signals events :
  severity signals = severity_moderate ->
  duration signals = duration_moderate ->
  forall deltas deltas',
    Claims.deltas_eq deltas deltas' ->
    Claims.deltas_eq (fold_left (ScenarioDeltas.event_step signals) events deltas)
                     (fold_left (ScenarioInterpreter.event_step signals) events deltas').
Proof.
  intros Hs Hd. induction events as [|event events IH]; intros deltas deltas' H;
    cbn [fold_left]; [exact H|].
  apply IH. now apply event_steps_meet.
Qed.

(** X21.  For signals of moderate severity and moderate duration that list
    no secondary impact twice, the two implementations give the same four
    deltas. *)
Theorem implementations_meet_at_moderate (signals : ScenarioSignals) :
  severity signals = severity_moderate ->
  duration signals = duration_moderate ->
  NoDup (secondary_impacts signals) ->
  let deltas := ScenarioDeltas.get_deltas_from_signals signals in
  let deltas' := ScenarioInterpreter.get_deltas signals in
  aqi_delta deltas == aqi_delta deltas' /\
  temperature_delta deltas == temperature_delta deltas' /\
  hospital_load_delta deltas == hospital_load_delta deltas' /\
  crop_supply_delta deltas == crop_supply_delta deltas'.
Proof.
  intros Hs Hd Hnd. cbv zeta.
  unfold ScenarioDeltas.get_deltas_from_signals, ScenarioInterpreter.get_deltas.
  pose proof (event_folds_meet signals
                (ScenarioDeltas.active_events (primary_events signals)) Hs Hd
                _ _ (deltas_eq_refl {| aqi_delta := 0; temperature_delta := 0;
                                       hospital_load_delta := 0; crop_supply_delta := 0 |}))
    as Hevents.
  change (ScenarioInterpreter.active_events (primary_events signals))
    with (ScenarioDeltas.active_events (primary_events signals)).
  revert Hevents.
  generalize (fold_left (ScenarioDeltas.event_step signals)
                        (ScenarioDeltas.active_events (primary_events signals))
                        {| aqi_delta := 0; temperature_delta := 0;
                           hospital_load_delta := 0; crop_supply_delta := 0 |}).
  generalize (fold_left (ScenarioInterpreter.event_step signals)
                        (ScenarioDeltas.active_events (primary_events signals))
                        {| aqi_delta := 0; temperature_delta := 0;
                           hospital_load_delta := 0; crop_supply_delta := 0 |}).
  intros d' d (Ha & Ht & Hh & Hc).
  destruct (impact_fold_once (secondary_impacts signals) Hnd d') as (Ka & Kt & Kh & Kc).
  rewrite Ka, Kt, Kh, Kc. unfold ScenarioDeltas.add_deltas.
  destruct (ScenarioDeltas.has_impact transport_disruption _),
    (ScenarioDeltas.has_impact hospital_access_reduction _),
    (ScenarioDeltas.has_impact food_supply_disruption _); delta_fields;
    repeat split; lra.
Qed.

End ScenarioDeltaProperties.

(** * Scenario runs *)

Section ScenarioRuns.

Import Schemas DeltaSimulation.

(** X15 on a flood over an ordinary baseline. *)
Lemma in_bounds_deltas_are_added_witness :
  let baseline := [("aqi", 150); ("temperature", 30); ("hospital_load", 60);
                   ("crop_supply", 80)] in
  let deltas := [("aqi_delta", -10); ("temperature_delta", -4);
                 ("hospital_load_delta", 12); ("crop_supply_delta", -8)] in
  let simulated := apply_deltas_to_baseline baseline deltas in
  sim_aqi simulated == 140 /\ sim_temperature simulated == 26 /\
  sim_hospital_load simulated == 72 /\ sim_crop_supply simulated == 72.
Proof.
  cbv zeta.
  destruct (in_bounds_deltas_are_added
              [("aqi", 150); ("temperature", 30); ("hospital_load", 60); ("crop_supply", 80)]
              [("aqi_delta", -10); ("temperature_delta", -4);
               ("hospital_load_delta", 12); ("crop_supply_delta", -8)])
    as (Haqi & Htemp & Hhosp & Hcrop).
  refine (conj _ (conj _ (conj _ _))).
  - rewrite Haqi; [reflexivity|]. split; vm_compute; discriminate.
  - rewrite Htemp; [reflexivity|]. split; vm_compute; discriminate.
  - rewrite Hhosp; [reflexivity|]. split; vm_compute; discriminate.
  - rewrite Hcrop; [reflexivity|]. split; vm_compute; discriminate.
Defined.

(** X21 on a flood with a heatwave that blocks transport and food. *)
Lemma implementations_meet_at_moderate_witness :
  let signals :=
    {| primary_events := [flood; heatwave];
       duration := duration_moderate;
       severity := severity_moderate;
       secondary_impacts := [transport_disruption; food_supply_disruption];
       confidence := confidence_high |} in
  aqi_delta (ScenarioDeltas.get_deltas_from_signals signals) ==
    aqi_delta (ScenarioInterpreter.get_deltas signals) /\
  temperature_delta (ScenarioDeltas.get_deltas_from_signals signals) ==
    temperature_delta (ScenarioInterpreter.get_deltas signals) /\
  hospital_load_delta (ScenarioDeltas.get_deltas_from_signals signals) ==
    hospital_load_delta (ScenarioInterpreter.get_deltas signals) /\
  crop_supply_delta (ScenarioDeltas.get_deltas_from_signals signals) ==
    crop_supply_delta (ScenarioInterpreter.get_deltas signals).
Proof.
  apply (implementations_meet_at_moderate
           {| primary_events := [flood; heatwave];
              duration := duration_moderate;
              severity := severity_moderate;
              secondary_impacts := [transport_disruption; food_supply_disruption];
              confidence := confidence_high |}).
  - reflexivity.
  - reflexivity.
  - cbn. repeat constructor; cbn; intuition discriminate.
Defined.

End ScenarioRuns.

(** * Policy scenarios *)

Section PolicyProperties.

Import Preprocessing CascadingEngine Policy.

Lemma dict_get_set {V : Type} (d : Dict V) (k k' : string) (v : V) :
  dict_get (dict_set d k v) k' = if String.eqb k k' then Some v else dict_get d k'.
Proof.
  induction d as [|[k0 v0] d IH]; cbn [dict_set dict_get]; [reflexivity|].
  destruct (String.eqb k0 k) eqn:E0; cbn [dict_get].
  - apply String.eqb_eq in E0. subst k0. now destruct (String.eqb k k').
  - rewrite IH. destruct (String.eqb k0 k') eqn:E1; [|reflexivity].
    destruct (String.eqb k k') eqn:E2; [|reflexivity].
    apply String.eqb_eq in E1, E2. subst. now rewrite String.eqb_refl in E0.
Qed.

Lemma dict_get_update (d : Dict PyFloat) (k k' : string) (f : PyFloat -> PyFloat) :
  dict_get (dict_update d k f) k' =
  if String.eqb k k' then option_map f (dict_get d k') else dict_get d k'.
Proof.
  unfold dict_update. destruct (dict_get d k) as [v|] eqn:E.
  - rewrite dict_get_set. destruct (String.eqb k k') eqn:E'; [|reflexivity].
    apply String.eqb_eq in E'. subst k'. now rewrite E.
  - destruct (String.eqb k k') eqn:E'; [|reflexivity].
    apply String.eqb_eq in E'. subst k'. now rewrite E.
Qed.

Lemma dict_set_keys {V : Type} (d : Dict V) (k : string) (v : V) :
  dict_get d k <> None -> map fst (dict_set d k v) = map fst d.
Proof.
  induction d as [|[k0 v0] d IH]; cbn [dict_set dict_get]; [congruence|].
  destruct (String.eqb k0 k); cbn [map fst]; [reflexivity|].
  intro H. now rewrite IH.
Qed.

Lemma dict_update_keys (d : Dict PyFloat) (k : string) (f : PyFloat -> PyFloat) :
  map fst (dict_update d k f) = map fst d.
Proof.
  unfold dict_update. destruct (dict_get d k) eqn:E; [|reflexivity].
  apply dict_set_keys. congruence.
Qed.

(** What a guarded assignment that may raise does when it returns. *)
Lemma dict_update_or_raise_returned (d d' : Dict PyFloat) (k : string)
      (f : PyFloat -> Result PyFloat) :
  dict_update_or_raise d k f = Ok d' ->
  map fst d' = map fst d /\
  (forall k', String.eqb k k' = false -> dict_get d' k' = dict_get d k') /\
  match dict_get d k with
  | Some v => exists v', f v = Ok v' /\ dict_get d' k = Some v'
  | None => d' = d
  end.
Proof.
  unfold dict_update_or_raise. destruct (dict_get d k) as [v|] eqn:E.
  - destruct (f v) as [v'|e] eqn:Ef; cbn [bind]; [|discriminate]. intros [= <-].
    split; [apply dict_set_keys; congruence|]. split.
    + intros k' Hk. now rewrite dict_get_set, Hk.
    + exists v'. split; [reflexivity|]. now rewrite dict_get_set, String.eqb_refl.
  - intros [= <-]. split; [reflexivity|]. split; reflexivity.
Qed.

Lemma dict_update_or_raise_raised (d : Dict PyFloat) (k : string)
      (f : PyFloat -> Result PyFloat) (e : Exc) :
  dict_update_or_raise d k f = Raise e <-> exists v, dict_get d k = Some v /\ f v = Raise e.
Proof.
  unfold dict_update_or_raise. destruct (dict_get d k) as [v|] eqn:E.
  - destruct (f v) as [v'|e'] eqn:Ef; cbn [bind].
    + split; [discriminate|]. intros (v0 & [= <-] & H). congruence.
    + split.
      * intros [= <-]. now exists v.
      * intros (v0 & [= <-] & H). congruence.
  - split; [discriminate|]. intros (v0 & H & _). discriminate H.
Qed.

Lemma traffic_reduction_keys policy d :
  map fst (traffic_reduction_policy policy d) = map fst d.
Proof.
  unfold traffic_reduction_policy.
  destruct (dict_get policy "traffic_reduction"); [|reflexivity].
  destruct (dict_get d "traffic_density") eqn:E; [|reflexivity].
  cbv zeta. rewrite !dict_update_keys.
  destruct (_ && _); [apply dict_set_keys; congruence|].
  destruct (_ && _); [apply dict_set_keys; congruence|reflexivity].
Qed.

Ltac policy_keys stage key :=
  unfold stage; destruct (dict_get _ key); [|reflexivity];
  cbv zeta; now rewrite !dict_update_keys.

Lemma aqi_cap_keys policy d : map fst (aqi_cap_policy policy d) = map fst d.
Proof. policy_keys aqi_cap_policy "aqi_cap". Qed.

Lemma emission_control_keys policy d :
  map fst (emission_control_policy policy d) = map fst d.
Proof. policy_keys emission_control_policy "emission_control". Qed.

Lemma emergency_staffing_keys policy d :
  map fst (emergency_staffing_policy policy d) = map fst d.
Proof. policy_keys emergency_staffing_policy "emergency_staffing". Qed.

Lemma import_stabilization_keys policy d :
  map fst (import_stabilization_policy policy d) = map fst d.
Proof. policy_keys import_stabilization_policy "import_stabilization". Qed.

Lemma subsidy_rate_keys policy d : map fst (subsidy_rate_policy policy d) = map fst d.
Proof. policy_keys subsidy_rate_policy "subsidy_rate". Qed.

Lemma surge_capacity_keys policy d adjusted :
  surge_capacity_policy policy d = Ok adjusted -> map fst adjusted = map fst d.
Proof.
  unfold surge_capacity_policy.
  destruct (dict_get policy "surge_capacity"); [|now intros [= <-]].
  destruct (dict_update_or_raise d "hospital_load" _) as [d'|e] eqn:E; cbn [bind];
    [|discriminate].
  intros [= <-]. rewrite dict_update_keys.
  now apply dict_update_or_raise_returned in E.
Qed.

Lemma infrastructure_keys policy d adjusted :
  infrastructure_policy policy d = Ok adjusted -> map fst adjusted = map fst d.
Proof.
  unfold infrastructure_policy.
  destruct (dict_get policy "infrastructure"); [|now intros [= <-]].
  cbv zeta. intro E. apply dict_update_or_raise_returned in E.
  destruct E as (E & _). now rewrite E, dict_update_keys.
Qed.

Lemma supply_chain_resilience_keys policy d adjusted :
  supply_chain_resilience_policy policy d = Ok adjusted -> map fst adjusted = map fst d.
Proof.
  unfold supply_chain_resilience_policy.
  destruct (dict_get policy "supply_chain_resilience"); [|now intros [= <-]].
  destruct (dict_update_or_raise d "supply_disruption_events" _) as [d'|e] eqn:E;
    cbn [bind]; [|discriminate].
  intros [= <-]. rewrite dict_update_keys.
  now apply dict_update_or_raise_returned in E.
Qed.

(** The pipeline, stage by stage. *)
Lemma apply_policy_stages (metrics policy adjusted : Dict PyFloat) :
  _apply_policy_adjustments metrics policy = Ok adjusted <->
  exists surged built,
    surge_capacity_policy policy
      (emission_control_policy policy
         (aqi_cap_policy policy (traffic_reduction_policy policy metrics))) = Ok surged /\
    infrastructure_policy policy (emergency_staffing_policy policy surged) = Ok built /\
    supply_chain_resilience_policy policy
      (subsidy_rate_policy policy (import_stabilization_policy policy built)) = Ok adjusted.
Proof.
  unfold _apply_policy_adjustments. cbv zeta.
  destruct (surge_capacity_policy policy _) as [surged|e1] eqn:E1; cbn [bind].
  - destruct (infrastructure_policy policy _) as [built|e2] eqn:E2; cbn [bind].
    + destruct (supply_chain_resilience_policy policy _) as [final|e3] eqn:E3; cbn [bind].
      * split.
        -- intros [= <-]. exists surged, built.
           split; [reflexivity|]. split; [exact E2|exact E3].
        -- intros (s' & b' & [= <-] & H2 & H3). congruence.
      * split; [discriminate|]. intros (s' & b' & [= <-] & H2 & H3). congruence.
    + split; [discriminate|]. intros (s' & b' & [= <-] & H2 & _). congruence.
  - split; [discriminate|]. intros (s' & b' & H & _). discriminate H.
Qed.

(** X22.  A policy adds no metric and drops none: when
    [_apply_policy_adjustments] returns, the adjusted dictionary has the
    keys of the metrics it was given, in their order. *)
Theorem policy_keeps_the_metric_names (metrics policy adjusted : Dict PyFloat) :
  _apply_policy_adjustments metrics policy = Ok adjusted ->
  map fst adjusted = map fst metrics.
Proof.
  intro H. apply apply_policy_stages in H. destruct H as (surged & built & E1 & E2 & E3).
  apply surge_capacity_keys in E1. apply infrastructure_keys in E2.
  apply supply_chain_resilience_keys in E3.
  rewrite E3, subsidy_rate_keys, import_stabilization_keys, E2, emergency_staffing_keys, E1,
    emission_control_keys, aqi_cap_keys, traffic_reduction_keys.
  reflexivity.
Qed.

End PolicyProperties.

(** * What a policy can and cannot do *)

Section PolicyBounds.

Import Preprocessing CascadingEngine Policy.

Ltac other_keys :=
  repeat match goal with
         | H : ?k <> ?key |- _ =>
             assert (String.eqb key k = false) by (apply String.eqb_neq; congruence);
             clear H
         end.

Ltac rewrite_other_keys :=
  repeat match goal with
         | H : String.eqb _ _ = false |- _ => rewrite H
         end.

Ltac stage_keeps stage key :=
  intros; other_keys; unfold stage; destruct (dict_get _ key); [|reflexivity];
  cbv zeta; rewrite !dict_get_update; rewrite_other_keys; reflexivity.

Lemma traffic_reduction_keeps policy d k :
  k <> "traffic_density" -> k <> "aqi" ->
  dict_get (traffic_reduction_policy policy d) k = dict_get d k.
Proof.
  intros. other_keys. unfold traffic_reduction_policy.
  destruct (dict_get policy "traffic_reduction"); [|reflexivity].
  destruct (dict_get d "traffic_density"); [|reflexivity].
  cbv zeta. rewrite !dict_get_update. rewrite_other_keys.
  destruct (_ && _); [rewrite dict_get_set; now rewrite_other_keys|].
  destruct (_ && _); [rewrite dict_get_set; now rewrite_other_keys|reflexivity].
Qed.

Lemma aqi_cap_keeps policy d k :
  k <> "aqi" -> dict_get (aqi_cap_policy policy d) k = dict_get d k.
Proof. stage_keeps aqi_cap_policy "aqi_cap". Qed.

Lemma emission_control_keeps policy d k :
  k <> "aqi" -> dict_get (emission_control_policy policy d) k = dict_get d k.
Proof. stage_keeps emission_control_policy "emission_control". Qed.

Lemma early_stages_keep (policy d : Dict PyFloat) (k : string) :
  k <> "traffic_density" -> k <> "aqi" ->
  dict_get (emission_control_policy policy
              (aqi_cap_policy policy (traffic_reduction_policy policy d))) k =
  dict_get d k.
Proof.
  intros Ht Ha.
  now rewrite emission_control_keeps, aqi_cap_keeps, traffic_reduction_keeps.
Qed.

Lemma surge_capacity_keeps policy d adjusted k :
  surge_capacity_policy policy d = Ok adjusted ->
  k <> "hospital_load" -> dict_get adjusted k = dict_get d k.
Proof.
  intros E H. other_keys. unfold surge_capacity_policy in E.
  destruct (dict_get policy "surge_capacity"); [|now injection E as <-].
  destruct (dict_update_or_raise d "hospital_load" _) as [d'|e] eqn:E'; cbn [bind] in E;
    [|discriminate].
  injection E as <-. apply dict_update_or_raise_returned in E'.
  destruct E' as (_ & Hother & _).
  rewrite dict_get_update. rewrite_other_keys. now apply Hother.
Qed.

Lemma emergency_staffing_keeps policy d k :
  k <> "hospital_load" -> dict_get (emergency_staffing_policy policy d) k = dict_get d k.
Proof. stage_keeps emergency_staffing_policy "emergency_staffing". Qed.

Lemma infrastructure_keeps policy d adjusted k :
  infrastructure_policy policy d = Ok adjusted ->
  k <> "hospital_load" -> k <> "respiratory_cases" ->
  dict_get adjusted k = dict_get d k.
Proof.
  intros E H1 H2. other_keys. unfold infrastructure_policy in E.
  destruct (dict_get policy "infrastructure"); [|now injection E as <-].
  cbv zeta in E. apply dict_update_or_raise_returned in E.
  destruct E as (_ & Hother & _).
  rewrite Hother by assumption. rewrite dict_get_update. now rewrite_other_keys.
Qed.

Lemma import_stabilization_keeps policy d k :
  k <> "crop_supply_index" ->
  dict_get (import_stabilization_policy policy d) k = dict_get d k.
Proof. stage_keeps import_stabilization_policy "import_stabilization". Qed.

Lemma subsidy_rate_keeps policy d k :
  k <> "food_price_index" -> dict_get (subsidy_rate_policy policy d) k = dict_get d k.
Proof. stage_keeps subsidy_rate_policy "subsidy_rate". Qed.

Lemma supply_chain_resilience_keeps policy d adjusted k :
  supply_chain_resilience_policy policy d = Ok adjusted ->
  k <> "supply_disruption_events" -> k <> "food_price_index" ->
  dict_get adjusted k = dict_get d k.
Proof.
  intros E H1 H2. other_keys. unfold supply_chain_resilience_policy in E.
  destruct (dict_get policy "supply_chain_resilience"); [|now injection E as <-].
  destruct (dict_update_or_raise d "supply_disruption_events" _) as [d'|e] eqn:E';
    cbn [bind] in E; [|discriminate].
  injection E as <-. apply dict_update_or_raise_returned in E'.
  destruct E' as (_ & Hother & _).
  rewrite dict_get_update. rewrite_other_keys. now apply Hother.
Qed.

(** *** When the stages return *)

Lemma py_int_raises (x : PyFloat) (e : Exc) :
  py_int x = Raise e -> e = OverflowError \/ e = ValueError.
Proof. destruct x; cbn [py_int]; intros [= <-]; auto. Qed.

Lemma surge_capacity_returns policy d :
  (exists adjusted, surge_capacity_policy policy d = Ok adjusted) <->
  (forall surge load,
      dict_get policy "surge_capacity" = Some surge ->
      dict_get d "hospital_load" = Some load ->
      Float64.feq0 (Float64.fadd64 (Fin 1) surge) = false).
Proof.
  unfold surge_capacity_policy, dict_update_or_raise, Float64.py_truediv.
  destruct (dict_get policy "surge_capacity") as [surge|].
  - destruct (dict_get d "hospital_load") as [load|].
    + destruct (Float64.feq0 (Float64.fadd64 (Fin 1) surge)) eqn:E; cbn [bind].
      * split; [intros [? H]; discriminate H|].
        intro H. specialize (H _ _ eq_refl eq_refl). congruence.
      * split; [intros _ ? ? [= <-] _; exact E|]. intros _. eexists. reflexivity.
    + cbn [bind]. split; [intros _ ? ? _ H; discriminate H|]. intros _. eexists. reflexivity.
  - split; [intros _ ? ? H; discriminate H|]. intros _. eexists. reflexivity.
Qed.

Lemma surge_capacity_raises policy d e :
  surge_capacity_policy policy d = Raise e -> e = ZeroDivisionError.
Proof.
  unfold surge_capacity_policy, dict_update_or_raise, Float64.py_truediv.
  destruct (dict_get policy "surge_capacity") as [surge|]; [|discriminate].
  destruct (dict_get d "hospital_load") as [load|]; [|discriminate].
  destruct (Float64.feq0 _); cbn [bind]; [|discriminate]. now intros [= <-].
Qed.

Lemma infrastructure_returns policy d :
  (exists adjusted, infrastructure_policy policy d = Ok adjusted) <->
  (forall infrastructure cases,
      dict_get policy "infrastructure" = Some infrastructure ->
      dict_get d "respiratory_cases" = Some cases ->
      exists z, py_int (Float64.fmul64 cases (one_minus infrastructure (3 # 10))) = Ok z).
Proof.
  unfold infrastructure_policy, dict_update_or_raise.
  destruct (dict_get policy "infrastructure") as [infrastructure|].
  - cbv zeta. rewrite dict_get_update. cbn [String.eqb Ascii.eqb Bool.eqb].
    destruct (dict_get d "respiratory_cases") as [cases|].
    + destruct (py_int _) as [z|e] eqn:E; cbn [bind].
      * split; [intros _ ? ? [= <-] [= <-]; now exists z|]. intros _. eexists. reflexivity.
      * split; [intros [? H]; discriminate H|].
        intro H. destruct (H _ _ eq_refl eq_refl) as [z Hz]. congruence.
    + split; [intros _ ? ? _ H; discriminate H|]. intros _. eexists. reflexivity.
  - split; [intros _ ? ? H; discriminate H|]. intros _. eexists. reflexivity.
Qed.

Lemma infrastructure_raises policy d e :
  infrastructure_policy policy d = Raise e -> e = OverflowError \/ e = ValueError.
Proof.
  unfold infrastructure_policy.
  destruct (dict_get policy "infrastructure") as [infrastructure|]; [|discriminate].
  cbv zeta. intro H. apply dict_update_or_raise_raised in H.
  destruct H as (cases & _ & H).
  destruct (py_int _) as [z|e'] eqn:E; cbn [bind] in H; [discriminate|].
  injection H as <-. now apply py_int_raises in E.
Qed.

Lemma supply_chain_resilience_returns policy d :
  (exists adjusted, supply_chain_resilience_policy policy d = Ok adjusted) <->
  (forall resilience events,
      dict_get policy "supply_chain_resilience" = Some resilience ->
      dict_get d "supply_disruption_events" = Some events ->
      exists z, py_int (Float64.fmul64 events (one_minus resilience (6 # 10))) = Ok z).
Proof.
  unfold supply_chain_resilience_policy, dict_update_or_raise.
  destruct (dict_get policy "supply_chain_resilience") as [resilience|].
  - destruct (dict_get d "supply_disruption_events") as [events|].
    + destruct (py_int _) as [z|e] eqn:E; cbn [bind].
      * split; [intros _ ? ? [= <-] [= <-]; now exists z|]. intros _. eexists. reflexivity.
      * split; [intros [? H]; discriminate H|].
        intro H. destruct (H _ _ eq_refl eq_refl) as [z Hz]. congruence.
    + cbn [bind]. split; [intros _ ? ? _ H; discriminate H|]. intros _. eexists. reflexivity.
  - split; [intros _ ? ? H; discriminate H|]. intros _. eexists. reflexivity.
Qed.

Lemma supply_chain_resilience_raises policy d e :
  supply_chain_resilience_policy policy d = Raise e -> e = OverflowError \/ e = ValueError.
Proof.
  unfold supply_chain_resilience_policy.
  destruct (dict_get policy "supply_chain_resilience") as [resilience|]; [|discriminate].
  destruct (dict_update_or_raise d "supply_disruption_events" _) as [d'|e'] eqn:E;
    cbn [bind]; [discriminate|].
  intros [= <-]. apply dict_update_or_raise_raised in E.
  destruct E as (events & _ & H).
  destruct (py_int _) as [z|e''] eqn:E'; cbn [bind] in H; [discriminate|].
  injection H as <-. now apply py_int_raises in E'.
Qed.

(** X23.  [_apply_policy_adjustments] returns unless a policy meets a
    metric it cannot handle.  It returns exactly when none of these holds:
    [surge_capacity] is given, the metrics hold a hospital load and
    [1 + surge_capacity] is zero (the division raises ZeroDivisionError);
    [infrastructure] is given, the metrics hold respiratory cases and
    [cases * (1 - infrastructure * 0.3)] is infinite or [nan] ([int]
    raises OverflowError or ValueError); [supply_chain_resilience] is
    given, the metrics hold disruption events and
    [events * (1 - supply_chain_resilience * 0.6)] is infinite or [nan].
    It raises nothing else. *)
Theorem policy_returns_unless_a_conversion_fails (metrics policy : Dict PyFloat) :
  ((exists adjusted, _apply_policy_adjustments metrics policy = Ok adjusted) <->
   (forall surge load,
       dict_get policy "surge_capacity" = Some surge ->
       dict_get metrics "hospital_load" = Some load ->
       Float64.feq0 (Float64.fadd64 (Fin 1) surge) = false) /\
   (forall infrastructure cases,
       dict_get policy "infrastructure" = Some infrastructure ->
       dict_get metrics "respiratory_cases" = Some cases ->
       exists z, py_int (Float64.fmul64 cases (one_minus infrastructure (3 # 10))) = Ok z) /\
   (forall resilience events,
       dict_get policy "supply_chain_resilience" = Some resilience ->
       dict_get metrics "supply_disruption_events" = Some events ->
       exists z, py_int (Float64.fmul64 events (one_minus resilience (6 # 10))) = Ok z)) /\
  (forall e, _apply_policy_adjustments metrics policy = Raise e ->
             e = ZeroDivisionError \/ e = OverflowError \/ e = ValueError).
Proof.
  split.
  - split.
    + intros [adjusted H]. apply apply_policy_stages in H.
      destruct H as (surged & built & E1 & E2 & E3).
      refine (conj _ (conj _ _)).
      * pose proof (proj1 (surge_capacity_returns _ _) (ex_intro _ _ E1)) as H.
        rewrite early_stages_keep in H by discriminate. exact H.
      * pose proof (proj1 (infrastructure_returns _ _) (ex_intro _ _ E2)) as H.
        rewrite emergency_staffing_keeps in H by discriminate.
        rewrite (surge_capacity_keeps _ _ _ _ E1) in H by discriminate.
        rewrite early_stages_keep in H by discriminate. exact H.
      * pose proof (proj1 (supply_chain_resilience_returns _ _) (ex_intro _ _ E3)) as H.
        rewrite subsidy_rate_keeps, import_stabilization_keeps in H by discriminate.
        rewrite (infrastructure_keeps _ _ _ _ E2) in H by discriminate.
        rewrite emergency_staffing_keeps in H by discriminate.
        rewrite (surge_capacity_keeps _ _ _ _ E1) in H by discriminate.
        rewrite early_stages_keep in H by discriminate. exact H.
    + intros (H1 & H2 & H3).
      destruct (proj2 (surge_capacity_returns policy
                         (emission_control_policy policy
                            (aqi_cap_policy policy (traffic_reduction_policy policy metrics)))))
        as [surged E1].
      { rewrite early_stages_keep by discriminate. exact H1. }
      destruct (proj2 (infrastructure_returns policy
                         (emergency_staffing_policy policy surged))) as [built E2].
      { rewrite emergency_staffing_keeps by discriminate.
        rewrite (surge_capacity_keeps _ _ _ _ E1) by discriminate.
        rewrite early_stages_keep by discriminate. exact H2. }
      destruct (proj2 (supply_chain_resilience_returns policy
                         (subsidy_rate_policy policy
                            (import_stabilization_policy policy built)))) as [final E3].
      { rewrite subsidy_rate_keeps, import_stabilization_keeps by discriminate.
        rewrite (infrastructure_keeps _ _ _ _ E2) by discriminate.
        rewrite emergency_staffing_keeps by discriminate.
        rewrite (surge_capacity_keeps _ _ _ _ E1) by discriminate.
        rewrite early_stages_keep by discriminate. exact H3. }
      exists final. apply apply_policy_stages. exists surged, built. auto.
  - intro e. unfold _apply_policy_adjustments. cbv zeta.
    destruct (surge_capacity_policy policy _) as [surged|e1] eqn:E1; cbn [bind].
    + destruct (infrastructure_policy policy _) as [built|e2] eqn:E2; cbn [bind].
      * destruct (supply_chain_resilience_policy policy _) as [final|e3] eqn:E3; cbn [bind];
          [discriminate|].
        intros [= <-]. right. now apply supply_chain_resilience_raises in E3.
      * intros [= <-]. right. now apply infrastructure_raises in E2.
    + intros [= <-]. left. now apply surge_capacity_raises in E1.
Qed.

(** *** Comparisons of floats *)

Lemma fltb_asymmetric (a b : PyFloat) : fltb a b = true -> fltb b a = false.
Proof.
  destruct a as [x| | |], b as [y| | |]; cbn [fltb]; try discriminate; try reflexivity.
  intro H. apply Qltb_true in H. apply Qltb_false. lra.
Qed.

Lemma fltb_irreflexive (a : PyFloat) : fltb a a = false.
Proof.
  destruct a as [x| | |]; cbn [fltb]; try reflexivity. apply Qltb_false. lra.
Qed.

Lemma fltb_fleb (a b : PyFloat) : fltb a b = true -> Float64.fleb a b = true.
Proof.
  intro H. pose proof (fltb_asymmetric _ _ H) as H'.
  destruct a as [x| | |], b as [y| | |]; cbn [fltb] in H; try discriminate H;
    unfold Float64.fleb; now rewrite H'.
Qed.

Lemma fleb_reflexive (a : PyFloat) : a <> NaN -> Float64.fleb a a = true.
Proof.
  intro H. pose proof (fltb_irreflexive a) as H'.
  destruct a as [x| | |]; try (now elim H); unfold Float64.fleb; now rewrite H'.
Qed.

(** [max(lo, x)] is at least [lo]; [min(hi, x)] and [min(x, hi)] are at
    most [hi]. *)
Lemma py_max_at_least (lo x : PyFloat) :
  lo <> NaN -> Float64.fleb lo (py_max fltb lo x) = true.
Proof.
  intro H. unfold py_max. destruct (fltb lo x) eqn:E.
  - now apply fltb_fleb.
  - now apply fleb_reflexive.
Qed.

Lemma py_min_at_most_l (hi x : PyFloat) :
  hi <> NaN -> Float64.fleb (py_min fltb hi x) hi = true.
Proof.
  intro H. unfold py_min. destruct (fltb x hi) eqn:E.
  - now apply fltb_fleb.
  - now apply fleb_reflexive.
Qed.

Lemma py_min_at_most_r (x hi : PyFloat) :
  hi <> NaN -> py_min fltb x hi <> NaN -> Float64.fleb (py_min fltb x hi) hi = true.
Proof.
  intros H. unfold py_min. destruct (fltb hi x) eqn:E.
  - intros _. now apply fleb_reflexive.
  - intro Hx. destruct x as [v| | |], hi as [w| | |]; try (now elim H); try (now elim Hx);
      unfold Float64.fleb; now rewrite E.
Qed.

(** A clamp between two numbers leaves a number between them, whatever
    float it is given. *)
Lemma float_clamp_finite (lo hi : Q) (x : PyFloat) :
  lo <= hi ->
  exists q, py_max fltb (Fin lo) (py_min fltb (Fin hi) x) = Fin q /\ lo <= q <= hi.
Proof.
  intro Hle. unfold py_max, py_min.
  destruct x as [v| | |]; cbn [fltb].
  - case_Qltb v hi; cbn [fltb].
    + case_Qltb lo v; eexists; (split; [reflexivity|lra]).
    + case_Qltb lo hi; eexists; (split; [reflexivity|lra]).
  - case_Qltb lo hi; eexists; (split; [reflexivity|lra]).
  - case_Qltb lo hi; eexists; (split; [reflexivity|lra]).
  - exists lo. split; [reflexivity|lra].
Qed.

(** The doubles 0.4 and 0.95 lie on the inner side of the decimals. *)
Lemma clamp_load_bounds (load : PyFloat) :
  exists q, clamp_load load = Fin q /\ (4 # 10) <= q <= (95 # 100).
Proof.
  unfold clamp_load.
  assert (Hlo : exists lo, Float64.literal (4 # 10) = Fin lo /\ (4 # 10) <= lo <= (5 # 10)).
  { eexists. split; [vm_compute; reflexivity|]. split; vm_compute; discriminate. }
  assert (Hhi : exists hi, Float64.literal (95 # 100) = Fin hi /\ (5 # 10) <= hi <= (95 # 100)).
  { eexists. split; [vm_compute; reflexivity|]. split; vm_compute; discriminate. }
  destruct Hlo as (lo & -> & Hlo), Hhi as (hi & -> & Hhi).
  destruct (float_clamp_finite lo hi load ltac:(lra)) as (q & -> & Hq).
  exists q. split; [reflexivity|lra].
Qed.

Lemma traffic_density_after (reduction current : PyFloat) (policy metrics : Dict PyFloat) :
  dict_get policy "traffic_reduction" = Some reduction ->
  dict_get metrics "traffic_density" = Some current ->
  exists level,
    dict_get (traffic_reduction_policy policy metrics) "traffic_density" = Some level /\
    Float64.fleb (Fin 0) level = true /\
    (forall c, current = Fin c -> subtracts_exactly c 1 -> subtracts_exactly c 2 ->
               exists l, level = Fin l /\ l <= Qmax 0 c).
Proof.
  intros Hp Hm. unfold traffic_reduction_policy. rewrite Hp, Hm. cbv zeta.
  rewrite !dict_get_update. cbn [String.eqb Ascii.eqb Bool.eqb].
  assert (Hmax : forall c x, x <= c ->
                             exists l, py_max fltb (Fin 0) (Fin x) = Fin l /\ l <= Qmax 0 c).
  { intros c x Hx. unfold py_max. cbn [fltb].
    pose proof (Q.le_max_l 0 c). pose proof (Q.le_max_r 0 c).
    case_Qltb 0 x; eexists; (split; [reflexivity|lra]). }
  destruct (_ && _).
  { rewrite dict_get_set. cbn [String.eqb Ascii.eqb Bool.eqb option_map].
    eexists. split; [reflexivity|]. split; [apply py_max_at_least; discriminate|].
    intros c -> _ (x & -> & Hx). apply Hmax. rewrite Hx. lra. }
  destruct (_ && _).
  { rewrite dict_get_set. cbn [String.eqb Ascii.eqb Bool.eqb option_map].
    eexists. split; [reflexivity|]. split; [apply py_max_at_least; discriminate|].
    intros c -> (x & -> & Hx) _. apply Hmax. rewrite Hx. lra. }
  rewrite Hm. cbn [option_map].
  eexists. split; [reflexivity|]. split; [apply py_max_at_least; discriminate|].
  intros c -> _ _. apply Hmax. lra.
Qed.

Lemma hospital_load_after_surge (policy d surged : Dict PyFloat) (load : PyFloat) :
  dict_get policy "surge_capacity" <> None ->
  surge_capacity_policy policy d = Ok surged ->
  dict_get surged "hospital_load" = Some load ->
  exists l, load = Fin l /\ (4 # 10) <= l <= (95 # 100).
Proof.
  intros Hp E Hload. unfold surge_capacity_policy in E.
  destruct (dict_get policy "surge_capacity"); [|now elim Hp].
  destruct (dict_update_or_raise d "hospital_load" _) as [d'|e] eqn:E'; cbn [bind] in E;
    [|discriminate].
  injection E as <-. rewrite dict_get_update in Hload.
  cbn [String.eqb Ascii.eqb Bool.eqb] in Hload.
  destruct (dict_get d' "hospital_load"); cbn [option_map] in Hload; [|discriminate].
  injection Hload as <-. apply clamp_load_bounds.
Qed.

Lemma hospital_load_after_staffing (policy d : Dict PyFloat) (load : PyFloat) :
  dict_get policy "emergency_staffing" <> None ->
  dict_get (emergency_staffing_policy policy d) "hospital_load" = Some load ->
  exists l, load = Fin l /\ (4 # 10) <= l <= (95 # 100).
Proof.
  intros Hp. unfold emergency_staffing_policy.
  destruct (dict_get policy "emergency_staffing"); [|now elim Hp].
  cbv zeta. rewrite !dict_get_update. cbn [String.eqb Ascii.eqb Bool.eqb].
  destruct (dict_get d "hospital_load"); cbn [option_map]; [|discriminate].
  intros [= <-]. apply clamp_load_bounds.
Qed.

Lemma emergency_staffing_absent (policy d : Dict PyFloat) :
  dict_get policy "emergency_staffing" = None -> emergency_staffing_policy policy d = d.
Proof. intro H. unfold emergency_staffing_policy. now rewrite H. Qed.

Lemma infrastructure_absent (policy d adjusted : Dict PyFloat) :
  dict_get policy "infrastructure" = None ->
  infrastructure_policy policy d = Ok adjusted -> adjusted = d.
Proof. intro H. unfold infrastructure_policy. rewrite H. now intros [= <-]. Qed.

Lemma supply_chain_resilience_absent (policy d adjusted : Dict PyFloat) :
  dict_get policy "supply_chain_resilience" = None ->
  supply_chain_resilience_policy policy d = Ok adjusted -> adjusted = d.
Proof. intro H. unfold supply_chain_resilience_policy. rewrite H. now intros [= <-]. Qed.

Lemma emission_control_absent (policy d : Dict PyFloat) :
  dict_get policy "emission_control" = None -> emission_control_policy policy d = d.
Proof. intro H. unfold emission_control_policy. now rewrite H. Qed.

(** X24.  What the clamps of the policy blocks guarantee of the adjusted
    metrics, in the comparisons of floats: a traffic reduction leaves a
    traffic level of at least 0, and at most the larger of 0 and the level
    before when the one or two levels it takes off are taken off exactly
    (as they are from any level below 2^53); surge capacity or emergency
    staffing (without infrastructure investment) leaves a hospital load in
    [0.4, 0.95]; import stabilization leaves a crop supply of at most 100;
    a subsidy (without supply-chain resilience) leaves a price index of at
    least 80; a cap on the air quality index (without emission control)
    holds unless the cap or the index is [nan]; supply-chain resilience
    leaves no negative number of disruptions. *)
Theorem adjusted_metrics_bounds (metrics policy adjusted : Dict PyFloat) :
  _apply_policy_adjustments metrics policy = Ok adjusted ->
  (forall reduction current,
      dict_get policy "traffic_reduction" = Some reduction ->
      dict_get metrics "traffic_density" = Some current ->
      exists level,
        dict_get adjusted "traffic_density" = Some level /\
        Float64.fleb (Fin 0) level = true /\
        (forall c, current = Fin c -> subtracts_exactly c 1 -> subtracts_exactly c 2 ->
                   exists l, level = Fin l /\ l <= Qmax 0 c)) /\
  (forall load,
      dict_get policy "surge_capacity" <> None \/
      dict_get policy "emergency_staffing" <> None ->
      dict_get policy "infrastructure" = None ->
      dict_get adjusted "hospital_load" = Some load ->
      exists l, load = Fin l /\ (4 # 10) <= l <= (95 # 100)) /\
  (forall supply,
      dict_get policy "import_stabilization" <> None ->
      dict_get adjusted "crop_supply_index" = Some supply ->
      Float64.fleb supply (Fin 100) = true) /\
  (forall price,
      dict_get policy "subsidy_rate" <> None ->
      dict_get policy "supply_chain_resilience" = None ->
      dict_get adjusted "food_price_index" = Some price ->
      Float64.fleb (Fin 80) price = true) /\
  (forall aqi_cap aqi,
      dict_get policy "aqi_cap" = Some aqi_cap ->
      dict_get policy "emission_control" = None ->
      dict_get adjusted "aqi" = Some aqi ->
      aqi_cap <> NaN -> aqi <> NaN ->
      Float64.fleb aqi aqi_cap = true) /\
  (forall events,
      dict_get policy "supply_chain_resilience" <> None ->
      dict_get adjusted "supply_disruption_events" = Some events ->
      Float64.fleb (Fin 0) events = true).
Proof.
  intro H. apply apply_policy_stages in H. destruct H as (surged & built & E1 & E2 & E3).
  refine (conj _ (conj _ (conj _ (conj _ (conj _ _))))).
  - intros reduction current Hp Hm.
    rewrite (supply_chain_resilience_keeps _ _ _ _ E3) by discriminate.
    rewrite subsidy_rate_keeps, import_stabilization_keeps by discriminate.
    rewrite (infrastructure_keeps _ _ _ _ E2) by discriminate.
    rewrite emergency_staffing_keeps by discriminate.
    rewrite (surge_capacity_keeps _ _ _ _ E1) by discriminate.
    rewrite emission_control_keeps, aqi_cap_keeps by discriminate.
    now apply (traffic_density_after reduction).
  - intros load Hp Hinfra.
    rewrite (supply_chain_resilience_keeps _ _ _ _ E3) by discriminate.
    rewrite subsidy_rate_keeps, import_stabilization_keeps by discriminate.
    rewrite (infrastructure_absent _ _ _ Hinfra E2).
    destruct (dict_get policy "emergency_staffing") eqn:Estaff.
    + apply hospital_load_after_staffing. congruence.
    + rewrite emergency_staffing_absent by exact Estaff.
      destruct Hp as [Hp|Hp]; [|now elim Hp].
      intro Hload. exact (hospital_load_after_surge policy _ surged load Hp E1 Hload).
  - intros supply Hp.
    rewrite (supply_chain_resilience_keeps _ _ _ _ E3) by discriminate.
    rewrite subsidy_rate_keeps by discriminate.
    unfold import_stabilization_policy.
    destruct (dict_get policy "import_stabilization"); [|now elim Hp].
    cbv zeta. rewrite !dict_get_update. cbn [String.eqb Ascii.eqb Bool.eqb].
    destruct (dict_get _ "crop_supply_index"); cbn [option_map]; [|discriminate].
    intros [= <-]. apply py_min_at_most_l. discriminate.
  - intros price Hp Hchain.
    rewrite (supply_chain_resilience_absent _ _ _ Hchain E3).
    unfold subsidy_rate_policy.
    destruct (dict_get policy "subsidy_rate"); [|now elim Hp].
    cbv zeta. rewrite !dict_get_update. cbn [String.eqb Ascii.eqb Bool.eqb].
    destruct (dict_get _ "food_price_index"); cbn [option_map]; [|discriminate].
    intros [= <-]. apply py_max_at_least. discriminate.
  - intros aqi_cap aqi Hp Hemission.
    rewrite (supply_chain_resilience_keeps _ _ _ _ E3) by discriminate.
    rewrite subsidy_rate_keeps, import_stabilization_keeps by discriminate.
    rewrite (infrastructure_keeps _ _ _ _ E2) by discriminate.
    rewrite emergency_staffing_keeps by discriminate.
    rewrite (surge_capacity_keeps _ _ _ _ E1) by discriminate.
    rewrite emission_control_absent by exact Hemission.
    unfold aqi_cap_policy. rewrite Hp, dict_get_update.
    cbn [String.eqb Ascii.eqb Bool.eqb].
    destruct (dict_get _ "aqi"); cbn [option_map]; [|discriminate].
    intros [= <-] Hcap Haqi. now apply py_min_at_most_r.
  - intros events Hp.
    unfold supply_chain_resilience_policy in E3.
    destruct (dict_get policy "supply_chain_resilience"); [|now elim Hp].
    destruct (dict_update_or_raise _ "supply_disruption_events" _) as [d'|e] eqn:E';
      cbn [bind] in E3; [|discriminate].
    injection E3 as <-. rewrite dict_get_update. cbn [String.eqb Ascii.eqb Bool.eqb].
    apply dict_update_or_raise_returned in E'. destruct E' as (_ & _ & Hin).
    destruct (dict_get (subsidy_rate_policy policy (import_stabilization_policy policy built))
                       "supply_disruption_events") as [before|] eqn:Eb.
    + destruct Hin as (v' & Hv & Hget). rewrite Hget. intros [= <-].
      destruct (py_int _) as [z|e]; cbn [bind] in Hv; [|discriminate].
      injection Hv as <-. unfold of_int, py_max, Float64.fleb. cbn [fltb].
      apply negb_true_iff, Qltb_false.
      destruct (0 <? z)%Z eqn:Ez.
      * apply Z.ltb_lt in Ez. unfold Qle. cbn. lia.
      * unfold Qle. cbn. lia.
    + subst d'. rewrite Eb. discriminate.
Qed.

Lemma known_policies_absent (policy : Dict PyFloat) :
  (forall k, In k known_policies -> dict_get policy k = None) ->
  forall metrics, _apply_policy_adjustments metrics policy = Ok metrics.
Proof.
  intros H metrics.
  unfold _apply_policy_adjustments, traffic_reduction_policy, aqi_cap_policy,
    emission_control_policy, surge_capacity_policy, emergency_staffing_policy,
    infrastructure_policy, import_stabilization_policy, subsidy_rate_policy,
    supply_chain_resilience_policy.
  cbv zeta.
  rewrite !H by (unfold known_policies; cbn; tauto).
  reflexivity.
Qed.

(** *** A float less itself *)

Lemma round64_of_zero (q : Q) : Qnum q = 0%Z -> Float64.round64 q = Fin 0.
Proof. intro H. unfold Float64.round64, Float64.nearest. now rewrite H. Qed.

Lemma fsub64_same (p x : Q) :
  Float64.round64 p = Fin x -> Float64.fsub64 (Fin p) (Fin p) = Fin 0.
Proof.
  intro H. unfold Float64.fsub64, Float64.double. rewrite H.
  apply round64_of_zero. destruct x as [n d]. cbn. ring.
Qed.

Lemma safe_pct_change_same (p x : Q) :
  Float64.round64 p = Fin x -> safe_pct_change (Fin p) (Fin p) = Fin 0.
Proof.
  intro H. unfold safe_pct_change, Float64.feq0. cbn [Float64.double]. rewrite H.
  destruct (Qeq_bool x 0) eqn:E; [reflexivity|].
  rewrite (fsub64_same p x H).
  assert (Hzero : Float64.round64 0 = Fin 0) by now apply round64_of_zero.
  assert (Hdiv : Float64.fdiv64 (Fin 0) (Fin p) = Fin 0).
  { unfold Float64.fdiv64. cbn [Float64.double]. rewrite Hzero, H, E.
    now apply round64_of_zero. }
  rewrite Hdiv. unfold Float64.fmul64. cbn [Float64.double]. rewrite Hzero.
  destruct (Float64.round64 100) as [y| | |] eqn:E100;
    try (vm_compute in E100; discriminate E100).
  now apply round64_of_zero.
Qed.

Variable parse : string -> option PyFloat.
Variable np_log : Q -> Q.

(** X25.  A policy that names none of the nine known policies has no
    effect: the run does not divide by zero, the intervention metrics are
    the baseline metrics, the intervention prediction is the baseline
    prediction, the resilience does not change, and the delta and the
    percentage change of every probability within the range of the doubles
    (as every float of the source is) are 0.  The run fails only where the
    baseline prediction does. *)
Theorem unknown_policy_has_no_effect (self : CascadingRiskEngine)
        (metrics policy : Dict PyFloat) :
  (forall k, In k known_policies -> dict_get policy k = None) ->
  match run_policy_scenario parse np_log self metrics policy with
  | Ok outcome =>
      intervention_metrics outcome = metrics /\
      outcome_intervention outcome = outcome_baseline outcome /\
      delta_resilience_score (outcome_delta outcome) = 0%Z /\
      (in_double_range (prob (environmental (outcome_baseline outcome))) ->
       delta_environmental (outcome_delta outcome) = Fin 0 /\
       percent_environmental (outcome_percent_change outcome) = Fin 0) /\
      (in_double_range (prob (health (outcome_baseline outcome))) ->
       delta_health (outcome_delta outcome) = Fin 0 /\
       percent_health (outcome_percent_change outcome) = Fin 0) /\
      (in_double_range (prob (food_security (outcome_baseline outcome))) ->
       delta_food_security (outcome_delta outcome) = Fin 0 /\
       percent_food_security (outcome_percent_change outcome) = Fin 0)
  | Raise e => predict_cascading_risks parse np_log self (as_metrics metrics) = Raise e
  end.
Proof.
  intro H. unfold run_policy_scenario.
  rewrite (known_policies_absent policy H metrics).
  destruct (_is_trained self) eqn:Etrained; cbn [negb].
  - destruct (predict_cascading_risks parse np_log self (as_metrics metrics))
      as [baseline|e] eqn:Eb; cbn [bind]; [|reflexivity].
    rewrite Eb. cbn [bind].
    cbn [intervention_metrics outcome_intervention outcome_baseline outcome_delta
         outcome_percent_change delta_environmental delta_health delta_food_security
         delta_resilience_score percent_environmental percent_health percent_food_security].
    refine (conj eq_refl (conj eq_refl (conj _ (conj _ (conj _ _))))).
    + lia.
    + intros [x Hx]. split; [exact (fsub64_same _ _ Hx)|exact (safe_pct_change_same _ _ Hx)].
    + intros [x Hx]. split; [exact (fsub64_same _ _ Hx)|exact (safe_pct_change_same _ _ Hx)].
    + intros [x Hx]. split; [exact (fsub64_same _ _ Hx)|exact (safe_pct_change_same _ _ Hx)].
  - unfold predict_cascading_risks. now rewrite Etrained.
Qed.

End PolicyBounds.

(** * Policy runs *)

Section PolicyRuns.

Import Preprocessing CascadingEngine Policy Samples MoreSamples.

(** X22 on the relief policy. *)
Lemma policy_keeps_the_metric_names_witness :
  exists adjusted,
    _apply_policy_adjustments strained_city relief_policy = Ok adjusted /\
    map fst adjusted = map fst strained_city.
Proof.
  destruct (_apply_policy_adjustments strained_city relief_policy) as [adjusted|e] eqn:E;
    [|vm_compute in E; discriminate E].
  exists adjusted. split; [reflexivity|].
  exact (policy_keeps_the_metric_names strained_city relief_policy adjusted E).
Defined.

(** X24 on the relief policy: the traffic level goes from 2 to 0. *)
Lemma adjusted_metrics_bounds_witness :
  exists adjusted level,
    _apply_policy_adjustments strained_city relief_policy = Ok adjusted /\
    dict_get adjusted "traffic_density" = Some (Fin level) /\ level <= Qmax 0 2.
Proof.
  destruct (_apply_policy_adjustments strained_city relief_policy) as [adjusted|e] eqn:E;
    [|vm_compute in E; discriminate E].
  destruct (adjusted_metrics_bounds strained_city relief_policy adjusted E)
    as (Htraffic & _).
  destruct (Htraffic (Fin (1 # 2)) (Fin 2) eq_refl eq_refl) as (level & Hlevel & _ & Hupper).
  destruct (Hupper 2 eq_refl) as (l & Hl & Hle).
  - eexists. split; [vm_compute; reflexivity|]. vm_compute. reflexivity.
  - eexists. split; [vm_compute; reflexivity|]. vm_compute. reflexivity.
  - exists adjusted, l. split; [reflexivity|]. split; [now rewrite Hlevel, Hl|exact Hle].
Defined.

(** X25 on a policy the engine does not know. *)
Lemma unknown_policy_has_no_effect_witness :
  exists outcome,
    run_policy_scenario no_text tangent_log calm_engine strained_city unknown_policy =
      Ok outcome /\
    intervention_metrics outcome = strained_city /\
    delta_resilience_score (outcome_delta outcome) = 0%Z /\
    delta_environmental (outcome_delta outcome) = Fin 0 /\
    percent_environmental (outcome_percent_change outcome) = Fin 0.
Proof.
  assert (H : forall k, In k known_policies -> dict_get unknown_policy k = None).
  { intros k Hin. unfold known_policies in Hin. cbn [In] in Hin.
    repeat (destruct Hin as [<-|Hin]; [reflexivity|]). elim Hin. }
  pose proof (unknown_policy_has_no_effect no_text tangent_log calm_engine
                strained_city unknown_policy H) as P.
  destruct (run_policy_scenario no_text tangent_log calm_engine strained_city unknown_policy)
    as [outcome|e] eqn:E; [|vm_compute in E; discriminate E].
  destruct P as (Hm & _ & Hr & Henv & _).
  exists outcome. split; [reflexivity|]. split; [exact Hm|]. split; [exact Hr|].
  apply Henv. vm_compute in E. injection E as <-.
  eexists. vm_compute. reflexivity.
Defined.

End PolicyRuns.
